(** * ReveeGate: the real-time donation notification pipeline

    A shallow embedding of the webhook ingress, the payment/donation
    reconciliation engine and the websocket hub of ReveeGate, with the
    properties the design document states about them.

    Conventions of the embedding:
    - Go [string] and [[]byte] values are byte sequences; text is a Rocq
      [string] and raw digests are [list Z] with every element in 0..255.
    - [time.Time] and [time.Duration] are integers counting nanoseconds.
    - SQL tables are lists of rows; Redis is a finite map from keys to a
      value and an expiry instant; Go maps are [gmap]s and Go buffered
      channels are bounded FIFO lists.
    - A Go [error] result is an [option string]: [None] is [nil]. *)

From Stdlib Require Import ZArith NArith Lia Bool Ascii String DecimalString DecimalPos DecimalZ.
From stdpp Require Import base option list gmap strings.

#[local] Set Warnings "-clear-no-such-hyp".

Local Open Scope Z_scope.

(* ================================================================== *)
(** ** crypto/sha512, encoding/hex, crypto/subtle, crypto/hmac *)
(* ================================================================== *)

Module sha512.

(** 64-bit words are integers in [0, 2^64); every operation wraps. *)
Definition w64 (x : Z) : Z := x mod 2 ^ 64.
Definition add64 (x y : Z) : Z := w64 (x + y).
Definition rotr (n x : Z) : Z :=
  w64 (Z.lor (Z.shiftr x n) (Z.shiftl x (64 - n))).
Definition shr (n x : Z) : Z := Z.shiftr x n.
Definition not64 (x : Z) : Z := Z.lxor x (2 ^ 64 - 1).

Definition Ch (x y z : Z) : Z := Z.lxor (Z.land x y) (Z.land (not64 x) z).
Definition Maj (x y z : Z) : Z :=
  Z.lxor (Z.lxor (Z.land x y) (Z.land x z)) (Z.land y z).
Definition bsig0 (x : Z) : Z := Z.lxor (Z.lxor (rotr 28 x) (rotr 34 x)) (rotr 39 x).
Definition bsig1 (x : Z) : Z := Z.lxor (Z.lxor (rotr 14 x) (rotr 18 x)) (rotr 41 x).
Definition ssig0 (x : Z) : Z := Z.lxor (Z.lxor (rotr 1 x) (rotr 8 x)) (shr 7 x).
Definition ssig1 (x : Z) : Z := Z.lxor (Z.lxor (rotr 19 x) (rotr 61 x)) (shr 6 x).

Definition K : list Z :=
[
 0x428a2f98d728ae22; 0x7137449123ef65cd; 0xb5c0fbcfec4d3b2f; 0xe9b5dba58189dbbc;
 0x3956c25bf348b538; 0x59f111f1b605d019; 0x923f82a4af194f9b; 0xab1c5ed5da6d8118;
 0xd807aa98a3030242; 0x12835b0145706fbe; 0x243185be4ee4b28c; 0x550c7dc3d5ffb4e2;
 0x72be5d74f27b896f; 0x80deb1fe3b1696b1; 0x9bdc06a725c71235; 0xc19bf174cf692694;
 0xe49b69c19ef14ad2; 0xefbe4786384f25e3; 0x0fc19dc68b8cd5b5; 0x240ca1cc77ac9c65;
 0x2de92c6f592b0275; 0x4a7484aa6ea6e483; 0x5cb0a9dcbd41fbd4; 0x76f988da831153b5;
 0x983e5152ee66dfab; 0xa831c66d2db43210; 0xb00327c898fb213f; 0xbf597fc7beef0ee4;
 0xc6e00bf33da88fc2; 0xd5a79147930aa725; 0x06ca6351e003826f; 0x142929670a0e6e70;
 0x27b70a8546d22ffc; 0x2e1b21385c26c926; 0x4d2c6dfc5ac42aed; 0x53380d139d95b3df;
 0x650a73548baf63de; 0x766a0abb3c77b2a8; 0x81c2c92e47edaee6; 0x92722c851482353b;
 0xa2bfe8a14cf10364; 0xa81a664bbc423001; 0xc24b8b70d0f89791; 0xc76c51a30654be30;
 0xd192e819d6ef5218; 0xd69906245565a910; 0xf40e35855771202a; 0x106aa07032bbd1b8;
 0x19a4c116b8d2d0c8; 0x1e376c085141ab53; 0x2748774cdf8eeb99; 0x34b0bcb5e19b48a8;
 0x391c0cb3c5c95a63; 0x4ed8aa4ae3418acb; 0x5b9cca4f7763e373; 0x682e6ff3d6b2b8a3;
 0x748f82ee5defb2fc; 0x78a5636f43172f60; 0x84c87814a1f0ab72; 0x8cc702081a6439ec;
 0x90befffa23631e28; 0xa4506cebde82bde9; 0xbef9a3f7b2c67915; 0xc67178f2e372532b;
 0xca273eceea26619c; 0xd186b8c721c0c207; 0xeada7dd6cde0eb1e; 0xf57d4f7fee6ed178;
 0x06f067aa72176fba; 0x0a637dc5a2c898a6; 0x113f9804bef90dae; 0x1b710b35131c471b;
 0x28db77f523047d84; 0x32caab7b40c72493; 0x3c9ebe0a15c9bebc; 0x431d67c49c100d4c;
 0x4cc5d4becb3e42b6; 0x597f299cfc657e2a; 0x5fcb6fab3ad6faec; 0x6c44198c4a475817 ].

Definition init : list Z :=
[
 0x6a09e667f3bcc908; 0xbb67ae8584caa73b; 0x3c6ef372fe94f82b; 0xa54ff53a5f1d36f1;
 0x510e527fade682d1; 0x9b05688c2b3e6c1f; 0x1f83d9abfb41bd6b; 0x5be0cd19137e2179 ].

(** One round on the working variables [a; b; c; d; e; f; g; h]. *)
Definition round (k w : Z) (v : list Z) : list Z :=
  match v with
  | [a; b; c; d; e; f; g; h] =>
      let t1 := add64 (add64 (add64 (add64 h (bsig1 e)) (Ch e f g)) k) w in
      let t2 := add64 (bsig0 a) (Maj a b c) in
      [add64 t1 t2; a; b; c; add64 d t1; e; f; g]
  | _ => v
  end.

(** The 80 rounds; [w] is the sliding window of the last 16 schedule words. *)
Fixpoint rounds (ks : list Z) (w : list Z) (v : list Z) : list Z :=
  match ks with
  | [] => v
  | k :: ks' =>
      let wt := nth 0 w 0 in
      let next := add64 (add64 (ssig1 (nth 14 w 0)) (nth 9 w 0))
                        (add64 (ssig0 (nth 1 w 0)) wt) in
      rounds ks' (tl w ++ [next]) (round k wt v)
  end.

(** Big-endian decoding of the bytes of a block into 64-bit words. *)
Fixpoint be_words (fuel : nat) (bs : list Z) : list Z :=
  match fuel with
  | O => []
  | S fuel' =>
      match bs with
      | [] => []
      | _ => fold_left (fun acc b => acc * 256 + b) (take 8 bs) 0
               :: be_words fuel' (drop 8 bs)
      end
  end.

Definition block (h : list Z) (p : list Z) : list Z :=
  zip_with add64 h (rounds K (be_words 16 p) h).

Fixpoint blocks (fuel : nat) (h : list Z) (bs : list Z) : list Z :=
  match fuel with
  | O => h
  | S fuel' =>
      match bs with
      | [] => h
      | _ => blocks fuel' (block h (take 128 bs)) (drop 128 bs)
      end
  end.

(** Big-endian encoding of [x] on [n] bytes. *)
Fixpoint be_bytes (n : nat) (x : Z) : list Z :=
  match n with
  | O => []
  | S n' => be_bytes n' (x / 256) ++ [x mod 256]
  end.

(** Padding: 0x80, zeros up to 112 mod 128, then the bit length on 16 bytes. *)
Definition pad (msg : list Z) : list Z :=
  let len := Z.of_nat (length msg) in
  let zeros := Z.to_nat ((111 - len) mod 128) in
  msg ++ [128] ++ replicate zeros 0 ++ be_bytes 16 (8 * len).

(** [sha512.New(); Write(msg); Sum(nil)]: the 64-byte digest of [msg]. *)
Definition Sum (msg : list Z) : list Z :=
  let p := pad msg in
  flat_map (be_bytes 8) (blocks (length p) init p).

End sha512.

Module hex.

Definition hextable : string := "0123456789abcdef".

Definition digit (n : Z) : ascii :=
  match String.get (Z.to_nat n) hextable with
  | Some c => c
  | None => "0"%char
  end.

(** [hex.EncodeToString]: two digits per byte, high nibble first. *)
Fixpoint EncodeToString (src : list Z) : string :=
  match src with
  | [] => EmptyString
  | v :: rest =>
      String (digit (Z.shiftr v 4))
        (String (digit (Z.land v 15)) (EncodeToString rest))
  end.

End hex.

(** [[]byte(s)]: the bytes of a string. *)
Fixpoint bytes_of (s : string) : list Z :=
  match s with
  | EmptyString => []
  | String c s' => Z.of_N (N_of_ascii c) :: bytes_of s'
  end.

Module subtle.

(** [ConstantTimeByteEq]: 1 when the two bytes are equal, else 0, computed
    by 32-bit wrap-around arithmetic without branching. *)
Definition ConstantTimeByteEq (x y : Z) : Z :=
  Z.shiftr ((Z.lxor x y - 1) mod 2 ^ 32) 31.

(** The loop [v |= x[i] ^ y[i]] of [ConstantTimeCompare], with the number
    of iterations it runs. *)
Fixpoint accumulate (v : Z) (steps : nat) (x y : list Z) : Z * nat :=
  match x, y with
  | a :: x', b :: y' => accumulate (Z.lor v (Z.lxor a b)) (S steps) x' y'
  | _, _ => (v, steps)
  end.

(** [ConstantTimeCompare] with its iteration count: 0 at once when the
    lengths differ, otherwise every byte pair is folded into the
    accumulator before the single test at the end. *)
Definition compare (x y : list Z) : Z * nat :=
  if negb (length x =? length y)%nat then (0, O)
  else
    let '(v, steps) := accumulate 0 O x y in
    (ConstantTimeByteEq v 0, steps).

Definition ConstantTimeCompare (x y : list Z) : Z := fst (compare x y).

End subtle.

Module hmac.
(** [hmac.Equal] *)
Definition Equal (mac1 mac2 : list Z) : bool :=
  subtle.ConstantTimeCompare mac1 mac2 =? 1.
End hmac.

(* ================================================================== *)
(** ** Shared conventions *)
(* ================================================================== *)

(** A Go result [(T, error)]. *)
Inductive result (A : Type) : Type :=
| Ok (a : A)
| Err (e : string).
Arguments Ok {A} a.
Arguments Err {A} e.

(** [time.Hour], in nanoseconds. *)
Definition Hour : Z := 3600 * 10 ^ 9.

Module uuid.
(** [UUID.String]: the 16 bytes in hex, grouped 8-4-4-4-12. *)
Definition String (id : N) : string :=
  let h := hex.EncodeToString (sha512.be_bytes 16 (Z.of_N id)) in
  substring 0 8 h +:+ "-" +:+ substring 8 4 h +:+ "-" +:+ substring 12 4 h
    +:+ "-" +:+ substring 16 4 h +:+ "-" +:+ substring 20 12 h.
End uuid.

(** A value stored under a key of a [map[string]interface{}]; an instant
    rendered with [Format(time.RFC3339)] is kept as the instant. *)
Inductive value : Type :=
| VString (s : string)
| VInt (n : Z)
| VInstant (t : Z).

(* ================================================================== *)
(** ** internal/domain/donation *)
(* ================================================================== *)

Module donation.

Inductive Status : Type :=
| StatusPending | StatusCompleted | StatusExpired | StatusFailed | StatusCancelled.

Record Donation : Type := {
  ID : N;
  DonorName : string;
  DonorEmail : string;
  Message : string;
  Amount : Z;
  Status_ : Status;
  Metadata : gmap string value;
  PaidAt : option Z;
  CreatedAt : Z;
  UpdatedAt : Z
}.

Definition MarkAsPaid (now : Z) (d : Donation) : Donation :=
  {| ID := ID d; DonorName := DonorName d; DonorEmail := DonorEmail d;
     Message := Message d; Amount := Amount d;
     Status_ := StatusCompleted;
     Metadata := Metadata d;
     PaidAt := Some now;
     CreatedAt := CreatedAt d;
     UpdatedAt := now |}.

Definition MarkAsExpired (now : Z) (d : Donation) : Donation :=
  {| ID := ID d; DonorName := DonorName d; DonorEmail := DonorEmail d;
     Message := Message d; Amount := Amount d;
     Status_ := StatusExpired;
     Metadata := Metadata d;
     PaidAt := PaidAt d;
     CreatedAt := CreatedAt d;
     UpdatedAt := now |}.

Definition MarkAsFailed (now : Z) (d : Donation) : Donation :=
  {| ID := ID d; DonorName := DonorName d; DonorEmail := DonorEmail d;
     Message := Message d; Amount := Amount d;
     Status_ := StatusFailed;
     Metadata := Metadata d;
     PaidAt := PaidAt d;
     CreatedAt := CreatedAt d;
     UpdatedAt := now |}.


(** [NewDonation], run at instant [now] with [newID] the value of
    [uuid.New()]. *)
Definition NewDonation (now : Z) (newID : N) (donorName donorEmail message : string)
    (amount : Z) : Donation :=
  {| ID := newID;
     DonorName := if String.eqb donorName "" then "Anonymous" else donorName;
     DonorEmail := donorEmail;
     Message := message;
     Amount := amount;
     Status_ := StatusPending;
     Metadata := ∅;
     PaidAt := None;
     CreatedAt := now;
     UpdatedAt := now |}.

End donation.

(* ================================================================== *)
(** ** internal/domain/payment *)
(* ================================================================== *)

Module payment.

Inductive Status : Type :=
| StatusPending | StatusPaid | StatusExpired | StatusFailed | StatusRefunded.

Definition Status_eqb (a b : Status) : bool :=
  match a, b with
  | StatusPending, StatusPending | StatusPaid, StatusPaid
  | StatusExpired, StatusExpired | StatusFailed, StatusFailed
  | StatusRefunded, StatusRefunded => true
  | _, _ => false
  end.

Inductive Provider : Type := ProviderMidtrans | ProviderXendit.

Definition Provider_eqb (a b : Provider) : bool :=
  match a, b with
  | ProviderMidtrans, ProviderMidtrans | ProviderXendit, ProviderXendit => true
  | _, _ => false
  end.

(** [string(provider)] *)
Definition Provider_string (p : Provider) : string :=
  match p with
  | ProviderMidtrans => "midtrans"
  | ProviderXendit => "xendit"
  end.

Record Payment : Type := {
  ID : N;
  DonationID : N;
  Provider_ : Provider;
  ExternalID : string;
  PaymentMethod : string;
  Amount : Z;
  Status_ : Status;
  QRCodeURL : string;
  VANumber : string;
  DeepLink : string;
  ExpiresAt : Z;
  PaidAt : option Z;
  Metadata : gmap string value;
  CreatedAt : Z;
  UpdatedAt : Z
}.

Definition MarkAsPaid (now : Z) (p : Payment) : Payment :=
  {| ID := ID p; DonationID := DonationID p; Provider_ := Provider_ p;
     ExternalID := ExternalID p; PaymentMethod := PaymentMethod p;
     Amount := Amount p;
     Status_ := StatusPaid;
     QRCodeURL := QRCodeURL p; VANumber := VANumber p; DeepLink := DeepLink p;
     ExpiresAt := ExpiresAt p;
     PaidAt := Some now;
     Metadata := Metadata p;
     CreatedAt := CreatedAt p;
     UpdatedAt := now |}.

Definition MarkAsExpired (now : Z) (p : Payment) : Payment :=
  {| ID := ID p; DonationID := DonationID p; Provider_ := Provider_ p;
     ExternalID := ExternalID p; PaymentMethod := PaymentMethod p;
     Amount := Amount p;
     Status_ := StatusExpired;
     QRCodeURL := QRCodeURL p; VANumber := VANumber p; DeepLink := DeepLink p;
     ExpiresAt := ExpiresAt p;
     PaidAt := PaidAt p;
     Metadata := Metadata p;
     CreatedAt := CreatedAt p;
     UpdatedAt := now |}.

Definition MarkAsFailed (now : Z) (p : Payment) : Payment :=
  {| ID := ID p; DonationID := DonationID p; Provider_ := Provider_ p;
     ExternalID := ExternalID p; PaymentMethod := PaymentMethod p;
     Amount := Amount p;
     Status_ := StatusFailed;
     QRCodeURL := QRCodeURL p; VANumber := VANumber p; DeepLink := DeepLink p;
     ExpiresAt := ExpiresAt p;
     PaidAt := PaidAt p;
     Metadata := Metadata p;
     CreatedAt := CreatedAt p;
     UpdatedAt := now |}.

(** [pay.Metadata[k] = v] *)
Definition SetMetadata (k : string) (v : value) (p : Payment) : Payment :=
  {| ID := ID p; DonationID := DonationID p; Provider_ := Provider_ p;
     ExternalID := ExternalID p; PaymentMethod := PaymentMethod p;
     Amount := Amount p;
     Status_ := Status_ p;
     QRCodeURL := QRCodeURL p; VANumber := VANumber p; DeepLink := DeepLink p;
     ExpiresAt := ExpiresAt p;
     PaidAt := PaidAt p;
     Metadata := <[k := v]> (Metadata p);
     CreatedAt := CreatedAt p;
     UpdatedAt := UpdatedAt p |}.

Definition IsPending (p : Payment) : bool := Status_eqb (Status_ p) StatusPending.
Definition IsPaid (p : Payment) : bool := Status_eqb (Status_ p) StatusPaid.

(** [WebhookLog]; a nil [RawPayload] map is [None]. *)
Record WebhookLog : Type := {
  wl_ID : N;
  wl_Provider : Provider;
  wl_EventType : string;
  wl_ExternalID : string;
  wl_RawPayload : option (gmap string value);
  wl_Payload : list Z;
  wl_Headers : gmap string string;
  wl_Signature : string;
  wl_IPAddress : string;
  wl_CreatedAt : Z
}.


(** [NewPayment], run at instant [now] with [newID] the value of
    [uuid.New()]. *)
Definition NewPayment (now : Z) (newID donationID : N) (provider : Provider)
    (method : string) (amount expiresAt : Z) : Payment :=
  {| ID := newID; DonationID := donationID; Provider_ := provider;
     ExternalID := ""; PaymentMethod := method; Amount := amount;
     Status_ := StatusPending;
     QRCodeURL := ""; VANumber := ""; DeepLink := "";
     ExpiresAt := expiresAt; PaidAt := None; Metadata := ∅;
     CreatedAt := now; UpdatedAt := now |}.

Definition SetExternalID (now : Z) (externalID : string) (p : Payment) : Payment :=
  {| ID := ID p; DonationID := DonationID p; Provider_ := Provider_ p;
     ExternalID := externalID; PaymentMethod := PaymentMethod p;
     Amount := Amount p; Status_ := Status_ p;
     QRCodeURL := QRCodeURL p; VANumber := VANumber p; DeepLink := DeepLink p;
     ExpiresAt := ExpiresAt p; PaidAt := PaidAt p; Metadata := Metadata p;
     CreatedAt := CreatedAt p; UpdatedAt := now |}.

Definition SetPaymentDetails (now : Z) (qrCodeURL vaNumber deepLink : string)
    (p : Payment) : Payment :=
  {| ID := ID p; DonationID := DonationID p; Provider_ := Provider_ p;
     ExternalID := ExternalID p; PaymentMethod := PaymentMethod p;
     Amount := Amount p; Status_ := Status_ p;
     QRCodeURL := qrCodeURL; VANumber := vaNumber; DeepLink := deepLink;
     ExpiresAt := ExpiresAt p; PaidAt := PaidAt p; Metadata := Metadata p;
     CreatedAt := CreatedAt p; UpdatedAt := now |}.

(** [pay.ExpiresAt = t] *)
Definition SetExpiresAt (t : Z) (p : Payment) : Payment :=
  {| ID := ID p; DonationID := DonationID p; Provider_ := Provider_ p;
     ExternalID := ExternalID p; PaymentMethod := PaymentMethod p;
     Amount := Amount p; Status_ := Status_ p;
     QRCodeURL := QRCodeURL p; VANumber := VANumber p; DeepLink := DeepLink p;
     ExpiresAt := t; PaidAt := PaidAt p; Metadata := Metadata p;
     CreatedAt := CreatedAt p; UpdatedAt := UpdatedAt p |}.

(** [GenerateOrderID]: ["DONATION-" + p.ID.String()[:8]] *)
Definition GenerateOrderID (p : Payment) : string :=
  "DONATION-" +:+ substring 0 8 (uuid.String (ID p)).

End payment.

(* ================================================================== *)
(** ** internal/repository/redis *)
(* ================================================================== *)

Module redis.

Record DonationEvent : Type := {
  Type_ : string;
  ID : string;
  DonorName : string;
  Message : string;
  Amount : Z;
  PaidAt : Z
}.

Definition NewDonationEvent (id donorName message : string) (amount : Z)
    (paidAt : Z) : DonationEvent :=
  {| Type_ := "new_donation"; ID := id; DonorName := donorName;
     Message := message; Amount := amount; PaidAt := paidAt |}.

(** The Redis server as the client sees it: whether a command reaches it,
    the string keys with their value and expiry instant ([None]: no
    expiry), and the messages published so far, oldest first. *)
Record Client : Type := {
  reachable : bool;
  keys : gmap string (string * option Z);
  published : list (string * DonationEvent)
}.

(** A key is live at [now] when it is stored and has not expired. *)
Definition live (now : Z) (ks : gmap string (string * option Z)) (key : string) : bool :=
  match ks !! key with
  | Some (_, Some expiry) => now <? expiry
  | Some (_, None) => true
  | None => false
  end.

(** The error of a command that did not reach the server. *)
Definition ErrUnreachable : string := "dial tcp: connect: connection refused".

(** [client.SetNX(ctx, key, data, ttl).Result()]: on an error the boolean
    is the zero value [false]. *)
Definition client_SetNX (now : Z) (c : Client) (key data : string) (ttl : Z)
    : Client * bool * option string :=
  if negb (reachable c) then (c, false, Some ErrUnreachable)
  else if live now (keys c) key then (c, false, None)
  else
    ({| reachable := reachable c;
        keys := <[key := (data, if ttl =? 0 then None else Some (now + ttl))]> (keys c);
        published := published c |},
     true, None).

(** [json.Marshal] of a Go string without characters to escape. *)
Definition Marshal_string (s : string) : string :=
  String "034"%char (s +:+ String "034"%char EmptyString).

(** [Cache.SetNX] *)
Definition SetNX (now : Z) (c : Client) (key value : string) (ttl : Z)
    : Client * bool * option string :=
  client_SetNX now c key (Marshal_string value) ttl.

Definition KeyPrefixWebhook : string := "webhook:".

(** [IdempotencyKey]: [fmt.Sprintf("%s%s:%s:%s", ...)] *)
Definition IdempotencyKey (provider externalID transactionID : string) : string :=
  KeyPrefixWebhook +:+ provider +:+ ":" +:+ externalID +:+ ":" +:+ transactionID.

Definition ChannelDonationsNew : string := "donations:new".

(** [PubSub.Publish] of a donation event; the message is kept as the event
    that [json.Marshal] renders, and the Debug line is not modelled. *)
Definition Publish (c : Client) (channel : string) (message : DonationEvent)
    : Client * option string :=
  if negb (reachable c) then
    (c, Some ("failed to publish message: " +:+ ErrUnreachable))
  else
    ({| reachable := reachable c; keys := keys c;
        published := published c ++ [(channel, message)] |}, None).

Definition PublishDonationEvent (c : Client) (event : DonationEvent)
    : Client * option string :=
  Publish c ChannelDonationsNew event.


(** *** The cache of [cache.go] *)

(** [strconv.FormatInt(z, 10)], which is also what [fmt.Sprintf("%d", z)]
    prints. *)
Definition FormatInt (z : Z) : string := NilZero.string_of_int (Z.to_int z).

Definition MinInt64 : Z := - 2 ^ 63.
Definition MaxInt64 : Z := 2 ^ 63 - 1.

(** How the server reads a stored value as a 64-bit integer for INCR:
    only the canonical decimal text of an integer in range is one. *)
Definition string2ll (s : string) : option Z :=
  match NilZero.int_of_string s with
  | Some d =>
      let z := Z.of_int d in
      if String.eqb (FormatInt z) s && (MinInt64 <=? z) && (z <=? MaxInt64)
      then Some z else None
  | None => None
  end.

(** [strconv.ParseInt(s, 10, 64)]: an optional sign, then decimal digits
    (leading zeros allowed); [Err] carries the reason. *)
Definition ParseInt (s : string) : result Z :=
  let digits :=
    match s with
    | String "+" rest =>
        match rest with
        | String "-" _ => None
        | _ => Z.of_int <$> NilZero.int_of_string rest
        end
    | _ => Z.of_int <$> NilZero.int_of_string s
    end in
  match digits with
  | None => Err "invalid syntax"
  | Some z =>
      if (MinInt64 <=? z) && (z <=? MaxInt64) then Ok z
      else Err "value out of range"
  end.

Definition ErrNotInteger : string := "ERR value is not an integer or out of range".
Definition ErrOverflow : string := "ERR increment or decrement would overflow".

(** [ErrCacheMiss] *)
Definition ErrCacheMiss : string := "cache miss".

Definition with_keys (c : Client) (ks : gmap string (string * option Z)) : Client :=
  {| reachable := reachable c; keys := ks; published := published c |}.

(** The value under a key that is live at [now]. *)
Definition value_at (now : Z) (c : Client) (key : string) : option string :=
  if live now (keys c) key then fst <$> keys c !! key else None.

(** The expiry of a key that is live at [now]. *)
Definition expiry_at (now : Z) (c : Client) (key : string) : option Z :=
  if live now (keys c) key then keys c !! key ≫= snd else None.

(** What [client.Get(ctx, key)] answers: the value, [redis.Nil], or the
    error of a command that did not reach the server. *)
Inductive reply : Type :=
| Value (v : string)
| Nil
| Failed (e : string).

Definition client_Get (now : Z) (c : Client) (key : string) : reply :=
  if negb (reachable c) then Failed ErrUnreachable
  else match value_at now c key with
       | Some v => Value v
       | None => Nil
       end.

Definition Millisecond : Z := 10 ^ 6.
Definition Second : Z := 10 ^ 9.

(** [KeepTTL] of go-redis. *)
Definition KeepTTL : Z := -1.

(** [client.Set(ctx, key, value, ttl)]: a positive [ttl] is sent in whole
    milliseconds (at least one) and sets the expiry, [KeepTTL] keeps the
    expiry the key has, any other [ttl] leaves the key without expiry. *)
Definition client_Set (now : Z) (c : Client) (key value : string) (ttl : Z)
    : Client * option string :=
  if negb (reachable c) then (c, Some ErrUnreachable)
  else
    let expiry :=
      if 0 <? ttl then
        Some (now + (if ttl <? Millisecond then Millisecond
                     else ttl / Millisecond * Millisecond))
      else if ttl =? KeepTTL then expiry_at now c key
      else None in
    (with_keys c (<[key := (value, expiry)]> (keys c)), None).

(** [Cache.SetString] *)
Definition SetString (now : Z) (c : Client) (key value : string) (ttl : Z)
    : Client * option string :=
  client_Set now c key value ttl.

(** [Cache.GetString] *)
Definition GetString (now : Z) (c : Client) (key : string) : result string :=
  match client_Get now c key with
  | Value v => Ok v
  | Nil => Err ErrCacheMiss
  | Failed e => Err ("failed to get string: " +:+ e)
  end.

(** [Cache.Delete]: DEL of a key, stored or not. *)
Definition Delete (c : Client) (key : string) : Client * option string :=
  if negb (reachable c) then (c, Some ErrUnreachable)
  else (with_keys c (delete key (keys c)), None).

(** [Cache.Exists] *)
Definition Exists (now : Z) (c : Client) (key : string) : bool :=
  if negb (reachable c) then false else live now (keys c) key.

(** INCR as the server runs it: a key that is not live counts as 0 and
    gets no expiry, a live key keeps the expiry it has. *)
Definition server_Incr (now : Z) (c : Client) (key : string) : Client * result Z :=
  match value_at now c key with
  | None => (with_keys c (<[key := ("1"%string, None)]> (keys c)), Ok 1)
  | Some v =>
      match string2ll v with
      | None => (c, Err ErrNotInteger)
      | Some n =>
          if n =? MaxInt64 then (c, Err ErrOverflow)
          else (with_keys c (<[key := (FormatInt (n + 1), expiry_at now c key)]>
                               (keys c)),
                Ok (n + 1))
      end
  end.

(** The seconds go-redis sends for a duration: a positive duration below
    a second is sent as one second, any other is truncated. *)
Definition formatSec (dur : Z) : Z :=
  if (0 <? dur) && (dur <? Second) then 1 else Z.quot dur Second.

(** EXPIRE as the server runs it: on a live key, a positive number of
    seconds sets the expiry and any other deletes the key. *)
Definition server_Expire (now : Z) (c : Client) (key : string) (ttl : Z) : Client :=
  match value_at now c key with
  | None => c
  | Some v =>
      let secs := formatSec ttl in
      if 0 <? secs
      then with_keys c (<[key := (v, Some (now + secs * Second))]> (keys c))
      else with_keys c (delete key (keys c))
  end.

(** [Cache.Increment] *)
Definition Increment (now : Z) (c : Client) (key : string) : Client * result Z :=
  if negb (reachable c) then (c, Err ErrUnreachable)
  else server_Incr now c key.

(** [Cache.IncrementWithTTL]: INCR and EXPIRE go out in one pipeline, the
    server runs both, and [Exec] reports the first error. *)
Definition IncrementWithTTL (now : Z) (c : Client) (key : string) (ttl : Z)
    : Client * result Z :=
  if negb (reachable c)
  then (c, Err ("failed to increment with TTL: " +:+ ErrUnreachable))
  else
    let '(c, incr) := server_Incr now c key in
    let c := server_Expire now c key ttl in
    match incr with
    | Ok n => (c, Ok n)
    | Err e => (c, Err ("failed to increment with TTL: " +:+ e))
    end.

(** [Cache.GetCounter]; the text of a conversion error is the reason
    [strconv] gives. *)
Definition GetCounter (now : Z) (c : Client) (key : string) : result Z :=
  match client_Get now c key with
  | Value v =>
      match ParseInt v with
      | Ok n => Ok n
      | Err e => Err ("failed to get counter: " +:+ e)
      end
  | Nil => Ok 0
  | Failed e => Err ("failed to get counter: " +:+ e)
  end.

Definition KeyPrefixRateLimit : string := "ratelimit:".

(** [RateLimitKey]: [fmt.Sprintf("%s%s:%s", KeyPrefixRateLimit, endpoint, ip)] *)
Definition RateLimitKey (ip endpoint : string) : string :=
  KeyPrefixRateLimit +:+ endpoint +:+ ":" +:+ ip.

End redis.

(* ================================================================== *)
(** ** internal/repository/postgres *)
(* ================================================================== *)

Module postgres.

(** A row of [webhook_logs]; [raw_payload] is the JSON value ([None] is
    JSON null). *)
Record webhook_logs_row : Type := {
  id : N;
  provider : string;
  event_type : string;
  external_id : string;
  raw_payload : option (gmap string value);
  signature : string;
  ip_address : string;
  created_at : Z
}.

Record DB : Type := {
  payments : list payment.Payment;
  donations : list donation.Donation;
  webhook_logs : list webhook_logs_row
}.

Definition with_payments (db : DB) (ps : list payment.Payment) : DB :=
  {| payments := ps; donations := donations db; webhook_logs := webhook_logs db |}.
Definition with_donations (db : DB) (ds : list donation.Donation) : DB :=
  {| payments := payments db; donations := ds; webhook_logs := webhook_logs db |}.
Definition with_webhook_logs (db : DB) (ls : list webhook_logs_row) : DB :=
  {| payments := payments db; donations := donations db; webhook_logs := ls |}.

(** [scanPayment] of the first row a query selects. *)
Definition scanPayment (row : option payment.Payment) : result payment.Payment :=
  match row with
  | Some p => Ok p
  | None => Err "payment not found"
  end.

Definition scanDonation (row : option donation.Donation) : result donation.Donation :=
  match row with
  | Some d => Ok d
  | None => Err "donation not found"
  end.


(** What the server checks when a row is inserted (the keys, the CHECK
    and the column constraints of the schema): [None] when the row is
    admitted, otherwise the error it raises. *)
Record Constraints : Type := {
  check_donation : DB -> donation.Donation -> option string;
  check_payment : DB -> payment.Payment -> option string
}.

Module PaymentRepository.

(** [SELECT ... FROM payments WHERE id = $1] *)
Definition GetByID (db : DB) (id : N) : result payment.Payment :=
  scanPayment (List.find (fun p => (payment.ID p =? id)%N) (payments db)).

(** [SELECT ... FROM payments WHERE provider = $1 AND external_id = $2] *)
Definition GetByExternalID (db : DB) (provider : payment.Provider)
    (externalID : string) : result payment.Payment :=
  scanPayment
    (List.find (fun p => payment.Provider_eqb (payment.Provider_ p) provider
                           && String.eqb (payment.ExternalID p) externalID)
               (payments db)).

(** The SET clause of [Update] applied to one row. *)
Definition update_row (now : Z) (p row : payment.Payment) : payment.Payment :=
  {| payment.ID := payment.ID row;
     payment.DonationID := payment.DonationID row;
     payment.Provider_ := payment.Provider_ row;
     payment.ExternalID := payment.ExternalID p;
     payment.PaymentMethod := payment.PaymentMethod row;
     payment.Amount := payment.Amount row;
     payment.Status_ := payment.Status_ p;
     payment.QRCodeURL := payment.QRCodeURL p;
     payment.VANumber := payment.VANumber p;
     payment.DeepLink := payment.DeepLink p;
     payment.ExpiresAt := payment.ExpiresAt row;
     payment.PaidAt := payment.PaidAt p;
     payment.Metadata := payment.Metadata p;
     payment.CreatedAt := payment.CreatedAt row;
     payment.UpdatedAt := now |}.

(** [UPDATE payments SET ... WHERE id = $1]; no affected row is an error.
    The statement itself is taken to execute: the error [pool.Exec] can
    return (a lost connection, a cancelled context) is not modelled, so
    what is proved of the callers holds of runs in which the database
    answers. *)
Definition Update (now : Z) (db : DB) (p : payment.Payment) : DB * option string :=
  if existsb (fun row => (payment.ID row =? payment.ID p)%N) (payments db) then
    (with_payments db
       (map (fun row => if (payment.ID row =? payment.ID p)%N
                        then update_row now p row else row) (payments db)),
     None)
  else (db, Some "payment not found").


(** [INSERT INTO payments (id, donation_id, provider, external_id,
    payment_method, amount, status, qr_code_url, va_number, deep_link,
    expires_at, metadata, created_at, updated_at)]: [paid_at] is not in
    the list and is stored as NULL. *)
Definition Create (k : Constraints) (db : DB) (p : payment.Payment)
    : DB * option string :=
  match check_payment k db p with
  | Some e => (db, Some ("failed to create payment: " +:+ e))
  | None =>
      (with_payments db
         (payments db ++
            [{| payment.ID := payment.ID p;
                payment.DonationID := payment.DonationID p;
                payment.Provider_ := payment.Provider_ p;
                payment.ExternalID := payment.ExternalID p;
                payment.PaymentMethod := payment.PaymentMethod p;
                payment.Amount := payment.Amount p;
                payment.Status_ := payment.Status_ p;
                payment.QRCodeURL := payment.QRCodeURL p;
                payment.VANumber := payment.VANumber p;
                payment.DeepLink := payment.DeepLink p;
                payment.ExpiresAt := payment.ExpiresAt p;
                payment.PaidAt := None;
                payment.Metadata := payment.Metadata p;
                payment.CreatedAt := payment.CreatedAt p;
                payment.UpdatedAt := payment.UpdatedAt p |}]),
       None)
  end.

End PaymentRepository.

Module DonationRepository.

(** [SELECT ... FROM donations WHERE id = $1] *)
Definition GetByID (db : DB) (id : N) : result donation.Donation :=
  scanDonation (List.find (fun d => (donation.ID d =? id)%N) (donations db)).

Definition update_row (now : Z) (d row : donation.Donation) : donation.Donation :=
  {| donation.ID := donation.ID row;
     donation.DonorName := donation.DonorName d;
     donation.DonorEmail := donation.DonorEmail d;
     donation.Message := donation.Message d;
     donation.Amount := donation.Amount d;
     donation.Status_ := donation.Status_ d;
     donation.Metadata := donation.Metadata d;
     donation.PaidAt := donation.PaidAt d;
     donation.CreatedAt := donation.CreatedAt row;
     donation.UpdatedAt := now |}.

(** [UPDATE donations SET ... WHERE id = $1]; no affected row is an
    error, and the statement itself is taken to execute, as in
    [PaymentRepository.Update]. *)
Definition Update (now : Z) (db : DB) (d : donation.Donation) : DB * option string :=
  if existsb (fun row => (donation.ID row =? donation.ID d)%N) (donations db) then
    (with_donations db
       (map (fun row => if (donation.ID row =? donation.ID d)%N
                        then update_row now d row else row) (donations db)),
     None)
  else (db, Some "donation not found").


(** [INSERT INTO donations (id, donor_name, donor_email, message,
    amount, status, metadata, created_at, updated_at)]: [paid_at] is
    not in the list and is stored as NULL. *)
Definition Create (k : Constraints) (db : DB) (d : donation.Donation)
    : DB * option string :=
  match check_donation k db d with
  | Some e => (db, Some ("failed to create donation: " +:+ e))
  | None =>
      (with_donations db
         (donations db ++
            [{| donation.ID := donation.ID d;
                donation.DonorName := donation.DonorName d;
                donation.DonorEmail := donation.DonorEmail d;
                donation.Message := donation.Message d;
                donation.Amount := donation.Amount d;
                donation.Status_ := donation.Status_ d;
                donation.Metadata := donation.Metadata d;
                donation.PaidAt := None;
                donation.CreatedAt := donation.CreatedAt d;
                donation.UpdatedAt := donation.UpdatedAt d |}]),
       None)
  end.

End DonationRepository.

End postgres.

(* ================================================================== *)
(** ** internal/domain/provider: the payment provider interface *)
(* ================================================================== *)

Module provider.

Record PaymentRequest : Type := {
  OrderID : string;
  Amount : Z;
  PaymentMethod : string;
  CustomerName : string;
  CustomerEmail : string;
  Description : string;
  CallbackURL : string;
  ExpiryTime : Z
}.

(** [PaymentResponse]; [RawResponse] is never read by the service and is
    left out. *)
Record PaymentResponse : Type := {
  ExternalID : string;
  TransactionID : string;
  r_PaymentMethod : string;
  QRCodeURL : string;
  VANumber : string;
  DeepLink : string;
  ExpiresAt : Z
}.

(** The part of the [Provider] interface that [DonationService] calls;
    [CreatePayment] is the answer of the remote service to a request. *)
Record Provider : Type := {
  GetName : payment.Provider;
  CreatePayment : PaymentRequest -> result PaymentResponse
}.

End provider.

(* ================================================================== *)
(** ** The status switches of the two provider packages *)
(* ================================================================== *)

Module xendit.
(** The switch on [status] in [ParseWebhook]. *)
Definition webhook_status (status : string) : payment.Status :=
  if String.eqb status "PAID" || String.eqb status "SETTLED" then payment.StatusPaid
  else if String.eqb status "PENDING" || String.eqb status "ACTIVE"
  then payment.StatusPending
  else if String.eqb status "EXPIRED" then payment.StatusExpired
  else if String.eqb status "FAILED" then payment.StatusFailed
  else payment.StatusPending.
End xendit.

Module midtrans.
(** The switch on [transactionStatus] in [ParseWebhook]. *)
Definition webhook_status (transactionStatus : string) : payment.Status :=
  if String.eqb transactionStatus "capture"
     || String.eqb transactionStatus "settlement" then payment.StatusPaid
  else if String.eqb transactionStatus "pending" then payment.StatusPending
  else if String.eqb transactionStatus "deny"
          || String.eqb transactionStatus "cancel" then payment.StatusFailed
  else if String.eqb transactionStatus "expire" then payment.StatusExpired
  else payment.StatusPending.
End midtrans.


(* ================================================================== *)
(** ** internal/service: the reconciliation engine *)
(* ================================================================== *)

Module service.

Inductive Level : Type := Debug | Info | Warn | Error.

(** Everything [DonationService] and the webhook handler act on: the
    database, the Redis server and the lines written to the logger. *)
Record World : Type := {
  db : postgres.DB;
  rds : redis.Client;
  logger : list (Level * string)
}.

Definition with_db (s : World) (d : postgres.DB) : World :=
  {| db := d; rds := rds s; logger := logger s |}.
Definition with_rds (s : World) (r : redis.Client) : World :=
  {| db := db s; rds := r; logger := logger s |}.
Definition log (l : Level) (msg : string) (s : World) : World :=
  {| db := db s; rds := rds s; logger := logger s ++ [(l, msg)] |}.

(** [ProcessWebhookParams]; the fields [PaidAt] and [RawPayload] of the Go
    struct are never read by [ProcessWebhook] and are left out. *)
Record ProcessWebhookParams : Type := {
  Provider : payment.Provider;
  OrderID : string;
  TransactionID : string;
  Status : payment.Status
}.

(** [don.ID.String(), don.DonorName, don.Message, don.Amount, don.PaidAt] *)
Definition event_of (don : donation.Donation) : redis.DonationEvent :=
  redis.NewDonationEvent (uuid.String (donation.ID don)) (donation.DonorName don)
    (donation.Message don) (donation.Amount don)
    (default 0 (donation.PaidAt don)).

(** The [payment.StatusPaid] case of the switch in [ProcessWebhook]. *)
Definition webhook_paid (now : Z) (s : World) (pay : payment.Payment)
    : World * option string :=
  let pay := payment.MarkAsPaid now pay in
  match postgres.PaymentRepository.Update now (db s) pay with
  | (_, Some e) => (s, Some ("failed to update payment: " +:+ e))
  | (db1, None) =>
      let s := with_db s db1 in
      match postgres.DonationRepository.GetByID (db s) (payment.DonationID pay) with
      | Err e => (s, Some ("donation not found: " +:+ e))
      | Ok don =>
          let don := donation.MarkAsPaid now don in
          match postgres.DonationRepository.Update now (db s) don with
          | (_, Some e) => (s, Some ("failed to update donation: " +:+ e))
          | (db2, None) =>
              let s := with_db s db2 in
              let event := event_of don in
              let '(r, perr) := redis.PublishDonationEvent (rds s) event in
              let s := with_rds s r in
              let s := match perr with
                       | Some _ => log Error "failed to publish donation event" s
                       | None => s
                       end in
              (log Info "payment completed" s, None)
          end
      end
  end.

(** The [StatusExpired] and [StatusFailed] cases: the payment is marked and
    saved, then the donation is marked when it is found; errors of the
    donation update are dropped. *)
Definition webhook_closed (now : Z) (s : World) (pay : payment.Payment)
    (markDonation : Z -> donation.Donation -> donation.Donation)
    : World * option string :=
  match postgres.PaymentRepository.Update now (db s) pay with
  | (_, Some e) => (s, Some ("failed to update payment: " +:+ e))
  | (db1, None) =>
      let s := with_db s db1 in
      match postgres.DonationRepository.GetByID (db s) (payment.DonationID pay) with
      | Ok don =>
          let don := markDonation now don in
          (with_db s (fst (postgres.DonationRepository.Update now (db s) don)), None)
      | Err _ => (s, None)
      end
  end.

(** [DonationService.ProcessWebhook], run at instant [now]. *)
Definition ProcessWebhook (now : Z) (s : World) (params : ProcessWebhookParams)
    : World * option string :=
  let idempotencyKey :=
    redis.IdempotencyKey (payment.Provider_string (Provider params))
      (OrderID params) (TransactionID params) in
  let '(r, set, err) :=
    redis.SetNX now (rds s) idempotencyKey "processing" (24 * Hour) in
  let s := with_rds s r in
  let s := match err with
           | Some _ => log Warn "failed to check idempotency" s
           | None => s
           end in
  if negb set then (log Info "duplicate webhook ignored" s, None)
  else
    match postgres.PaymentRepository.GetByExternalID (db s) (Provider params)
            (OrderID params) with
    | Err e => (s, Some ("payment not found: " +:+ e))
    | Ok pay =>
        if payment.IsPaid pay then (log Info "payment already paid" s, None)
        else
          match Status params with
          | payment.StatusPaid => webhook_paid now s pay
          | payment.StatusExpired =>
              webhook_closed now s (payment.MarkAsExpired now pay)
                donation.MarkAsExpired
          | payment.StatusFailed =>
              webhook_closed now s (payment.MarkAsFailed now pay)
                donation.MarkAsFailed
          | _ => (s, None)
          end
    end.

(** [DonationService.ManualReconcile], run at instant [now]. *)
Definition ManualReconcile (now : Z) (s : World) (paymentID : N)
    (status : payment.Status) (reason : string) : World * option string :=
  match postgres.PaymentRepository.GetByID (db s) paymentID with
  | Err e => (s, Some ("payment not found: " +:+ e))
  | Ok pay =>
      match postgres.DonationRepository.GetByID (db s) (payment.DonationID pay) with
      | Err e => (s, Some ("donation not found: " +:+ e))
      | Ok don =>
          let '(pay, don, s) :=
            match status with
            | payment.StatusPaid =>
                let pay := payment.MarkAsPaid now pay in
                let don := donation.MarkAsPaid now don in
                (pay, don,
                 with_rds s (fst (redis.PublishDonationEvent (rds s) (event_of don))))
            | payment.StatusFailed =>
                (payment.MarkAsFailed now pay, donation.MarkAsFailed now don, s)
            | _ => (pay, don, s)
            end in
          let pay := payment.SetMetadata "reconciliation_reason" (VString reason) pay in
          let pay := payment.SetMetadata "reconciliation_at" (VInstant now) pay in
          match postgres.PaymentRepository.Update now (db s) pay with
          | (_, Some e) => (s, Some ("failed to update payment: " +:+ e))
          | (db1, None) =>
              let s := with_db s db1 in
              match postgres.DonationRepository.Update now (db s) don with
              | (_, Some e) => (s, Some ("failed to update donation: " +:+ e))
              | (db2, None) =>
                  (log Info "manual reconciliation completed" (with_db s db2), None)
              end
          end
      end
  end.


Record CreateDonationParams : Type := {
  DonorName : string;
  DonorEmail : string;
  Message : string;
  Amount : Z;
  PaymentMethod : string
}.

(** [DonationService.CreateDonation], run at instant [now]; [donID] and
    [payID] are the values [uuid.New()] returns in [NewDonation] and
    [NewPayment]. *)
Definition CreateDonation (k : postgres.Constraints) (prov : provider.Provider)
    (now : Z) (donID payID : N) (s : World) (params : CreateDonationParams)
    : World * result (donation.Donation * payment.Payment) :=
  if Amount params <? 5000 then (s, Err "minimum donation amount is Rp 5,000")
  else if 100000000 <? Amount params
  then (s, Err "maximum donation amount is Rp 100,000,000")
  else
    let don := donation.NewDonation now donID (DonorName params) (DonorEmail params)
                 (Message params) (Amount params) in
    match postgres.DonationRepository.Create k (db s) don with
    | (_, Some e) => (s, Err ("failed to create donation: " +:+ e))
    | (db1, None) =>
        let s := with_db s db1 in
        let expiresAt := now + 24 * Hour in
        let pay := payment.NewPayment now payID (donation.ID don)
                     (provider.GetName prov) (PaymentMethod params)
                     (Amount params) expiresAt in
        let paymentReq :=
          {| provider.OrderID := payment.GenerateOrderID pay;
             provider.Amount := Amount params;
             provider.PaymentMethod := PaymentMethod params;
             provider.CustomerName := DonorName params;
             provider.CustomerEmail := DonorEmail params;
             provider.Description := "Donation from " +:+ DonorName params;
             provider.CallbackURL := "";
             provider.ExpiryTime := expiresAt |} in
        match provider.CreatePayment prov paymentReq with
        | Err e =>
            let don := donation.MarkAsFailed now don in
            (with_db s (fst (postgres.DonationRepository.Update now (db s) don)),
             Err ("failed to create payment: " +:+ e))
        | Ok paymentResp =>
            let pay := payment.SetExternalID now (provider.ExternalID paymentResp) pay in
            let pay := payment.SetPaymentDetails now (provider.QRCodeURL paymentResp)
                         (provider.VANumber paymentResp)
                         (provider.DeepLink paymentResp) pay in
            let pay := payment.SetExpiresAt (provider.ExpiresAt paymentResp) pay in
            match postgres.PaymentRepository.Create k (db s) pay with
            | (_, Some e) => (s, Err ("failed to save payment: " +:+ e))
            | (db2, None) =>
                (log Info "donation created" (with_db s db2), Ok (don, pay))
            end
        end
    end.

End service.

(* ================================================================== *)
(** ** internal/http: DTOs, configuration and the webhook handler *)
(* ================================================================== *)

Module dto.

Record MidtransWebhook : Type := {
  OrderID : string;
  TransactionID : string;
  TransactionStatus : string;
  TransactionTime : string;
  SettlementTime : string;
  StatusCode : string;
  GrossAmount : string;
  PaymentType : string;
  SignatureKey : string;
  FraudStatus : string
}.

Record XenditWebhook : Type := {
  x_ID : string;
  x_ExternalID : string;
  x_Amount : Z;
  x_Status : string;
  x_PaidAt : string;
  x_PaymentMethod : string
}.

End dto.

Module config.
Record Config : Type := {
  Midtrans_ServerKey : string;
  Xendit_WebhookToken : string;
  App_Environment : string
}.
End config.

Module handler.

(** What [io.ReadAll(r.Body)] returns and, for a body that was read, what
    [json.Unmarshal] decodes it to ([None]: a decoding error). *)
Inductive body (A : Type) : Type :=
| Unreadable
| Read (raw : list Z) (decoded : option A).
Arguments Unreadable {A}.
Arguments Read {A} raw decoded.

(** An HTTP request; header names are in canonical form. *)
Record Request (A : Type) : Type := {
  Header : gmap string string;
  RemoteAddr : string;
  Body : body A
}.
Arguments Header {A} _.
Arguments RemoteAddr {A} _.
Arguments Body {A} _.

Definition Header_Get {A} (r : Request A) (name : string) : string :=
  default "" (Header r !! name).

Inductive payload : Type :=
| ErrorResponse (code message : string)
| StatusResponse (status : string)
| StatusMessage (status message : string).

Record Response : Type := { Code : Z; Payload : payload }.

Definition StatusOK : Z := 200.
Definition StatusBadRequest : Z := 400.
Definition StatusUnauthorized : Z := 401.

Definition respondError (status : Z) (code message : string) : Response :=
  {| Code := status; Payload := ErrorResponse code message |}.

(** [verifyMidtransSignature] *)
Definition verifyMidtransSignature (cfg : config.Config)
    (webhook : dto.MidtransWebhook) : bool :=
  let data := dto.OrderID webhook +:+ dto.StatusCode webhook
                +:+ dto.GrossAmount webhook +:+ config.Midtrans_ServerKey cfg in
  let expectedSignature := hex.EncodeToString (sha512.Sum (bytes_of data)) in
  hmac.Equal (bytes_of expectedSignature) (bytes_of (dto.SignatureKey webhook)).

(** [mapMidtransStatus] *)
Definition mapMidtransStatus (transactionStatus fraudStatus : string)
    : payment.Status :=
  if String.eqb transactionStatus "capture" then
    if String.eqb fraudStatus "accept" || String.eqb fraudStatus ""
    then payment.StatusPaid
    else payment.StatusPending
  else if String.eqb transactionStatus "settlement" then payment.StatusPaid
  else if String.eqb transactionStatus "pending" then payment.StatusPending
  else if String.eqb transactionStatus "deny"
          || String.eqb transactionStatus "cancel" then payment.StatusFailed
  else if String.eqb transactionStatus "expire" then payment.StatusExpired
  else payment.StatusPending.

(** [mapXenditStatus] *)
Definition mapXenditStatus (status : string) : payment.Status :=
  if String.eqb status "PAID" || String.eqb status "SETTLED"
     || String.eqb status "COMPLETED" then payment.StatusPaid
  else if String.eqb status "PENDING" || String.eqb status "ACTIVE"
  then payment.StatusPending
  else if String.eqb status "EXPIRED" then payment.StatusExpired
  else if String.eqb status "FAILED" then payment.StatusFailed
  else payment.StatusPending.

(** [maskString] *)
Definition maskString (s : string) : string :=
  if (String.length s <=? 8)%nat then "****"
  else substring 0 4 s +:+ "****" +:+ substring (String.length s - 4) 4 s.

Definition relevantHeaders : list string :=
  ["Content-Type"; "User-Agent"; "X-Request-Id"; "X-Callback-Token"; "X-Event-Type"].

(** [extractHeaders] *)
Definition extractHeaders {A} (r : Request A) : gmap string string :=
  fold_left
    (fun headers name =>
       let val := Header_Get r name in
       if negb (String.eqb val "") then
         <[name := if String.eqb name "X-Callback-Token"
                   then maskString val else val]> headers
       else headers)
    relevantHeaders ∅.

(** [getClientIP] *)
Definition getClientIP {A} (r : Request A) : string :=
  let forwarded := Header_Get r "X-Forwarded-For" in
  if negb (String.eqb forwarded "") then forwarded
  else
    let realIP := Header_Get r "X-Real-Ip" in
    if negb (String.eqb realIP "") then realIP else RemoteAddr r.

(** The interface [payment.WebhookLogRepository] as the handler uses it:
    [Create] acts on the database and may return an error. *)
Record WebhookLogRepository : Type := {
  Create : postgres.DB -> payment.WebhookLog -> postgres.DB * option string
}.

(** [WebhookHandler]; [webhookLogRepo] is an interface value, [None] when
    it is nil. The service and the logger are the world the handler runs
    in. *)
Record WebhookHandler : Type := {
  webhookLogRepo : option WebhookLogRepository;
  config_ : config.Config
}.

(** [NewWebhookHandler] *)
Definition NewWebhookHandler (webhookLogRepo : option WebhookLogRepository)
    (cfg : config.Config) : WebhookHandler :=
  {| webhookLogRepo := webhookLogRepo; config_ := cfg |}.

(** How a call of a handler ends: with the response it wrote, or in a
    panic, which unwinds to the middleware of the router. *)
Inductive answer : Type :=
| Responded (resp : Response)
| Panicked (reason : string).

(** The panic of a method call on a nil interface value. *)
Definition nilDereference : string :=
  "runtime error: invalid memory address or nil pointer dereference".

(** [logWebhook]: the struct literal leaves [ID], [ExternalID],
    [RawPayload] and [Signature] at their zero values. The call
    [h.webhookLogRepo.Create] panics when the repository is nil ([None]
    here). *)
Definition logWebhook {A} (h : WebhookHandler) (now : Z) (s : service.World)
    (r : Request A) (provider : payment.Provider) (raw : list Z)
    : option service.World :=
  let log :=
    {| payment.wl_ID := 0%N;
       payment.wl_Provider := provider;
       payment.wl_EventType := Header_Get r "X-Event-Type";
       payment.wl_ExternalID := "";
       payment.wl_RawPayload := None;
       payment.wl_Payload := raw;
       payment.wl_Headers := extractHeaders r;
       payment.wl_Signature := "";
       payment.wl_IPAddress := getClientIP r;
       payment.wl_CreatedAt := now |} in
  match webhookLogRepo h with
  | None => None
  | Some repo =>
      match Create repo (service.db s) log with
      | (db1, None) => Some (service.with_db s db1)
      | (db1, Some _) => Some (service.log service.Error "failed to log webhook"
                                 (service.with_db s db1))
      end
  end.

(** The tail of both handlers: the outcome of [ProcessWebhook] is reported
    with status 200 whether or not it is an error. *)
Definition respondProcessed (provider : string) (res : service.World * option string)
    : service.World * Response :=
  match res with
  | (s, Some e) =>
      (service.log service.Error ("failed to process " +:+ provider +:+ " webhook") s,
       {| Code := StatusOK; Payload := StatusMessage "error" e |})
  | (s, None) =>
      (service.log service.Info (provider +:+ " webhook processed") s,
       {| Code := StatusOK; Payload := StatusResponse "ok" |})
  end.

(** [HandleMidtrans], run at instant [now]. The settlement time the Go
    code parses into [PaidAt] is not carried: [ProcessWebhook] never
    reads it. *)
Definition HandleMidtrans (h : WebhookHandler) (now : Z) (s : service.World)
    (r : Request dto.MidtransWebhook) : service.World * answer :=
  match Body r with
  | Unreadable =>
      (service.log service.Error "failed to read webhook body" s,
       Responded
         (respondError StatusBadRequest "INVALID_BODY" "Failed to read request body"))
  | Read raw decoded =>
      match logWebhook h now s r payment.ProviderMidtrans raw with
      | None => (s, Panicked nilDereference)
      | Some s =>
          match decoded with
          | None =>
              (service.log service.Error "failed to parse webhook" s,
               Responded
                 (respondError StatusBadRequest "INVALID_JSON" "Invalid webhook payload"))
          | Some webhook =>
              if negb (verifyMidtransSignature (config_ h) webhook) then
                (service.log service.Warn "invalid midtrans signature" s,
                 Responded
                   (respondError StatusUnauthorized "INVALID_SIGNATURE"
                      "Invalid webhook signature"))
              else
                let status := mapMidtransStatus (dto.TransactionStatus webhook)
                                (dto.FraudStatus webhook) in
                let res :=
                  respondProcessed "midtrans"
                    (service.ProcessWebhook now s
                       {| service.Provider := payment.ProviderMidtrans;
                          service.OrderID := dto.OrderID webhook;
                          service.TransactionID := dto.TransactionID webhook;
                          service.Status := status |}) in
                (res.1, Responded res.2)
          end
      end
  end.

(** [HandleXendit], run at instant [now]; [paid_at] as in [HandleMidtrans]. *)
Definition HandleXendit (h : WebhookHandler) (now : Z) (s : service.World)
    (r : Request dto.XenditWebhook) : service.World * answer :=
  let callbackToken := Header_Get r "X-Callback-Token" in
  if negb (String.eqb callbackToken (config.Xendit_WebhookToken (config_ h))) then
    (service.log service.Warn "invalid xendit callback token" s,
     Responded
       (respondError StatusUnauthorized "INVALID_TOKEN" "Invalid callback token"))
  else
    match Body r with
    | Unreadable =>
        (service.log service.Error "failed to read webhook body" s,
         Responded
           (respondError StatusBadRequest "INVALID_BODY" "Failed to read request body"))
    | Read raw decoded =>
        match logWebhook h now s r payment.ProviderXendit raw with
        | None => (s, Panicked nilDereference)
        | Some s =>
            match decoded with
            | None =>
                (service.log service.Error "failed to parse webhook" s,
                 Responded
                   (respondError StatusBadRequest "INVALID_JSON"
                      "Invalid webhook payload"))
            | Some webhook =>
                let status := mapXenditStatus (dto.x_Status webhook) in
                let res :=
                  respondProcessed "xendit"
                    (service.ProcessWebhook now s
                       {| service.Provider := payment.ProviderXendit;
                          service.OrderID := dto.x_ExternalID webhook;
                          service.TransactionID := dto.x_ID webhook;
                          service.Status := status |}) in
                (res.1, Responded res.2)
            end
        end
    end.




End handler.

(* ================================================================== *)
(** ** internal/http/server.go: how the handlers are built *)
(* ================================================================== *)

Module server.

(** The webhook handler of [NewServer]:
    [handler.NewWebhookHandler(donationService, nil, cfg, logger)]. *)
Definition webhookHandler (cfg : config.Config) : handler.WebhookHandler :=
  handler.NewWebhookHandler None cfg.

End server.

(* ================================================================== *)
(** ** internal/http/middleware: rate limit, IP whitelist, overlay token *)
(* ================================================================== *)

Module middleware.

(** [getClientIP] *)
Definition getClientIP {A} (r : handler.Request A) : string :=
  let xff := handler.Header_Get r "X-Forwarded-For" in
  if negb (String.eqb xff "") then xff
  else
    let xri := handler.Header_Get r "X-Real-Ip" in
    if negb (String.eqb xri "") then xri else handler.RemoteAddr r.

Record RateLimiter : Type := {
  requestsLimit : Z;
  windowSize : Z
}.

(** What the middleware does with a request: it hands it to the next
    handler or answers itself; [headers] are the response headers it has
    set, under their canonical names. *)
Inductive verdict : Type :=
| Next (headers : gmap string string)
| Answer (code : Z) (message : string) (headers : gmap string string).

(** A 64-bit signed result, wrapped. *)
Definition int64 (z : Z) : Z := (z + 2 ^ 63) mod 2 ^ 64 - 2 ^ 63.

(** [int(d.Seconds())] for a duration whose seconds are below 2^22, where
    the floating-point sum is exact enough to truncate to them. *)
Definition Seconds (d : Z) : Z := Z.quot d redis.Second.

(** The handler [Limit(endpoint)] wraps around [next], run at [now]. *)
Definition Limit {A} (rl : RateLimiter) (endpoint : string) (now : Z)
    (c : redis.Client) (r : handler.Request A) : redis.Client * verdict :=
  let ip := getClientIP r in
  let key := redis.RateLimitKey ip endpoint in
  match redis.IncrementWithTTL now c key (windowSize rl) with
  | (c, Err _) => (c, Next ∅)
  | (c, Ok count) =>
      let headers :=
        <["X-Ratelimit-Remaining" :=
            redis.FormatInt (Z.max 0 (int64 (requestsLimit rl - count)))]>
          (<["X-Ratelimit-Limit" := redis.FormatInt (requestsLimit rl)]> ∅) in
      if requestsLimit rl <? count then
        (c, Answer 429 "Rate limit exceeded"
              (<["Retry-After" := redis.FormatInt (Seconds (windowSize rl))]> headers))
      else (c, Next headers)
  end.

(** [isIPWhitelisted] *)
Fixpoint isIPWhitelisted (ip : string) (whitelist : list string) : bool :=
  match whitelist with
  | [] => false
  | allowed :: rest =>
      if String.eqb ip allowed then true
      else if (0 <? String.length allowed)%nat
              && match String.get (String.length allowed - 1) allowed with
                 | Some c => Ascii.eqb c "*"
                 | None => false
                 end
              && (let prefix := substring 0 (String.length allowed - 1) allowed in
                  (String.length prefix <=? String.length ip)%nat
                  && String.eqb (substring 0 (String.length prefix) ip) prefix)
      then true
      else isIPWhitelisted ip rest
  end.

(** [IPWhitelistMiddleware] *)
Definition IPWhitelistMiddleware {A} (whitelist : list string)
    (r : handler.Request A) : verdict :=
  let clientIP := getClientIP r in
  if negb (isIPWhitelisted clientIP whitelist) then Answer 403 "Forbidden" ∅
  else Next ∅.

(** [CORSConfig] *)
Record CORSConfig : Type := {
  AllowedOrigins : list string;
  AllowedMethods : list string;
  AllowedHeaders : list string;
  ExposedHeaders : list string;
  AllowCredentials : bool;
  MaxAge : Z
}.

(** [DefaultCORSConfig] *)
Definition DefaultCORSConfig : CORSConfig :=
  {| AllowedOrigins := ["*"%string];
     AllowedMethods := ["GET"; "POST"; "PUT"; "DELETE"; "OPTIONS"; "PATCH"]%string;
     AllowedHeaders := ["Accept"; "Authorization"; "Content-Type"; "X-CSRF-Token";
                        "X-Request-ID"]%string;
     ExposedHeaders := ["Link"; "X-Request-ID"]%string;
     AllowCredentials := true;
     MaxAge := 86400 |}.

(** [strings.Join] *)
Fixpoint Join (elems : list string) (sep : string) : string :=
  match elems with
  | [] => ""
  | [x] => x
  | x :: rest => x +:+ sep +:+ Join rest sep
  end.

(** [rune(n)] for an [int]: the low 32 bits, signed. *)
Definition rune (n : Z) : Z := (n + 2 ^ 31) mod 2 ^ 32 - 2 ^ 31.

Definition byte (z : Z) : ascii := ascii_of_N (Z.to_N z).

(** [string(r)] for a rune: its UTF-8 encoding, or that of U+FFFD when
    [r] is not a Unicode scalar value. *)
Definition string_of_rune (r : Z) : string :=
  if (r <? 0) || (1114111 <? r) || ((55296 <=? r) && (r <=? 57343)) then
    String (byte 239) (String (byte 191) (String (byte 189) EmptyString))
  else if r <? 128 then String (byte r) EmptyString
  else if r <? 2048 then
    String (byte (192 + r / 64)) (String (byte (128 + r mod 64)) EmptyString)
  else if r <? 65536 then
    String (byte (224 + r / 4096))
      (String (byte (128 + r / 64 mod 64))
         (String (byte (128 + r mod 64)) EmptyString))
  else
    String (byte (240 + r / 262144))
      (String (byte (128 + r / 4096 mod 64))
         (String (byte (128 + r / 64 mod 64))
            (String (byte (128 + r mod 64)) EmptyString))).

(** The handler [CORS(config)] wraps around [next], on a request with
    method [method]. *)
Definition CORS {A} (config : CORSConfig) (method : string)
    (r : handler.Request A) : verdict :=
  let origin := handler.Header_Get r "Origin" in
  let allowedOrigin :=
    if (length (AllowedOrigins config) =? 1)%nat
       && String.eqb (nth 0 (AllowedOrigins config) "") "*"
    then "*"%string
    else if existsb (fun o => String.eqb o origin) (AllowedOrigins config)
    then origin else ""%string in
  if negb (String.eqb allowedOrigin "") then
    let headers := <["Access-Control-Allow-Origin" := allowedOrigin]> ∅ in
    let headers :=
      if AllowCredentials config
      then <["Access-Control-Allow-Credentials" := "true"%string]> headers
      else headers in
    let headers :=
      if (0 <? length (ExposedHeaders config))%nat
      then <["Access-Control-Expose-Headers" := Join (ExposedHeaders config) ", "]>
             headers
      else headers in
    if String.eqb method "OPTIONS" then
      let headers :=
        <["Access-Control-Allow-Headers" := Join (AllowedHeaders config) ", "]>
          (<["Access-Control-Allow-Methods" := Join (AllowedMethods config) ", "]>
             headers) in
      let headers :=
        if 0 <? MaxAge config
        then <["Access-Control-Max-Age" := string_of_rune (rune (MaxAge config))]>
               headers
        else headers in
      Answer 204 "" headers
    else Next headers
  else Next ∅.

(** [ValidateOverlayToken] *)
Definition ValidateOverlayToken (token : string) : bool * option string :=
  if (32 <=? String.length token)%nat then (true, None)
  else (false, Some "invalid overlay token").

End middleware.

(* ================================================================== *)
(** ** internal/realtime/websocket: the hub *)
(* ================================================================== *)

(** How a run of hub code ends: it returns in state [a], it waits at a
    channel send in state [a] with nothing left to receive from that
    channel, or it panics. *)
Inductive outcome (A : Type) : Type :=
| Done (a : A)
| Blocked (a : A)
| Panic.
Arguments Done {A} a.
Arguments Blocked {A} a.
Arguments Panic {A}.

Module websocket.

(** Size of client send channel buffer *)
Definition sendBufferSize : nat := 256.
(** Buffer size of the hub's register, unregister and broadcast channels. *)
Definition hubBufferSize : nat := 256.

(** A buffered Go channel: the queued values oldest first, the capacity
    and whether it was closed. *)
Record chan (A : Type) : Type := {
  buf : list A;
  cap : nat;
  closed : bool
}.
Arguments buf {A} _.
Arguments cap {A} _.
Arguments closed {A} _.

Definition make (A : Type) (n : nat) : chan A :=
  {| buf := []; cap := n; closed := false |}.

Definition full {A} (c : chan A) : bool := (cap c <=? length (buf c))%nat.

Definition push {A} (c : chan A) (x : A) : chan A :=
  {| buf := buf c ++ [x]; cap := cap c; closed := closed c |}.

(** [OutgoingMessage]; [Message []byte] fields hold the value that
    [json.Marshal] renders. *)
Record OutgoingMessage : Type := {
  Type_ : string;
  Data : gmap string value;
  Timestamp : Z
}.

Record Client : Type := {
  id : string;
  channel : string;
  send : chan OutgoingMessage;
  clientType : string;
  userID : string
}.

Definition with_send (c : Client) (q : chan OutgoingMessage) : Client :=
  {| id := id c; channel := channel c; send := q;
     clientType := clientType c; userID := userID c |}.

(** [NewClient] *)
Definition NewClient (newID channel clientType userID : string) : Client :=
  {| id := newID; channel := channel; send := make OutgoingMessage sendBufferSize;
     clientType := clientType; userID := userID |}.

Record BroadcastMessage : Type := {
  Channel : string;
  Message : OutgoingMessage
}.

(** The hub with the clients it points to: [*Client] values are
    addresses, [mem] maps an address to the client stored there. The
    request channels hold the pending requests, oldest first. *)
Record Hub : Type := {
  clients : gmap string (gset N);
  mem : gmap N Client;
  register : list N;
  unregister : list N;
  broadcast : list BroadcastMessage
}.

Definition with_clients (h : Hub) (cs : gmap string (gset N)) : Hub :=
  {| clients := cs; mem := mem h; register := register h;
     unregister := unregister h; broadcast := broadcast h |}.
Definition with_mem (h : Hub) (m : gmap N Client) : Hub :=
  {| clients := clients h; mem := m; register := register h;
     unregister := unregister h; broadcast := broadcast h |}.
Definition with_unregister (h : Hub) (q : list N) : Hub :=
  {| clients := clients h; mem := mem h; register := register h;
     unregister := q; broadcast := broadcast h |}.
Definition with_broadcast (h : Hub) (q : list BroadcastMessage) : Hub :=
  {| clients := clients h; mem := mem h; register := register h;
     unregister := unregister h; broadcast := q |}.

(** [NewHub] *)
Definition NewHub : Hub :=
  {| clients := ∅; mem := ∅; register := []; unregister := []; broadcast := [] |}.

(** [registerClient] *)
Definition registerClient (h : Hub) (client : N) : outcome Hub :=
  match mem h !! client with
  | None => Panic
  | Some c =>
      let members := default ∅ (clients h !! channel c) in
      Done (with_clients h (<[channel c := members ∪ {[client]}]> (clients h)))
  end.

(** [unregisterClient]: closing a closed channel panics. *)
Definition unregisterClient (h : Hub) (client : N) : outcome Hub :=
  match mem h !! client with
  | None => Panic
  | Some c =>
      match clients h !! channel c with
      | Some members =>
          if decide (client ∈ members) then
            let members := members ∖ {[client]} in
            if closed (send c) then Panic
            else
              let h := with_mem h
                (<[client := with_send c
                     {| buf := buf (send c); cap := cap (send c); closed := true |}]>
                   (mem h)) in
              if (size members =? 0)%nat
              then Done (with_clients h (delete (channel c) (clients h)))
              else Done (with_clients h (<[channel c := members]> (clients h)))
          else Done h
      | None => Done h
      end
  end.

(** The loop of [broadcastToChannel] over the members in iteration order
    [order]: a non-blocking send to the member's queue and, when that
    queue is full, a blocking send of the member on [h.unregister]. *)
Fixpoint deliver (message : OutgoingMessage) (order : list N) (h : Hub)
    : outcome Hub :=
  match order with
  | [] => Done h
  | client :: rest =>
      match mem h !! client with
      | None => Panic
      | Some c =>
          if closed (send c) then Panic
          else if negb (full (send c)) then
            deliver message rest
              (with_mem h (<[client := with_send c (push (send c) message)]> (mem h)))
          else if (length (unregister h) <? hubBufferSize)%nat then
            deliver message rest (with_unregister h (unregister h ++ [client]))
          else Blocked h
      end
  end.

(** [broadcastToChannel]; [order] is the order in which [range] yields the
    members of the channel. *)
Definition broadcastToChannel (order : list N) (h : Hub) (msg : BroadcastMessage)
    : outcome Hub :=
  match clients h !! Channel msg with
  | None => Done h
  | Some _ => deliver (Message msg) order h
  end.

(** The loop of [BroadcastDonation] over the channel names in iteration
    order [order]. *)
Fixpoint fanout (data : OutgoingMessage) (order : list string) (h : Hub)
    : outcome Hub :=
  match order with
  | [] => Done h
  | channel :: rest =>
      if (8 <? String.length channel)%nat
         && String.eqb (substring 0 8 channel) "overlay:" then
        if (length (broadcast h) <? hubBufferSize)%nat then
          fanout data rest
            (with_broadcast h
               (broadcast h ++ [{| Channel := channel; Message := data |}]))
        else Blocked h
      else fanout data rest h
  end.

(** [BroadcastDonation], run at instant [now]; [order] is the order in
    which [range h.clients] yields the channel names. [json.Marshal] of
    this message has no error case to take. *)
Definition BroadcastDonation (now : Z) (order : list string) (h : Hub)
    (event : redis.DonationEvent) : outcome Hub :=
  let msg :=
    {| Type_ := "donation";
       Timestamp := now;
       Data := <["id" := VString (redis.ID event)]>
              (<["donor_name" := VString (redis.DonorName event)]>
              (<["message" := VString (redis.Message event)]>
              (<["amount" := VInt (redis.Amount event)]>
              (<["paid_at" := VInstant (redis.PaidAt event)]> ∅)))) |} in
  fanout msg order h.

(** The requests the loop of [Run] receives. *)
Inductive request : Type :=
| Register (client : N)
| Unregister (client : N)
| Broadcast (order : list N) (msg : BroadcastMessage).

(** One iteration of the loop of [Run] on a received request. *)
Definition handle (h : Hub) (r : request) : outcome Hub :=
  match r with
  | Register c => registerClient h c
  | Unregister c => unregisterClient h c
  | Broadcast order msg => broadcastToChannel order h msg
  end.

(** What holds of every hub the code builds: a registered client exists
    and its queue is open, under the channel it names; no channel entry
    is empty. *)
Definition wf (h : Hub) : Prop :=
  ∀ (ch : string) (members : gset N), clients h !! ch = Some members →
    members ≠ ∅ ∧
    ∀ client, client ∈ members →
      ∃ c, mem h !! client = Some c ∧ channel c = ch ∧ closed (send c) = false.


Definition with_register (h : Hub) (q : list N) : Hub :=
  {| clients := clients h; mem := mem h; register := q;
     unregister := unregister h; broadcast := broadcast h |}.

(** [GetClientCount] *)
Definition GetClientCount (h : Hub) (channel : string) : nat :=
  match clients h !! channel with
  | Some members => size members
  | None => O
  end.

(** The map [GetStats] returns. *)
Record Stats : Type := {
  total_clients : nat;
  total_channels : nat;
  channels : gmap string nat
}.

(** [GetStats]: the total is a sum, so the order of the loop does not
    matter. *)
Definition GetStats (h : Hub) : Stats :=
  {| total_clients :=
       map_fold (fun _ (members : gset N) total => (total + size members)%nat)
         O (clients h);
     total_channels := size (clients h);
     channels := size <$> clients h |}.

(** [Client.sendJSON] by the client stored at [client]: a non-blocking
    send on its queue. When the queue is closed the send case of the
    [select] is taken and panics; when it is full the message is dropped
    (and a warning logged). [json.Marshal] of an [OutgoingMessage] has no
    error case to take. *)
Definition sendJSON (h : Hub) (client : N) (msg : OutgoingMessage) : outcome Hub :=
  match mem h !! client with
  | None => Panic
  | Some c =>
      if closed (send c) then Panic
      else if negb (full (send c)) then
        Done (with_mem h (<[client := with_send c (push (send c) msg)]> (mem h)))
      else Done h
  end.

(** [sendPong], [sendAck], [sendError] and [SendWelcome], at instant [now]. *)
Definition sendPong (now : Z) (h : Hub) (client : N) : outcome Hub :=
  sendJSON h client {| Type_ := "pong"; Data := ∅; Timestamp := now |}.

Definition sendAck (now : Z) (h : Hub) (client : N) (action : string) : outcome Hub :=
  sendJSON h client
    {| Type_ := "ack"; Data := <["action" := VString action]> ∅; Timestamp := now |}.

Definition sendError (now : Z) (h : Hub) (client : N) (message : string)
    : outcome Hub :=
  sendJSON h client
    {| Type_ := "error"; Data := <["message" := VString message]> ∅;
       Timestamp := now |}.

Definition SendWelcome (now : Z) (h : Hub) (client : N) : outcome Hub :=
  match mem h !! client with
  | None => Panic
  | Some c =>
      sendJSON h client
        {| Type_ := "welcome";
           Data := <["client_id" := VString (id c)]>
                  (<["channel" := VString (channel c)]>
                  (<["message" := VString "Connected to ReveeGate WebSocket"]> ∅));
           Timestamp := now |}
  end.

(** [handleMessage] on a frame that [json.Unmarshal] decodes to a message
    of type [ty] ([Some ty]) or rejects ([None]). *)
Definition handleMessage (now : Z) (h : Hub) (client : N) (msg : option string)
    : outcome Hub :=
  match msg with
  | None => sendError now h client "Invalid message format"
  | Some ty =>
      if String.eqb ty "ping" then sendPong now h client
      else if String.eqb ty "subscribe" then sendAck now h client "subscribed"
      else Done h
  end.

(** [HandleOverlay], run at instant [now] on a request with query
    parameter [token]. [upgraded] tells whether [upgrader.Upgrade]
    succeeded; the new client is stored at address [client] (an address
    not in use) and gets [newID] from [uuid.New()]. The result is the
    HTTP error the handler writes itself, if any, and how the run ends:
    the send on [h.hub.register] waits when 256 requests are pending. *)
Definition HandleOverlay (now : Z) (h : Hub) (token : string) (upgraded : bool)
    (client : N) (newID : string) : option (Z * string) * outcome Hub :=
  if String.eqb token "" then (Some (401, "Missing overlay token"%string), Done h)
  else
    let '(valid, err) := middleware.ValidateOverlayToken token in
    if match err with Some _ => true | None => false end || negb valid
    then (Some (401, "Invalid overlay token"%string), Done h)
    else if negb upgraded then (None, Done h)
    else
      let channel := ("overlay:" +:+ token)%string in
      let h := with_mem h
                 (<[client := NewClient newID channel "overlay" token]> (mem h)) in
      if (length (register h) <? hubBufferSize)%nat
      then (None, SendWelcome now (with_register h (register h ++ [client])) client)
      else (None, Blocked h).

End websocket.

(* ================================================================== *)
(** ** Vocabulary of the statements and the scenarios of the examples *)
(* ================================================================== *)

(** The values a Go [byte] takes. *)
Definition is_byte (b : Z) : Prop := 0 <= b < 256.

(** The signature the handler computes: lower-case hex of the SHA-512 digest
    of [order_id + status_code + gross_amount + ServerKey]. *)
Definition expected_signature (cfg : config.Config) (w : dto.MidtransWebhook) : string :=
  hex.EncodeToString
    (sha512.Sum (bytes_of (dto.OrderID w +:+ dto.StatusCode w +:+ dto.GrossAmount w
                             +:+ config.Midtrans_ServerKey cfg))).

(** Every character [hex.EncodeToString] writes is one of [0-9a-f]. *)
Definition is_lower_hex (c : ascii) : bool :=
  let n := N_of_ascii c in
  ((48 <=? n) && (n <=? 57) || (97 <=? n) && (n <=? 102))%N.

(** The provider values the two mapping functions name in a case. *)
Definition midtrans_listed : list string :=
  ["capture"; "settlement"; "pending"; "deny"; "cancel"; "expire"].

Definition xendit_listed : list string :=
  ["PAID"; "SETTLED"; "COMPLETED"; "PENDING"; "ACTIVE"; "EXPIRED"; "FAILED"].

(** The values the mapping of the design document lists for Xendit. *)
Definition xendit_listed_in_document : list string :=
  ["PAID"; "SETTLED"; "PENDING"; "ACTIVE"; "EXPIRED"; "FAILED"].

(** The idempotency key of a webhook: [webhook:{provider}:{orderId}:{transactionId}]. *)
Definition key_of (params : service.ProcessWebhookParams) : string :=
  redis.IdempotencyKey (payment.Provider_string (service.Provider params))
    (service.OrderID params) (service.TransactionID params).

(** A pending payment of 50000 for order [DON-abc] with its donation, and a
    world holding just the two, with Redis reachable or not. *)
Definition demo_payment : payment.Payment :=
  {| payment.ID := 1; payment.DonationID := 10;
     payment.Provider_ := payment.ProviderMidtrans;
     payment.ExternalID := "DON-abc"; payment.PaymentMethod := "qris";
     payment.Amount := 50000; payment.Status_ := payment.StatusPending;
     payment.QRCodeURL := ""; payment.VANumber := ""; payment.DeepLink := "";
     payment.ExpiresAt := 86400 * 10 ^ 9; payment.PaidAt := None;
     payment.Metadata := ∅; payment.CreatedAt := 0; payment.UpdatedAt := 0 |}.

Definition demo_donation : donation.Donation :=
  {| donation.ID := 10; donation.DonorName := "Ayu"; donation.DonorEmail := "";
     donation.Message := "semangat"; donation.Amount := 50000;
     donation.Status_ := donation.StatusPending; donation.Metadata := ∅;
     donation.PaidAt := None; donation.CreatedAt := 0; donation.UpdatedAt := 0 |}.

Definition demo_world (up : bool) : service.World :=
  {| service.db := {| postgres.payments := [demo_payment];
                      postgres.donations := [demo_donation];
                      postgres.webhook_logs := [] |};
     service.rds := {| redis.reachable := up; redis.keys := ∅; redis.published := [] |};
     service.logger := [] |}.

Definition demo_params (st : payment.Status) : service.ProcessWebhookParams :=
  {| service.Provider := payment.ProviderMidtrans;
     service.OrderID := "DON-abc";
     service.TransactionID := "tx-1";
     service.Status := st |}.

(** The status of the payment with identifier [id], as stored. *)
Definition status_of (s : service.World) (id : N) : option payment.Status :=
  payment.Status_ <$>
    List.find (fun p => (payment.ID p =? id)%N) (postgres.payments (service.db s)).

(** The test [WHERE id = $1]. *)
Definition by_id (id : N) (p : payment.Payment) : bool := (payment.ID p =? id)%N.

(** [UPDATE payments SET ... WHERE id = ID p] as a map over the rows. *)
Definition updated (now : Z) (p : payment.Payment) (rows : list payment.Payment)
    : list payment.Payment :=
  map (fun row => if (payment.ID row =? payment.ID p)%N
                  then postgres.PaymentRepository.update_row now p row else row) rows.

(** The calls that act on a payment, and what one of them leaves behind. *)
Inductive call : Type :=
| Webhook (now : Z) (params : service.ProcessWebhookParams)
| Reconcile (now : Z) (paymentID : N) (status : payment.Status) (reason : string).

Definition perform (s : service.World) (c : call) : service.World :=
  match c with
  | Webhook now params => (service.ProcessWebhook now s params).1
  | Reconcile now paymentID status reason =>
      (service.ManualReconcile now s paymentID status reason).1
  end.

(** The calls under which paid is kept: every webhook, and every manual
    reconcile that does not report failed. *)
Definition leaves_paid (c : call) : Prop :=
  match c with
  | Webhook _ _ => True
  | Reconcile _ _ status _ => status <> payment.StatusFailed
  end.

(** A world with a paid payment, for the examples below. *)
Definition paid_world : service.World :=
  (service.ProcessWebhook 1000 (demo_world true) (demo_params payment.StatusPaid)).1.

Definition demo_cfg : config.Config :=
  {| config.Midtrans_ServerKey := "SB-Mid-server-test";
     config.Xendit_WebhookToken := "xnd-callback-token";
     config.App_Environment := "production" |}.

(** The settlement callback of order [DON-abc] (status code 200, gross
    amount 50000.00) carrying the signature [sig]. *)
Definition settlement (sig : string) : dto.MidtransWebhook :=
  {| dto.OrderID := "DON-abc"; dto.TransactionID := "tx-1";
     dto.TransactionStatus := "settlement";
     dto.TransactionTime := "2025-01-10 09:00:00";
     dto.SettlementTime := "2025-01-10 09:00:05";
     dto.StatusCode := "200"; dto.GrossAmount := "50000.00";
     dto.PaymentType := "qris"; dto.SignatureKey := sig; dto.FraudStatus := "" |}.

Definition signed : dto.MidtransWebhook :=
  settlement
    "5c31057e3fa8b8b71b41552bb53ee293bb4a0e9b01f9725db52ca2c23cc5faf2a4e11215aa543b5f8f84f2e0a3c3fa0413c6b55e5a9d2f19ec21c858ffd45703".

Definition forged : dto.MidtransWebhook := settlement "00ff".

(** The JSON object Midtrans posts for [w]; no character of the examples
    needs escaping. *)
Definition body_of (w : dto.MidtransWebhook) : string :=
  let field (k v : string) := redis.Marshal_string k +:+ ":" +:+ redis.Marshal_string v in
  "{" +:+ field "order_id" (dto.OrderID w)
      +:+ "," +:+ field "transaction_id" (dto.TransactionID w)
      +:+ "," +:+ field "transaction_status" (dto.TransactionStatus w)
      +:+ "," +:+ field "transaction_time" (dto.TransactionTime w)
      +:+ "," +:+ field "settlement_time" (dto.SettlementTime w)
      +:+ "," +:+ field "status_code" (dto.StatusCode w)
      +:+ "," +:+ field "gross_amount" (dto.GrossAmount w)
      +:+ "," +:+ field "payment_type" (dto.PaymentType w)
      +:+ "," +:+ field "signature_key" (dto.SignatureKey w)
      +:+ "," +:+ field "fraud_status" (dto.FraudStatus w) +:+ "}".

(** The request that carries [w], as it arrives behind the proxy. *)
Definition request_of (w : dto.MidtransWebhook) : handler.Request dto.MidtransWebhook :=
  {| handler.Header := {["Content-Type" := "application/json";
                         "X-Forwarded-For" := "203.0.113.7"]};
     handler.RemoteAddr := "10.0.0.2:41234";
     handler.Body := handler.Read (bytes_of (body_of w)) (Some w) |}.

(** The status a handler call answered with, if it answered. *)
Definition code_of (a : handler.answer) : option Z :=
  match a with
  | handler.Responded resp => Some (handler.Code resp)
  | handler.Panicked _ => None
  end.

(** The state [unregisterClient] leaves when [client], stored as [c], is a
    member of its channel: the queue closed, the member removed, and the
    channel entry deleted when no member is left. *)
Definition unregistered (h : websocket.Hub) (client : N) (c : websocket.Client)
    (members : gset N) : websocket.Hub :=
  let h1 := websocket.with_mem h
    (<[client := websocket.with_send c
         {| websocket.buf := websocket.buf (websocket.send c);
            websocket.cap := websocket.cap (websocket.send c);
            websocket.closed := true |}]> (websocket.mem h)) in
  websocket.with_clients h1
    (if decide (members ∖ {[client]} = ∅)
     then delete (websocket.channel c) (websocket.clients h)
     else <[websocket.channel c := members ∖ {[client]}]> (websocket.clients h)).

(** A client after [message] was queued for it. *)
Definition enqueue (message : websocket.OutgoingMessage) (c : websocket.Client)
    : websocket.Client :=
  websocket.with_send c (websocket.push (websocket.send c) message).

(** A queued donation message and clients for the examples: [idle] has an
    empty queue, [stalled] a full one. *)
Definition demo_message : websocket.OutgoingMessage :=
  {| websocket.Type_ := "donation";
     websocket.Data := {["donor_name" := VString "Ayu"]};
     websocket.Timestamp := 1000 |}.

Definition idle (name : string) : websocket.Client :=
  websocket.NewClient name "overlay:T1" "overlay" "T1".

Definition stalled (name : string) : websocket.Client :=
  websocket.with_send (idle name)
    {| websocket.buf := replicate websocket.sendBufferSize demo_message;
       websocket.cap := websocket.sendBufferSize;
       websocket.closed := false |}.

(** Three overlay connections on [overlay:T1], the second one stalled, and
    [pending] unregister requests waiting in the hub. *)
Definition demo_hub (pending : list N) : websocket.Hub :=
  {| websocket.clients := {["overlay:T1" := {[1%N; 2%N; 3%N]}]};
     websocket.mem := <[1%N := idle "c1"]> (<[2%N := stalled "c2"]>
                        (<[3%N := idle "c3"]> ∅));
     websocket.register := [];
     websocket.unregister := pending;
     websocket.broadcast := [] |}.

(** A run that ended waiting at a channel send, in a state where [P] holds. *)
Definition blocked_with (P : websocket.Hub -> Prop) (o : outcome websocket.Hub) : Prop :=
  match o with
  | Blocked h' => P h'
  | _ => False
  end.

(** The state in which a run of hub code ended, when it did not panic. *)
Definition final {A} (o : outcome A) : option A :=
  match o with
  | Done a | Blocked a => Some a
  | Panic => None
  end.

(** The test [WHERE id = $1] on [donations] and the rows its UPDATE leaves. *)
Definition donation_by_id (id : N) (d : donation.Donation) : bool := (donation.ID d =? id)%N.

Definition donations_updated (now : Z) (d : donation.Donation)
    (rows : list donation.Donation) : list donation.Donation :=
  map (fun row => if (donation.ID row =? donation.ID d)%N
                  then postgres.DonationRepository.update_row now d row else row) rows.

(** The donation status that mirrors a payment status in [ProcessWebhook]
    and [ManualReconcile]. *)
Definition mirrored (st : payment.Status) (before : donation.Status) : donation.Status :=
  match st with
  | payment.StatusPaid => donation.StatusCompleted
  | payment.StatusExpired => donation.StatusExpired
  | payment.StatusFailed => donation.StatusFailed
  | _ => before
  end.

(** The columns of [payments] that no UPDATE of the repository sets. *)
Definition frozen (p : payment.Payment) : N * N * payment.Provider * string * Z * Z * Z :=
  (payment.ID p, payment.DonationID p, payment.Provider_ p, payment.PaymentMethod p,
   payment.Amount p, payment.ExpiresAt p, payment.CreatedAt p).

(** The world a paid webhook leaves on its normal path. *)
Definition paid_result (now : Z) (s : service.World)
    (params : service.ProcessWebhookParams) (pay : payment.Payment)
    (don : donation.Donation) : service.World :=
  service.log service.Info "payment completed"
    {| service.db :=
         postgres.with_donations
           (postgres.with_payments (service.db s)
              (updated now (payment.MarkAsPaid now pay)
                 (postgres.payments (service.db s))))
           (donations_updated now (donation.MarkAsPaid now don)
              (postgres.donations (service.db s)));
       service.rds :=
         {| redis.reachable := true;
            redis.keys :=
              <[key_of params := (redis.Marshal_string "processing",
                                  Some (now + 24 * Hour))]>
                (redis.keys (service.rds s));
            redis.published :=
              redis.published (service.rds s) ++
                [(redis.ChannelDonationsNew,
                  service.event_of (donation.MarkAsPaid now don))] |};
       service.logger := service.logger s |}.

(** The payment and the donation [ManualReconcile] saves. *)
Definition reconciled_payment (now : Z) (status : payment.Status) (reason : string)
    (pay : payment.Payment) : payment.Payment :=
  payment.SetMetadata "reconciliation_at" (VInstant now)
    (payment.SetMetadata "reconciliation_reason" (VString reason)
       match status with
       | payment.StatusPaid => payment.MarkAsPaid now pay
       | payment.StatusFailed => payment.MarkAsFailed now pay
       | _ => pay
       end).

Definition reconciled_donation (now : Z) (status : payment.Status)
    (don : donation.Donation) : donation.Donation :=
  match status with
  | payment.StatusPaid => donation.MarkAsPaid now don
  | payment.StatusFailed => donation.MarkAsFailed now don
  | _ => don
  end.

(** The columns of a donation that a donor chose, with its identity. *)
Definition donation_frozen (d : donation.Donation)
    : N * string * string * string * Z * gmap string value * Z :=
  (donation.ID d, donation.DonorName d, donation.DonorEmail d, donation.Message d,
   donation.Amount d, donation.Metadata d, donation.CreatedAt d).

(** The rows of [donations] after one call: untouched, or one donation that
    was read by identifier saved with its donor columns as read. *)
Definition donation_saved (now : Z) (rows rows' : list donation.Donation) : Prop :=
  rows' = rows \/
  exists id don don', List.find (donation_by_id id) rows = Some don /\
                      donation_frozen don' = donation_frozen don /\
                      rows' = donations_updated now don' rows.

(** [n] calls of [Increment] on one key, at the instants [times]. *)
Fixpoint count (c : redis.Client) (key : string) (times : list Z)
    : redis.Client * list (result Z) :=
  match times with
  | [] => (c, [])
  | t :: rest =>
      let '(c1, r) := redis.Increment t c key in
      let '(c2, rs) := count c1 key rest in
      (c2, r :: rs)
  end.

(** The requests a limiter receives, with their instants, served in order. *)
Fixpoint serve {A} (rl : middleware.RateLimiter) (endpoint : string)
    (c : redis.Client) (reqs : list (Z * handler.Request A))
    : redis.Client * list middleware.verdict :=
  match reqs with
  | [] => (c, [])
  | (t, r) :: rest =>
      let '(c1, v) := middleware.Limit rl endpoint t c r in
      let '(c2, vs) := serve rl endpoint c1 rest in
      (c2, v :: vs)
  end.

(** Whether a request was handed to the next handler. *)
Definition allowed (v : middleware.verdict) : bool :=
  match v with
  | middleware.Next _ => true
  | middleware.Answer _ _ _ => false
  end.

(** The length of the window as the server applies it: whole seconds. *)
Definition window (rl : middleware.RateLimiter) : Z :=
  redis.formatSec (middleware.windowSize rl) * redis.Second.

(** Every request arrives less than a window after the one before it. *)
Fixpoint chained {A} (w prev : Z) (reqs : list (Z * handler.Request A)) : Prop :=
  match reqs with
  | [] => True
  | (t, _) :: rest => t < prev + w /\ chained w t rest
  end.

(** A request carrying the forwarded address [ip], from remote address
    [remote], for the examples. *)
Definition forwarded (ip remote : string) : handler.Request unit :=
  {| handler.Header := {["X-Forwarded-For" := ip]};
     handler.RemoteAddr := remote;
     handler.Body := handler.Unreadable |}.

(** An address matches a whitelist entry when it is the entry, or the
    entry ends in [*] and the address starts with what precedes the [*]. *)
Definition matches (ip allowed : string) : Prop :=
  ip = allowed \/
  exists p rest, allowed = (p +:+ "*")%string /\ ip = (p +:+ rest)%string.

(** The donation and the payment [CreateDonation] builds for a request. *)
Definition new_donation (now : Z) (donID : N) (params : service.CreateDonationParams)
    : donation.Donation :=
  donation.NewDonation now donID (service.DonorName params) (service.DonorEmail params)
    (service.Message params) (service.Amount params).

Definition new_payment (prov : provider.Provider) (now : Z) (donID payID : N)
    (params : service.CreateDonationParams) (resp : provider.PaymentResponse)
    : payment.Payment :=
  payment.SetExpiresAt (provider.ExpiresAt resp)
    (payment.SetPaymentDetails now (provider.QRCodeURL resp) (provider.VANumber resp)
       (provider.DeepLink resp)
       (payment.SetExternalID now (provider.ExternalID resp)
          (payment.NewPayment now payID donID (provider.GetName prov)
             (service.PaymentMethod params) (service.Amount params) (now + 24 * Hour)))).

(** The request [CreateDonation] sends to the provider. *)
Definition payment_request (prov : provider.Provider) (now : Z) (payID : N)
    (params : service.CreateDonationParams) : provider.PaymentRequest :=
  {| provider.OrderID :=
       ("DONATION-" +:+ substring 0 8 (uuid.String payID))%string;
     provider.Amount := service.Amount params;
     provider.PaymentMethod := service.PaymentMethod params;
     provider.CustomerName := service.DonorName params;
     provider.CustomerEmail := service.DonorEmail params;
     provider.Description := ("Donation from " +:+ service.DonorName params)%string;
     provider.CallbackURL := "";
     provider.ExpiryTime := now + 24 * Hour |}.

(** The schema of the design document as a constraint set: the primary
    keys, the CHECK on the amount, the foreign key of a payment and the
    uniqueness of (provider, external id). *)
Definition schema : postgres.Constraints :=
  {| postgres.check_donation := fun db d =>
       if existsb (fun row => (donation.ID row =? donation.ID d)%N) (postgres.donations db)
       then Some "duplicate key value violates unique constraint"%string
       else if donation.Amount d <? 5000
       then Some "new row violates check constraint"%string
       else None;
     postgres.check_payment := fun db p =>
       if existsb (fun row => (payment.ID row =? payment.ID p)%N) (postgres.payments db)
       then Some "duplicate key value violates unique constraint"%string
       else if negb (existsb (fun row => (donation.ID row =? payment.DonationID p)%N)
                       (postgres.donations db))
       then Some "insert violates foreign key constraint"%string
       else if existsb (fun row => payment.Provider_eqb (payment.Provider_ row)
                                     (payment.Provider_ p)
                                   && String.eqb (payment.ExternalID row)
                                        (payment.ExternalID p))
                 (postgres.payments db)
       then Some "duplicate key value violates unique constraint"%string
       else None |}.

(** A provider that echoes the order id, as Midtrans does. *)
Definition echo : provider.Provider :=
  {| provider.GetName := payment.ProviderMidtrans;
     provider.CreatePayment := fun req =>
       Ok {| provider.ExternalID := provider.OrderID req;
             provider.TransactionID := "tx-1";
             provider.r_PaymentMethod := provider.PaymentMethod req;
             provider.QRCodeURL := "https://qr.example/1";
             provider.VANumber := "";
             provider.DeepLink := "";
             provider.ExpiresAt := provider.ExpiryTime req |} |}.

(** A provider that is down. *)
Definition down : provider.Provider :=
  {| provider.GetName := payment.ProviderMidtrans;
     provider.CreatePayment := fun _ => Err "request failed" |}.

Definition demo_request : service.CreateDonationParams :=
  {| service.DonorName := ""; service.DonorEmail := "";
     service.Message := "semangat"; service.Amount := 25000;
     service.PaymentMethod := "qris" |}.

Definition empty_world : service.World :=
  {| service.db := {| postgres.payments := []; postgres.donations := [];
                      postgres.webhook_logs := [] |};
     service.rds := {| redis.reachable := true; redis.keys := ∅; redis.published := [] |};
     service.logger := [] |}.


(** The sum [GetStats] computes over a registry. *)
Definition total (cs : gmap string (gset N)) : nat :=
  map_fold (fun _ (members : gset N) n => (n + size members)%nat) O cs.

(** The messages of a client that make [handleMessage] answer. *)
Definition answered (msg : option string) : bool :=
  match msg with
  | None => true
  | Some ty => String.eqb ty "ping" || String.eqb ty "subscribe"
  end.

(** The test of [BroadcastDonation] on a channel name. *)
Definition is_overlay (channel : string) : bool :=
  (8 <? String.length channel)%nat && String.eqb (substring 0 8 channel) "overlay:".

(** A hub in which one overlay client has been created and not yet
    registered. *)
Definition lobby : websocket.Hub :=
  websocket.with_mem websocket.NewHub
    {[7%N := websocket.NewClient "c-7" "overlay:0123456789abcdef0123456789abcdef"
               "overlay" "0123456789abcdef0123456789abcdef"]}.

(** A webhook delivered to one of the two handlers. *)
Inductive delivery : Type :=
| ToMidtrans (now : Z) (r : handler.Request dto.MidtransWebhook)
| ToXendit (now : Z) (r : handler.Request dto.XenditWebhook).

(** The world after the server has taken a delivery. *)
Definition receive (cfg : config.Config) (s : service.World) (d : delivery)
    : service.World :=
  match d with
  | ToMidtrans now r => (handler.HandleMidtrans (server.webhookHandler cfg) now s r).1
  | ToXendit now r => (handler.HandleXendit (server.webhookHandler cfg) now s r).1
  end.

(** The origin of a request is allowed by a configuration, as [CORS]
    decides it: the configuration is the single entry [*], or the origin is
    not empty and is one of the entries. *)
Definition origin_allowed (config : middleware.CORSConfig) (origin : string) : Prop :=
  middleware.AllowedOrigins config = ["*"%string] \/
  origin <> ""%string /\ origin ∈ middleware.AllowedOrigins config.

(** A decimal digit. *)
Definition is_digit (c : ascii) : bool :=
  ((48 <=? N_of_ascii c) && (N_of_ascii c <=? 57))%N.

(** Webhooks with their instants, processed in order. *)
Definition process (s : service.World) (w : Z * service.ProcessWebhookParams)
    : service.World :=
  (service.ProcessWebhook w.1 s w.2).1.

(** A webhook for the order [order] of provider [prov]. *)
Definition for_order (prov : payment.Provider) (order : string)
    (w : Z * service.ProcessWebhookParams) : Prop :=
  service.Provider w.2 = prov /\ service.OrderID w.2 = order.


(* ================================================================== *)
(** * Properties *)
(* ================================================================== *)

(** ** Byte strings and the constant-time comparison *)

Lemma bytes_of_inj (s t : string) : bytes_of s = bytes_of t -> s = t.
Proof.
  revert t. induction s as [|a s IH]; intros [|b t]; simpl; try discriminate; auto.
  intros H. injection H as Hab Hst.
  f_equal; [|by apply IH].
  apply N2Z.inj in Hab.
  rewrite <- (ascii_N_embedding a), <- (ascii_N_embedding b). by rewrite Hab.
Qed.

Lemma bytes_of_is_byte (s : string) : Forall is_byte (bytes_of s).
Proof.
  induction s as [|a s IH]; simpl; constructor; auto.
  pose proof (N_ascii_bounded a). unfold is_byte. lia.
Qed.

Lemma bytes_of_length (s : string) : length (bytes_of s) = String.length s.
Proof. induction s; simpl; auto. Qed.

Lemma is_byte_land (b : Z) : is_byte b <-> Z.land b 255 = b.
Proof.
  unfold is_byte. change 255 with (Z.ones 8). rewrite Z.land_ones by lia.
  split; intros H.
  - apply Z.mod_small. lia.
  - rewrite <- H. apply Z.mod_pos_bound. lia.
Qed.

Lemma is_byte_lor (a b : Z) : is_byte a -> is_byte b -> is_byte (Z.lor a b).
Proof.
  rewrite !is_byte_land. intros Ha Hb.
  rewrite Z.land_lor_distr_l. congruence.
Qed.

Lemma is_byte_lxor (a b : Z) : is_byte a -> is_byte b -> is_byte (Z.lxor a b).
Proof.
  rewrite !is_byte_land. intros Ha Hb.
  apply Z.bits_inj'. intros n Hn.
  apply (f_equal (fun x => Z.testbit x n)) in Ha, Hb.
  rewrite Z.land_spec in Ha, Hb. rewrite Z.land_spec, Z.lxor_spec.
  destruct (Z.testbit a n), (Z.testbit b n), (Z.testbit 255 n);
    simpl in *; congruence.
Qed.

Lemma ConstantTimeByteEq_zero (v : Z) :
  is_byte v -> (subtle.ConstantTimeByteEq v 0 = 1 <-> v = 0).
Proof.
  unfold is_byte, subtle.ConstantTimeByteEq. intros Hv.
  rewrite Z.lxor_0_r, Z.shiftr_div_pow2 by lia.
  destruct (decide (v = 0)) as [->|Hne].
  - split; auto.
  - split; [|contradiction].
    intros H. exfalso.
    rewrite Z.mod_small in H by lia.
    rewrite Z.div_small in H by lia. discriminate.
Qed.

Lemma accumulate_spec (x : list Z) : forall (y : list Z) (v : Z) (n : nat),
  length x = length y -> is_byte v -> Forall is_byte x -> Forall is_byte y ->
  is_byte (subtle.accumulate v n x y).1 /\
  ((subtle.accumulate v n x y).1 = 0 <-> v = 0 /\ x = y) /\
  (subtle.accumulate v n x y).2 = (n + length x)%nat.
Proof.
  induction x as [|a x IH]; intros [|b y] v n Hlen Hv Hx Hy;
    simpl in *; try discriminate.
  - split; [done|split; [|lia]]. split; [auto|by intros [? _]].
  - inversion Hx; inversion Hy; subst.
    destruct (IH y (Z.lor v (Z.lxor a b)) (S n)) as (Hb & Hz & Hn); auto.
    { apply is_byte_lor; auto using is_byte_lxor. }
    split; [done|]. split; [split|].
    + intros H. apply Hz in H as [H ->].
      apply Z.lor_eq_0_iff in H as [-> H]. apply Z.lxor_eq in H. by subst.
    + intros [-> H]. injection H as -> ->. apply Hz.
      by rewrite Z.lxor_nilpotent.
    + rewrite Hn. lia.
Qed.

Lemma hmac_Equal_spec (x y : list Z) :
  Forall is_byte x -> Forall is_byte y -> (hmac.Equal x y = true <-> x = y).
Proof.
  intros Hx Hy. unfold hmac.Equal, subtle.ConstantTimeCompare, subtle.compare.
  destruct (length x =? length y)%nat eqn:Hlen; cbn [negb fst snd].
  - apply Nat.eqb_eq in Hlen.
    destruct (accumulate_spec x y 0 O Hlen) as (Hb & Hz & _); auto.
    { unfold is_byte; lia. }
    destruct (subtle.accumulate 0 0 x y) as [v n]; cbn [fst snd] in *.
    rewrite Z.eqb_eq, ConstantTimeByteEq_zero by done.
    rewrite Hz. tauto.
  - apply Nat.eqb_neq in Hlen. split; [discriminate|].
    intros ->. contradiction.
Qed.

Lemma compare_steps (x y : list Z) :
  Forall is_byte x -> Forall is_byte y ->
  (subtle.compare x y).2 = if decide (length x = length y) then length x else O.
Proof.
  intros Hx Hy. unfold subtle.compare.
  destruct (length x =? length y)%nat eqn:Hlen; cbn [negb fst snd].
  - apply Nat.eqb_eq in Hlen. rewrite decide_True by done.
    destruct (accumulate_spec x y 0 O Hlen) as (_ & _ & Hn); auto.
    { unfold is_byte; lia. }
    destruct (subtle.accumulate 0 0 x y) as [v n]; cbn [fst snd] in *. done.
  - apply Nat.eqb_neq in Hlen. by rewrite decide_False.
Qed.

(** ** Verification of the Midtrans signature *)

(** The hash function is the real one: the digests of the empty message and
    of "abc" are the published ones. *)
Example sha512_empty :
  hex.EncodeToString (sha512.Sum []) =
  "cf83e1357eefb8bdf1542850d66d8007d620e4050b5715dc83f4a921d36ce9ce47d0d13c5d85f2b0ff8318d2877eec2f63b931bd47417a81a538327af927da3e"%string.
Proof. vm_compute. reflexivity. Qed.

Example sha512_abc :
  hex.EncodeToString (sha512.Sum (bytes_of "abc")) =
  "ddaf35a193617abacc417349ae20413112e6fa4e89a97ea20a9eeee64b55d39a2192992a274fc1a836ba3c23a3feebbd454d4423643ce80e2a9ac94fa54ca49f"%string.
Proof. vm_compute. reflexivity. Qed.

Example sha512_two_blocks :
  hex.EncodeToString (sha512.Sum (replicate 200 97)) =
  "4b11459c33f52a22ee8236782714c150a3b2c60994e9acee17fe68947a3e6789f31e7668394592da7bef827cddca88c4e6f86e4df7ed1ae6cba71f3e98faee9f"%string.
Proof. vm_compute. reflexivity. Qed.

Lemma hex_digit_lower (n : Z) : is_lower_hex (hex.digit n) = true.
Proof.
  unfold hex.digit. generalize (Z.to_nat n). intros k.
  do 16 (destruct k as [|k]; [reflexivity|]). reflexivity.
Qed.

Lemma EncodeToString_lower (src : list Z) :
  forallb is_lower_hex (list_ascii_of_string (hex.EncodeToString src)) = true.
Proof.
  induction src as [|v src IH]; simpl; auto.
  rewrite !hex_digit_lower. simpl. exact IH.
Qed.

(** C7. For every Midtrans payload the signature check accepts exactly when
    [signature_key] is the lower-case hex encoding of SHA-512 over
    [order_id + status_code + gross_amount + serverKey]; the comparison is
    [hmac.Equal], whose loop runs once per byte whatever the bytes are: its
    iteration count is a function of the two lengths alone. *)
Theorem verifyMidtransSignature_iff (cfg : config.Config) (w : dto.MidtransWebhook) :
  (handler.verifyMidtransSignature cfg w = true <->
     dto.SignatureKey w = expected_signature cfg w) /\
  forallb is_lower_hex (list_ascii_of_string (expected_signature cfg w)) = true /\
  (subtle.compare (bytes_of (expected_signature cfg w))
                  (bytes_of (dto.SignatureKey w))).2 =
    if decide (String.length (expected_signature cfg w)
               = String.length (dto.SignatureKey w))
    then String.length (dto.SignatureKey w) else O.
Proof.
  split; [|split].
  - unfold handler.verifyMidtransSignature. fold (expected_signature cfg w).
    rewrite hmac_Equal_spec by apply bytes_of_is_byte.
    split; [intros H; symmetry; by apply bytes_of_inj | by intros ->].
  - apply EncodeToString_lower.
  - rewrite compare_steps by apply bytes_of_is_byte.
    rewrite !bytes_of_length.
    repeat case_decide; congruence.
Qed.



(** ** The provider status mappings *)

Ltac case_strings :=
  repeat match goal with
         | |- context [String.eqb ?a ?b] =>
             destruct (String.eqb_spec a b); subst; cbn [orb andb negb]
         end.

(** C5, as the design document states it, fails twice: a Midtrans [capture]
    under fraud review ([fraud_status = challenge]) maps to pending, not
    paid, and the Xendit value [COMPLETED], which the document does not
    list, maps to paid, not pending. *)
Lemma status_mapping_counterexample :
  handler.mapMidtransStatus "capture" "challenge" = payment.StatusPending /\
  ("COMPLETED" ∉ xendit_listed_in_document) /\
  handler.mapXenditStatus "COMPLETED" = payment.StatusPaid.
Proof.
  split; [reflexivity|split; [|reflexivity]].
  unfold xendit_listed_in_document. rewrite !elem_of_cons, elem_of_nil.
  intros H. repeat destruct H as [H|H]; try discriminate H. exact H.
Qed.

(** C5, amended. Midtrans: [capture] maps to paid when the fraud status is
    [accept] or empty and to pending otherwise; [settlement] to paid,
    [pending] to pending, [deny] and [cancel] to failed, [expire] to
    expired. Xendit: [PAID], [SETTLED] and [COMPLETED] map to paid,
    [PENDING] and [ACTIVE] to pending, [EXPIRED] to expired, [FAILED] to
    failed. Every other value maps to pending. *)
Theorem status_mapping :
  (forall fs, handler.mapMidtransStatus "capture" fs =
     if decide (fs = "accept" \/ fs = "") then payment.StatusPaid
     else payment.StatusPending) /\
  (forall fs, handler.mapMidtransStatus "settlement" fs = payment.StatusPaid) /\
  (forall fs, handler.mapMidtransStatus "pending" fs = payment.StatusPending) /\
  (forall fs, handler.mapMidtransStatus "deny" fs = payment.StatusFailed) /\
  (forall fs, handler.mapMidtransStatus "cancel" fs = payment.StatusFailed) /\
  (forall fs, handler.mapMidtransStatus "expire" fs = payment.StatusExpired) /\
  (forall ts fs, ts ∉ midtrans_listed ->
     handler.mapMidtransStatus ts fs = payment.StatusPending) /\
  handler.mapXenditStatus "PAID" = payment.StatusPaid /\
  handler.mapXenditStatus "SETTLED" = payment.StatusPaid /\
  handler.mapXenditStatus "COMPLETED" = payment.StatusPaid /\
  handler.mapXenditStatus "PENDING" = payment.StatusPending /\
  handler.mapXenditStatus "ACTIVE" = payment.StatusPending /\
  handler.mapXenditStatus "EXPIRED" = payment.StatusExpired /\
  handler.mapXenditStatus "FAILED" = payment.StatusFailed /\
  (forall s, s ∉ xendit_listed ->
     handler.mapXenditStatus s = payment.StatusPending).
Proof.
  repeat split; try reflexivity.
  - intros fs. unfold handler.mapMidtransStatus.
    change (String.eqb "capture" "capture") with true. cbv iota.
    case_strings; case_decide; naive_solver.
  - intros ts fs Hts. unfold midtrans_listed in Hts.
    rewrite !elem_of_cons, elem_of_nil in Hts.
    unfold handler.mapMidtransStatus. case_strings; naive_solver.
  - intros s Hs. unfold xendit_listed in Hs.
    rewrite !elem_of_cons, elem_of_nil in Hs.
    unfold handler.mapXenditStatus. case_strings; naive_solver.
Qed.



(** ** Idempotency of webhook processing *)

Example key_of_shape :
  key_of {| service.Provider := payment.ProviderMidtrans;
            service.OrderID := "DON-abc";
            service.TransactionID := "tx-1";
            service.Status := payment.StatusPaid |}
  = "webhook:midtrans:DON-abc:tx-1"%string.
Proof. reflexivity. Qed.

(** On the normal path a paid webhook for a pending payment marks it paid
    and publishes one event. *)
Example first_delivery_pays :
  let s' := (service.ProcessWebhook 1000 (demo_world true)
               (demo_params payment.StatusPaid)).1 in
  status_of s' 1 = Some payment.StatusPaid /\
  length (redis.published (service.rds s')) = 1%nat /\
  redis.live 1000 (redis.keys (service.rds s'))
    (key_of (demo_params payment.StatusPaid)) = true.
Proof. vm_compute. auto. Qed.

(** The duplicate branch: with the key live in the store, or the store out
    of reach, [ProcessWebhook] returns success and writes nothing. *)
Lemma ProcessWebhook_claimed (now : Z) (s : service.World)
    (params : service.ProcessWebhookParams) :
  redis.live now (redis.keys (service.rds s)) (key_of params) = true ->
  exists s', service.ProcessWebhook now s params = (s', None) /\
             service.db s' = service.db s /\
             service.rds s' = service.rds s.
Proof.
  intros Hlive. unfold service.ProcessWebhook, redis.SetNX, redis.client_SetNX.
  fold (key_of params).
  destruct (redis.reachable (service.rds s)); cbn [negb].
  - rewrite Hlive. cbn. eexists; split; [reflexivity|]. by destruct s.
  - cbn. eexists; split; [reflexivity|]. by destruct s.
Qed.

(** C4. A webhook whose idempotency key is already claimed (stored and not
    expired) is a no-op: [ProcessWebhook] returns success, the database is
    left as it is, and Redis too: nothing is published and no key is
    written. *)
Theorem replay_is_noop (now : Z) (s : service.World)
    (params : service.ProcessWebhookParams) :
  redis.live now (redis.keys (service.rds s)) (key_of params) = true ->
  exists s', service.ProcessWebhook now s params = (s', None) /\
             service.db s' = service.db s /\
             service.rds s' = service.rds s.
Proof.
  intros Hlive. unfold service.ProcessWebhook, redis.SetNX, redis.client_SetNX.
  fold (key_of params).
  destruct (redis.reachable (service.rds s)) eqn:Hup; cbn [negb].
  - rewrite Hlive. cbn. eexists. split; [reflexivity|]. by destruct s.
  - cbn. eexists. split; [reflexivity|]. by destruct s.
Qed.

Lemma replay_is_noop_witness :
  let s := (service.ProcessWebhook 1000 (demo_world true)
              (demo_params payment.StatusPaid)).1 in
  redis.live 2000 (redis.keys (service.rds s)) (key_of (demo_params payment.StatusPaid)) = true /\
  exists s', service.ProcessWebhook 2000 s (demo_params payment.StatusPaid) = (s', None) /\
             service.db s' = service.db s /\
             service.rds s' = service.rds s.
Proof.
  split; [vm_compute; reflexivity|].
  apply (replay_is_noop 2000). vm_compute; reflexivity.
Defined.

(** ** Behaviour when the idempotency store cannot be reached *)

(** C2. When [SetNX] returns an error the boolean it returns is false, so
    [ProcessWebhook] logs the warning and then takes the duplicate branch:
    it returns success without looking up the payment, and nothing is
    written. The webhook is dropped; the code does not fail open. *)
Theorem store_outage_drops_webhook (now : Z) (s : service.World)
    (params : service.ProcessWebhookParams) :
  redis.reachable (service.rds s) = false ->
  (redis.SetNX now (service.rds s) (key_of params) "processing" (24 * Hour)).2
    = Some redis.ErrUnreachable /\
  service.ProcessWebhook now s params =
    (service.log service.Info "duplicate webhook ignored"
       (service.log service.Warn "failed to check idempotency" s), None).
Proof.
  intros Hdown. unfold service.ProcessWebhook, redis.SetNX, redis.client_SetNX.
  rewrite Hdown. cbn. split; [reflexivity|]. by destruct s.
Qed.

Lemma store_outage_drops_webhook_witness :
  redis.reachable (service.rds (demo_world false)) = false /\
  status_of (service.ProcessWebhook 1000 (demo_world false)
               (demo_params payment.StatusPaid)).1 1
    = Some payment.StatusPending /\
  (service.ProcessWebhook 1000 (demo_world false) (demo_params payment.StatusPaid)).2
    = None.
Proof.
  split; [reflexivity|].
  destruct (store_outage_drops_webhook 1000 (demo_world false)
              (demo_params payment.StatusPaid) eq_refl) as [_ ->].
  split; reflexivity.
Defined.

(** ** A webhook that arrives before its payment *)

(** C10. The key is claimed before the payment is looked up and is not
    released when the lookup fails. With the store reachable and the key
    free, a webhook that matches no payment returns the not-found error and
    leaves the key claimed; every retry of the same (provider, order,
    transaction) during the next 24 hours, in any world [s2] that still
    holds that key, returns success and changes nothing, whatever the
    database holds by then. *)
Theorem early_webhook_is_lost (t0 : Z) (s : service.World)
    (params : service.ProcessWebhookParams) :
  redis.reachable (service.rds s) = true ->
  redis.live t0 (redis.keys (service.rds s)) (key_of params) = false ->
  (forall p, p ∈ postgres.payments (service.db s) ->
     ~ (payment.Provider_ p = service.Provider params /\
        payment.ExternalID p = service.OrderID params)) ->
  exists s1,
    service.ProcessWebhook t0 s params
      = (s1, Some "payment not found: payment not found"%string) /\
    service.db s1 = service.db s /\
    redis.keys (service.rds s1) !! key_of params
      = Some (redis.Marshal_string "processing", Some (t0 + 24 * Hour)) /\
    forall (t1 : Z) (s2 : service.World),
      t0 <= t1 < t0 + 24 * Hour ->
      redis.keys (service.rds s2) !! key_of params
        = redis.keys (service.rds s1) !! key_of params ->
      exists s3, service.ProcessWebhook t1 s2 params = (s3, None) /\
                 service.db s3 = service.db s2 /\
                 service.rds s3 = service.rds s2.
Proof.
  intros Hup Hfree Hnone.
  assert (Hfind : postgres.PaymentRepository.GetByExternalID (service.db s)
                    (service.Provider params) (service.OrderID params)
                  = Err "payment not found").
  { unfold postgres.PaymentRepository.GetByExternalID.
    destruct (List.find _ _) as [p|] eqn:Hf; [|reflexivity].
    apply List.find_some in Hf as [Hin Hp]. exfalso.
    apply (Hnone p); [by apply list_elem_of_In|].
    apply andb_true_iff in Hp as [Hp He]. apply String.eqb_eq in He.
    split; [|done].
    by destruct (payment.Provider_ p), (service.Provider params). }
  unfold service.ProcessWebhook at 1. unfold redis.SetNX, redis.client_SetNX.
  fold (key_of params). rewrite Hup, Hfree. cbn [negb].
  cbn -[Hour Z.mul redis.Marshal_string]. rewrite Hfind.
  eexists. split; [reflexivity|]. cbn -[Hour Z.mul redis.Marshal_string].
  split; [done|]. split; [by rewrite lookup_insert_eq|].
  intros t1 s2 Ht1 Hkey.
  apply ProcessWebhook_claimed.
  unfold redis.live. rewrite Hkey, lookup_insert_eq.
  apply Z.ltb_lt. lia.
Qed.

Lemma early_webhook_is_lost_witness :
  let params := {| service.Provider := payment.ProviderMidtrans;
                   service.OrderID := "DON-early";
                   service.TransactionID := "tx-9";
                   service.Status := payment.StatusPaid |} in
  redis.reachable (service.rds (demo_world true)) = true /\
  redis.live 1000 (redis.keys (service.rds (demo_world true))) (key_of params) = false /\
  exists s1,
    service.ProcessWebhook 1000 (demo_world true) params
      = (s1, Some "payment not found: payment not found"%string) /\
    service.db s1 = service.db (demo_world true) /\
    exists s3,
      service.ProcessWebhook (1000 + 23 * Hour)
        {| service.db := postgres.with_payments (service.db s1)
                           [{| payment.ID := 7; payment.DonationID := 10;
                               payment.Provider_ := payment.ProviderMidtrans;
                               payment.ExternalID := "DON-early";
                               payment.PaymentMethod := "qris";
                               payment.Amount := 50000;
                               payment.Status_ := payment.StatusPending;
                               payment.QRCodeURL := ""; payment.VANumber := "";
                               payment.DeepLink := "";
                               payment.ExpiresAt := 86400 * 10 ^ 9;
                               payment.PaidAt := None; payment.Metadata := ∅;
                               payment.CreatedAt := 0; payment.UpdatedAt := 0 |}];
           service.rds := {| redis.reachable := true;
                             redis.keys := redis.keys (service.rds s1);
                             redis.published := redis.published (service.rds s1) |};
           service.logger := service.logger s1 |} params = (s3, None) /\
      status_of s3 7 = Some payment.StatusPending.
Proof.
  cbv zeta. split; [reflexivity|]. split; [vm_compute; reflexivity|].
  destruct (early_webhook_is_lost 1000 (demo_world true)
              {| service.Provider := payment.ProviderMidtrans;
                 service.OrderID := "DON-early";
                 service.TransactionID := "tx-9";
                 service.Status := payment.StatusPaid |})
    as (s1 & H1 & H2 & _ & Hretry).
  - reflexivity.
  - vm_compute; reflexivity.
  - intros p Hp [_ He]. apply list_elem_of_singleton in Hp. subst p. discriminate He.
  - exists s1. split; [exact H1|]. split; [exact H2|].
    match goal with
    | |- context [service.ProcessWebhook ?t ?s2 _] =>
        destruct (Hretry t s2) as (s3 & Hrun & Hdb & _)
    end.
    { unfold Hour. lia. }
    { reflexivity. }
    exists s3. split; [exact Hrun|].
    unfold status_of. rewrite Hdb. reflexivity.
Defined.



(** ** Paid payments under later calls *)

Lemma find_updated (now : Z) (p : payment.Payment) (rows : list payment.Payment) (id : N) :
  List.find (by_id id) (updated now p rows) =
  (fun row => if (payment.ID row =? payment.ID p)%N
              then postgres.PaymentRepository.update_row now p row else row)
    <$> List.find (by_id id) rows.
Proof.
  induction rows as [|r rows IH]; [reflexivity|].
  cbn [updated map List.find]. fold (updated now p rows).
  assert (Hid : by_id id (if (payment.ID r =? payment.ID p)%N
                          then postgres.PaymentRepository.update_row now p r else r)
                = by_id id r).
  { by destruct (payment.ID r =? payment.ID p)%N. }
  rewrite Hid. destruct (by_id id r); [reflexivity|exact IH].
Qed.

Lemma payments_Update (now : Z) (d : postgres.DB) (p : payment.Payment) :
  let d' := (postgres.PaymentRepository.Update now d p).1 in
  (postgres.payments d' = postgres.payments d \/
   postgres.payments d' = updated now p (postgres.payments d)) /\
  postgres.donations d' = postgres.donations d /\
  postgres.webhook_logs d' = postgres.webhook_logs d.
Proof.
  unfold postgres.PaymentRepository.Update.
  destruct (existsb _ _); cbn; auto.
Qed.

Lemma donations_Update (now : Z) (d : postgres.DB) (don : donation.Donation) :
  let d' := (postgres.DonationRepository.Update now d don).1 in
  postgres.payments d' = postgres.payments d /\
  postgres.webhook_logs d' = postgres.webhook_logs d.
Proof.
  unfold postgres.DonationRepository.Update.
  destruct (existsb _ _); cbn; auto.
Qed.

Lemma find_by_id_unique (rows : list payment.Payment) (id : N) (r p : payment.Payment) :
  NoDup (payment.ID <$> rows) ->
  List.find (by_id id) rows = Some r -> p ∈ rows -> payment.ID p = id -> p = r.
Proof.
  induction rows as [|a rows IH]; cbn; [discriminate|].
  intros Hnd Hf Hp Hid. apply NoDup_cons in Hnd as [Ha Hnd].
  unfold by_id at 1 in Hf.
  destruct (payment.ID a =? id)%N eqn:Hai.
  - apply N.eqb_eq in Hai. injection Hf as <-.
    apply elem_of_cons in Hp as [->|Hp]; [done|].
    exfalso. apply Ha. rewrite Hai, <- Hid. by apply list_elem_of_fmap_2.
  - apply elem_of_cons in Hp as [->|Hp].
    + apply N.eqb_neq in Hai. contradiction.
    + by apply IH.
Qed.

(** The rows of [payments] after [webhook_paid] and [webhook_closed]. *)
Lemma payments_webhook_paid (now : Z) (s : service.World) (pay : payment.Payment) :
  let rows' := postgres.payments (service.db (service.webhook_paid now s pay).1) in
  rows' = postgres.payments (service.db s) \/
  rows' = updated now (payment.MarkAsPaid now pay) (postgres.payments (service.db s)).
Proof.
  unfold service.webhook_paid.
  pose proof (payments_Update now (service.db s) (payment.MarkAsPaid now pay)) as HU.
  destruct (postgres.PaymentRepository.Update _ _ _) as [d1 [e|]]; cbn in *; [auto|].
  destruct HU as (HU & _ & _).
  destruct (postgres.DonationRepository.GetByID d1 _) as [don|e]; cbn; [|auto].
  pose proof (donations_Update now d1 (donation.MarkAsPaid now don)) as HD.
  destruct (postgres.DonationRepository.Update _ _ _) as [d2 [e|]]; cbn in *; [auto|].
  destruct HD as [HD _].
  destruct (redis.PublishDonationEvent _ _) as [r [e|]]; cbn; rewrite HD; auto.
Qed.

Lemma payments_webhook_closed (now : Z) (s : service.World) (pay : payment.Payment)
    (mark : Z -> donation.Donation -> donation.Donation) :
  let rows' := postgres.payments (service.db (service.webhook_closed now s pay mark).1) in
  rows' = postgres.payments (service.db s) \/
  rows' = updated now pay (postgres.payments (service.db s)).
Proof.
  unfold service.webhook_closed.
  pose proof (payments_Update now (service.db s) pay) as HU.
  destruct (postgres.PaymentRepository.Update _ _ _) as [d1 [e|]]; cbn in *; [auto|].
  destruct HU as (HU & _ & _).
  destruct (postgres.DonationRepository.GetByID d1 _) as [don|e]; cbn; [|auto].
  pose proof (donations_Update now d1 (mark now don)) as [HD _].
  cbn in HD. rewrite HD. auto.
Qed.

(** [ProcessWebhook] leaves the rows of [payments] alone or updates the
    rows that share the identifier of an unpaid payment. *)
Lemma payments_ProcessWebhook (now : Z) (s : service.World)
    (params : service.ProcessWebhookParams) :
  let rows' := postgres.payments (service.db (service.ProcessWebhook now s params).1) in
  rows' = postgres.payments (service.db s) \/
  exists pay pay', pay ∈ postgres.payments (service.db s) /\
                   payment.IsPaid pay = false /\
                   payment.ID pay' = payment.ID pay /\
                   rows' = updated now pay' (postgres.payments (service.db s)).
Proof.
  unfold service.ProcessWebhook.
  destruct (redis.SetNX _ _ _ _ _) as [[r set] err].
  assert (Hdb : service.db
            match err with
            | Some _ => service.log service.Warn "failed to check idempotency"
                          (service.with_rds s r)
            | None => service.with_rds s r
            end = service.db s) by (by destruct err).
  set (s0 := match err with Some _ => _ | None => _ end) in *. clearbody s0.
  destruct set; cbn [negb]; [|left; cbn; by rewrite Hdb].
  unfold postgres.PaymentRepository.GetByExternalID.
  destruct (List.find _ _) as [pay|] eqn:Hf; cbn [postgres.scanPayment];
    [|left; cbn; by rewrite Hdb].
  apply List.find_some in Hf as [Hin _]. rewrite Hdb in Hin.
  apply list_elem_of_In in Hin.
  destruct (payment.IsPaid pay) eqn:Hpaid; [left; cbn; by rewrite Hdb|].
  destruct (service.Status params).
  - left; cbn; by rewrite Hdb.
  - destruct (payments_webhook_paid now s0 pay) as [H|H]; rewrite H, Hdb; [by left|].
    right. exists pay, (payment.MarkAsPaid now pay). auto.
  - destruct (payments_webhook_closed now s0 (payment.MarkAsExpired now pay)
                donation.MarkAsExpired) as [H|H]; rewrite H, Hdb; [by left|].
    right. exists pay, (payment.MarkAsExpired now pay). auto.
  - destruct (payments_webhook_closed now s0 (payment.MarkAsFailed now pay)
                donation.MarkAsFailed) as [H|H]; rewrite H, Hdb; [by left|].
    right. exists pay, (payment.MarkAsFailed now pay). auto.
  - left; cbn; by rewrite Hdb.
Qed.

(** [ManualReconcile] with a status other than failed rewrites the rows
    that share the identifier of the payment it found, with the status that
    payment had or with paid. *)
Lemma payments_ManualReconcile (now : Z) (s : service.World) (paymentID : N)
    (status : payment.Status) (reason : string) :
  status <> payment.StatusFailed ->
  let rows' := postgres.payments
                 (service.db (service.ManualReconcile now s paymentID status reason).1) in
  rows' = postgres.payments (service.db s) \/
  exists pay pay', List.find (by_id paymentID) (postgres.payments (service.db s)) = Some pay /\
                   payment.ID pay' = payment.ID pay /\
                   (payment.Status_ pay' = payment.Status_ pay \/
                    payment.Status_ pay' = payment.StatusPaid) /\
                   rows' = updated now pay' (postgres.payments (service.db s)).
Proof.
  intros Hnf.
  unfold service.ManualReconcile, postgres.PaymentRepository.GetByID.
  fold (by_id paymentID).
  destruct (List.find (by_id paymentID) _) as [pay|] eqn:Hpay;
    cbn [postgres.scanPayment]; [|by left].
  destruct (postgres.DonationRepository.GetByID _ _) as [don|e]; [|by left].
  assert (Hrows : forall s1 pay' don', service.db s1 = service.db s ->
    let rows' := postgres.payments (service.db
      (match postgres.PaymentRepository.Update now (service.db s1) pay' with
       | (_, Some e) => (s1, Some ("failed to update payment: " +:+ e))
       | (db1, None) =>
           match postgres.DonationRepository.Update now
                   (service.db (service.with_db s1 db1)) don' with
           | (_, Some e) =>
               (service.with_db s1 db1, Some ("failed to update donation: " +:+ e))
           | (db2, None) =>
               (service.log service.Info "manual reconciliation completed"
                  (service.with_db (service.with_db s1 db1) db2), None)
           end
       end).1) in
    rows' = postgres.payments (service.db s) \/
    rows' = updated now pay' (postgres.payments (service.db s))).
  { intros s1 pay' don' Hs1. rewrite Hs1.
    pose proof (payments_Update now (service.db s) pay') as HU.
    destruct (postgres.PaymentRepository.Update now (service.db s) pay')
      as [d1 [e|]]; cbn in *; [left; by rewrite Hs1|].
    destruct HU as (HU & _ & _).
    pose proof (donations_Update now d1 don') as [HD _].
    destruct (postgres.DonationRepository.Update now d1 don') as [d2 [e|]];
      cbn in *; rewrite ?HD; exact HU. }
  destruct status; try contradiction; cbn zeta;
    match goal with
    | |- context [postgres.PaymentRepository.Update now (service.db ?s1) ?pay'] =>
        match goal with
        | |- context [postgres.DonationRepository.Update now _ ?don'] =>
            destruct (Hrows s1 pay' don' eq_refl) as [H|H]; [by left|];
            right; exists pay, pay'; split_and!; auto
        end
    end.
Qed.

Lemma ids_updated (now : Z) (p : payment.Payment) (rows : list payment.Payment) :
  payment.ID <$> updated now p rows = payment.ID <$> rows.
Proof.
  induction rows as [|r rows IH]; [reflexivity|].
  cbn [updated map fmap list_fmap] in *. f_equal; [|exact IH].
  by destruct (payment.ID r =? payment.ID p)%N.
Qed.

(** The manual override on the paid payment of [paid_world]:
    [ManualReconcile] with [failed] stores [failed]. *)
Example reconcile_failed_on_paid_world :
  status_of paid_world 1 = Some payment.StatusPaid /\
  payment.StatusFailed <> payment.StatusPaid /\
  status_of (service.ManualReconcile 5000 paid_world 1 payment.StatusFailed
               "chargeback reported by the bank").1 1
    = Some payment.StatusFailed.
Proof. split; [|split]; [vm_compute; reflexivity|discriminate|vm_compute; reflexivity]. Qed.

(** One call keeps a paid payment paid and the identifiers unique. *)
Lemma paid_step (s : service.World) (id : N) (c : call) :
  leaves_paid c ->
  NoDup (payment.ID <$> postgres.payments (service.db s)) ->
  status_of s id = Some payment.StatusPaid ->
  NoDup (payment.ID <$> postgres.payments (service.db (perform s c))) /\
  status_of (perform s c) id = Some payment.StatusPaid.
Proof.
  intros Hc Hnd Hpaid. unfold status_of in *. fold (by_id id) in *.
  destruct (List.find (by_id id) _) as [r|] eqn:Hr; [|discriminate].
  injection Hpaid as Hpaid.
  destruct c as [now params|now paymentID status reason]; cbn [perform leaves_paid] in *.
  - destruct (payments_ProcessWebhook now s params)
      as [-> | (pay & pay' & Hin & Hunpaid & Hid & ->)].
    + split; [done|]. rewrite Hr; cbn; by rewrite Hpaid.
    + split; [by rewrite ids_updated|].
      rewrite find_updated, Hr. cbn.
      destruct (payment.ID r =? payment.ID pay')%N eqn:He; [|by rewrite Hpaid].
      apply N.eqb_eq in He. exfalso.
      assert (Hrid : payment.ID r = id).
      { apply List.find_some in Hr as [_ H]. by apply N.eqb_eq in H. }
      assert (pay = r) as -> by (eapply find_by_id_unique; eauto; congruence).
      unfold payment.IsPaid in Hunpaid. rewrite Hpaid in Hunpaid. discriminate.
  - destruct (payments_ManualReconcile now s paymentID status reason Hc)
      as [-> | (pay & pay' & Hpay & Hid & Hst & ->)].
    + split; [done|]. rewrite Hr; cbn; by rewrite Hpaid.
    + split; [by rewrite ids_updated|].
      rewrite find_updated, Hr. cbn.
      destruct (payment.ID r =? payment.ID pay')%N eqn:He; [|by rewrite Hpaid].
      cbn. f_equal. destruct Hst as [Hst | Hst]; rewrite Hst; [|done].
      apply N.eqb_eq in He.
      pose proof Hpay as Hp. apply List.find_some in Hp as [_ Hp].
      apply N.eqb_eq in Hp.
      pose proof Hr as Hq. apply List.find_some in Hq as [_ Hq].
      apply N.eqb_eq in Hq.
      assert (paymentID = id) as -> by congruence.
      rewrite Hr in Hpay. by injection Hpay as <-.
Qed.

(** What the guard of [ProcessWebhook] gives. With [id] the primary key of
    [payments], a payment that is paid stays paid through every sequence of
    later calls of [ProcessWebhook], whatever status they report, and of
    [ManualReconcile] reporting a status other than failed, the one status
    on which [ManualReconcile] writes something else than paid. *)
Lemma paid_is_terminal (s : service.World) (id : N) (calls : list call) :
  NoDup (payment.ID <$> postgres.payments (service.db s)) ->
  status_of s id = Some payment.StatusPaid ->
  Forall leaves_paid calls ->
  status_of (foldl perform s calls) id = Some payment.StatusPaid.
Proof.
  intros Hnd Hpaid Hcalls. revert s Hnd Hpaid.
  induction Hcalls as [|c calls Hc _ IH]; intros s Hnd Hpaid; [exact Hpaid|].
  cbn [foldl]. destruct (paid_step s id c Hc Hnd Hpaid) as [Hnd' Hpaid'].
  by apply IH.
Qed.

Lemma paid_is_terminal_witness :
  let calls :=
    [Webhook 9000 {| service.Provider := payment.ProviderMidtrans;
                     service.OrderID := "DON-abc";
                     service.TransactionID := "tx-2";
                     service.Status := payment.StatusExpired |};
     Reconcile 9500 1 payment.StatusExpired "expired at the provider";
     Webhook 9900 {| service.Provider := payment.ProviderMidtrans;
                     service.OrderID := "DON-abc";
                     service.TransactionID := "tx-3";
                     service.Status := payment.StatusFailed |}] in
  NoDup (payment.ID <$> postgres.payments (service.db paid_world)) /\
  status_of paid_world 1 = Some payment.StatusPaid /\
  Forall leaves_paid calls /\
  status_of (foldl perform paid_world calls) 1 = Some payment.StatusPaid.
Proof.
  cbv zeta.
  assert (Hnd : NoDup (payment.ID <$> postgres.payments (service.db paid_world))).
  { vm_compute. apply NoDup_singleton. }
  assert (Hp : status_of paid_world 1 = Some payment.StatusPaid).
  { vm_compute; reflexivity. }
  match goal with
  | |- _ /\ _ /\ Forall _ ?calls /\ _ =>
      assert (Hcalls : Forall leaves_paid calls)
        by (repeat constructor; discriminate)
  end.
  split; [exact Hnd|]. split; [exact Hp|]. split; [exact Hcalls|].
  exact (paid_is_terminal paid_world 1 _ Hnd Hp Hcalls).
Defined.


(** ** The Midtrans endpoint and an invalid signature *)

Ltac proj :=
  cbn [service.db service.rds service.logger service.with_db service.with_rds
       service.log fst snd].

Example signed_is_valid : handler.verifyMidtransSignature demo_cfg signed = true.
Proof. vm_compute. reflexivity. Qed.

Example forged_is_invalid : handler.verifyMidtransSignature demo_cfg forged = false.
Proof. vm_compute. reflexivity. Qed.

(** With the handler of the server, a Midtrans request whose body was read
    ends in the panic of [logWebhook], whatever the body holds; nothing was
    written or logged before. *)
Lemma HandleMidtrans_server (cfg : config.Config) (now : Z) (s : service.World)
    (r : handler.Request dto.MidtransWebhook) (raw : list Z)
    (decoded : option dto.MidtransWebhook) :
  handler.Body r = handler.Read raw decoded ->
  handler.HandleMidtrans (server.webhookHandler cfg) now s r
    = (s, handler.Panicked handler.nilDereference).
Proof. intros Hbody. unfold handler.HandleMidtrans. by rewrite Hbody. Qed.

(** C3. The server builds its webhook handler with a nil audit-log
    repository, and [HandleMidtrans] calls [logWebhook] as soon as the body
    is read, before it parses the body and before it checks the signature.
    So a Midtrans request with an invalid signature is not answered 401: the
    call ends in the panic of the method call on the nil repository, with
    the world as it was (no payment, donation, key or event written). The
    corrected retry with a valid signature ends the same way, from the same
    world: it is not processed either. *)
Theorem invalid_signature_panics (cfg : config.Config) (now : Z) (s : service.World)
    (r : handler.Request dto.MidtransWebhook) (raw : list Z) (w : dto.MidtransWebhook) :
  handler.Body r = handler.Read raw (Some w) ->
  handler.verifyMidtransSignature cfg w = false ->
  handler.HandleMidtrans (server.webhookHandler cfg) now s r
    = (s, handler.Panicked handler.nilDereference) /\
  code_of (handler.HandleMidtrans (server.webhookHandler cfg) now s r).2
    <> Some handler.StatusUnauthorized /\
  forall now2 r2 raw2 w2,
    handler.Body r2 = handler.Read raw2 (Some w2) ->
    handler.verifyMidtransSignature cfg w2 = true ->
    handler.HandleMidtrans (server.webhookHandler cfg) now2 s r2
      = (s, handler.Panicked handler.nilDereference).
Proof.
  intros Hbody Hsig.
  rewrite (HandleMidtrans_server cfg now s r raw (Some w) Hbody).
  split; [reflexivity|]. split; [discriminate|].
  intros now2 r2 raw2 w2 Hbody2 _. by apply (HandleMidtrans_server cfg now2 s r2 raw2 (Some w2)).
Qed.

Lemma invalid_signature_panics_witness :
  handler.verifyMidtransSignature demo_cfg forged = false /\
  handler.verifyMidtransSignature demo_cfg signed = true /\
  handler.HandleMidtrans (server.webhookHandler demo_cfg) 1000 (demo_world true)
      (request_of forged)
    = (demo_world true, handler.Panicked handler.nilDereference) /\
  handler.HandleMidtrans (server.webhookHandler demo_cfg) 2000 (demo_world true)
      (request_of signed)
    = (demo_world true, handler.Panicked handler.nilDereference) /\
  status_of (demo_world true) 1 = Some payment.StatusPending.
Proof.
  assert (Hforged : handler.verifyMidtransSignature demo_cfg forged = false)
    by (vm_compute; reflexivity).
  assert (Hsigned : handler.verifyMidtransSignature demo_cfg signed = true)
    by (vm_compute; reflexivity).
  destruct (invalid_signature_panics demo_cfg 1000 (demo_world true)
              (request_of forged) (bytes_of (body_of forged)) forged eq_refl Hforged)
    as (Hfirst & _ & Hretry).
  split; [exact Hforged|]. split; [exact Hsigned|]. split; [exact Hfirst|].
  split; [|reflexivity].
  exact (Hretry 2000 (request_of signed) (bytes_of (body_of signed)) signed
           eq_refl Hsigned).
Defined.



(** ** The hub: unregister *)

Lemma wf_member (h : websocket.Hub) (ch : string) (members : gset N) (x : N) :
  websocket.wf h -> websocket.clients h !! ch = Some members -> x ∈ members ->
  exists c, websocket.mem h !! x = Some c /\ websocket.channel c = ch /\
            websocket.closed (websocket.send c) = false.
Proof. intros Hwf Hch Hx. destruct (Hwf ch members Hch) as [_ H]. by apply H. Qed.

Lemma wf_NewHub : websocket.wf websocket.NewHub.
Proof. intros ch members H. cbn in H. by rewrite lookup_empty in H. Qed.

Lemma unregisterClient_member (h : websocket.Hub) (client : N) (c : websocket.Client)
    (members : gset N) :
  websocket.mem h !! client = Some c ->
  websocket.clients h !! websocket.channel c = Some members ->
  client ∈ members ->
  websocket.closed (websocket.send c) = false ->
  websocket.unregisterClient h client = Done (unregistered h client c members).
Proof.
  intros Hc Hch Hin Hopen. unfold websocket.unregisterClient, unregistered.
  rewrite Hc, Hch, decide_True, Hopen by done.
  destruct (size (members ∖ {[client]}) =? 0)%nat eqn:Hsz.
  - apply Nat.eqb_eq, size_empty_iff in Hsz.
    rewrite decide_True; [done|]. by apply leibniz_equiv.
  - apply Nat.eqb_neq in Hsz. rewrite decide_False; [done|].
    intros He. apply Hsz. rewrite He. apply size_empty.
Qed.

Lemma unregisterClient_absent (h : websocket.Hub) (client : N) (c : websocket.Client) :
  websocket.mem h !! client = Some c ->
  (forall members, websocket.clients h !! websocket.channel c = Some members ->
                   client ∉ members) ->
  websocket.unregisterClient h client = Done h.
Proof.
  intros Hc Hout. unfold websocket.unregisterClient. rewrite Hc.
  destruct (websocket.clients h !! websocket.channel c) as [members|] eqn:Hch; [|done].
  rewrite decide_False; [done|]. by apply Hout.
Qed.

Lemma wf_unregistered (h : websocket.Hub) (client : N) (c : websocket.Client)
    (members : gset N) :
  websocket.wf h ->
  websocket.mem h !! client = Some c ->
  websocket.clients h !! websocket.channel c = Some members ->
  websocket.wf (unregistered h client c members).
Proof.
  intros Hwf Hc Hch ch ms Hms. unfold unregistered in *. cbn in *.
  assert (Hold : forall x, x ≠ client ->
            websocket.mem h !! x = (<[client := websocket.with_send c
              {| websocket.buf := websocket.buf (websocket.send c);
                 websocket.cap := websocket.cap (websocket.send c);
                 websocket.closed := true |}]> (websocket.mem h)) !! x).
  { intros x Hx. by rewrite lookup_insert_ne. }
  destruct (decide (ch = websocket.channel c)) as [->|Hne].
  - case_decide as He.
    + by rewrite lookup_delete_eq in Hms.
    + rewrite lookup_insert_eq in Hms. injection Hms as <-.
      split; [done|]. intros x Hx.
      apply elem_of_difference in Hx as [Hx Hxc].
      rewrite not_elem_of_singleton in Hxc.
      rewrite <- Hold by done. by eapply wf_member.
  - assert (Hms' : websocket.clients h !! ch = Some ms).
    { case_decide; [by rewrite lookup_delete_ne in Hms
                   |by rewrite lookup_insert_ne in Hms]. }
    destruct (Hwf ch ms Hms') as [Hne' Hall]. split; [done|].
    intros x Hx. destruct (Hall x Hx) as (cx & Hcx & Hchx & Hopen).
    assert (x ≠ client) by (intros ->; congruence).
    rewrite <- Hold by done. eauto.
Qed.

Lemma unregister_keeps_wf (h h' : websocket.Hub) (client : N) :
  websocket.wf h -> websocket.unregisterClient h client = Done h' -> websocket.wf h'.
Proof.
  intros Hwf. unfold websocket.unregisterClient.
  destruct (websocket.mem h !! client) as [c|] eqn:Hc; [|discriminate].
  destruct (websocket.clients h !! websocket.channel c) as [members|] eqn:Hch;
    [|by intros [= <-]].
  case_decide as Hin; [|by intros [= <-]].
  destruct (wf_member h _ members client Hwf Hch Hin) as (c' & Hc' & _ & Hopen).
  assert (c' = c) as -> by congruence.
  pose proof (unregisterClient_member h client c members Hc Hch Hin Hopen) as Hrun.
  unfold websocket.unregisterClient in Hrun. rewrite Hc, Hch, decide_True in Hrun by done.
  rewrite Hrun. intros [= <-]. by apply wf_unregistered.
Qed.

(** C9. Unregister is idempotent. In every well-formed hub, unregistering a
    client returns; unregistering it again returns the same hub without
    touching it, so the queue of the client is closed by the first call at
    most and never twice; the hub stays well formed. The first call does
    nothing unless the client is a member of its channel; when it is, the
    client is removed, its queue is closed, and the channel entry is
    deleted exactly when no member is left. *)
Theorem unregister_idempotent (h : websocket.Hub) (client : N) (c : websocket.Client) :
  websocket.wf h ->
  websocket.mem h !! client = Some c ->
  exists h1,
    websocket.unregisterClient h client = Done h1 /\
    websocket.unregisterClient h1 client = Done h1 /\
    websocket.wf h1 /\
    match websocket.clients h !! websocket.channel c with
    | Some members =>
        if decide (client ∈ members) then
          h1 = unregistered h client c members /\
          (websocket.clients h1 !! websocket.channel c = None
             <-> members ∖ {[client]} = ∅) /\
          (members ∖ {[client]} ≠ ∅ ->
             websocket.clients h1 !! websocket.channel c = Some (members ∖ {[client]})) /\
          (forall ch, ch ≠ websocket.channel c ->
             websocket.clients h1 !! ch = websocket.clients h !! ch)
        else h1 = h
    | None => h1 = h
    end.
Proof.
  intros Hwf Hc.
  destruct (websocket.clients h !! websocket.channel c) as [members|] eqn:Hch.
  - destruct (decide (client ∈ members)) as [Hin|Hout].
    + destruct (wf_member h _ members client Hwf Hch Hin) as (c' & Hc' & _ & Hopen).
      assert (c' = c) as -> by congruence.
      exists (unregistered h client c members).
      split; [by apply unregisterClient_member|].
      split; [|split; [by apply wf_unregistered|]].
      * eapply unregisterClient_absent.
        { unfold unregistered. cbn. apply lookup_insert_eq. }
        cbn. intros ms. case_decide.
        -- by rewrite lookup_delete_eq.
        -- rewrite lookup_insert_eq. intros [= <-]. set_solver.
      * split; [done|]. unfold unregistered. cbn.
        split; [|split].
        -- case_decide; [by rewrite lookup_delete_eq|].
           rewrite lookup_insert_eq. split; [discriminate|done].
        -- intros Hne. rewrite decide_False by done. apply lookup_insert_eq.
        -- intros ch Hne. case_decide;
             [by rewrite lookup_delete_ne|by rewrite lookup_insert_ne].
    + exists h.
      assert (Hun : websocket.unregisterClient h client = Done h).
      { eapply unregisterClient_absent; [done|]. intros ms. rewrite Hch. by intros [= <-]. }
      done.
  - exists h.
    assert (Hun : websocket.unregisterClient h client = Done h).
    { eapply unregisterClient_absent; [done|]. intros ms. by rewrite Hch. }
    done.
Qed.



(** Well-formedness is kept by the other requests of the hub loop:
    registering a client whose queue is open, and a broadcast however it
    ends. With [wf_NewHub] and [unregister_keeps_wf], every hub that the
    loop of [Run] reaches from [NewHub] is well formed. *)
Lemma wf_registerClient (h h' : websocket.Hub) (client : N) (c : websocket.Client) :
  websocket.wf h ->
  websocket.mem h !! client = Some c ->
  websocket.closed (websocket.send c) = false ->
  websocket.registerClient h client = Done h' ->
  websocket.wf h'.
Proof.
  intros Hwf Hc Hopen. unfold websocket.registerClient. rewrite Hc.
  intros [= <-] ch ms Hms. cbn in Hms.
  destruct (decide (ch = websocket.channel c)) as [-> | Hne].
  - rewrite lookup_insert_eq in Hms. injection Hms as <-.
    split; [set_solver|]. intros x Hx. cbn.
    apply elem_of_union in Hx as [Hx | Hx].
    + destruct (websocket.clients h !! websocket.channel c) as [old|] eqn:Hold;
        cbn in Hx; [by eapply wf_member|set_solver].
    + apply elem_of_singleton in Hx as ->. eauto.
  - rewrite lookup_insert_ne in Hms by done. by apply Hwf.
Qed.

Lemma wf_enqueue (h : websocket.Hub) (client : N) (c : websocket.Client)
    (message : websocket.OutgoingMessage) :
  websocket.wf h ->
  websocket.mem h !! client = Some c ->
  websocket.wf (websocket.with_mem h
                  (<[client := websocket.with_send c
                                 (websocket.push (websocket.send c) message)]>
                     (websocket.mem h))).
Proof.
  intros Hwf Hc ch ms Hms. cbn in Hms. destruct (Hwf ch ms Hms) as [Hne Hall].
  split; [done|]. intros x Hx. cbn.
  destruct (Hall x Hx) as (cx & Hcx & Hch & Hopen).
  destruct (decide (x = client)) as [-> | Hxc].
  - rewrite lookup_insert_eq. assert (cx = c) as -> by congruence. eauto.
  - rewrite lookup_insert_ne by done. eauto.
Qed.

Lemma wf_deliver (message : websocket.OutgoingMessage) (order : list N) :
  forall h h' : websocket.Hub,
  websocket.wf h ->
  (websocket.deliver message order h = Done h' \/
   websocket.deliver message order h = Blocked h') ->
  websocket.wf h'.
Proof.
  induction order as [|client order IH]; intros h h' Hwf Hrun;
    cbn [websocket.deliver] in Hrun.
  - destruct Hrun as [[= <-] | [=]]. done.
  - destruct (websocket.mem h !! client) as [c|] eqn:Hc;
      [|by destruct Hrun as [[=] | [=]]].
    destruct (websocket.closed (websocket.send c));
      [by destruct Hrun as [[=] | [=]]|].
    destruct (websocket.full (websocket.send c)); cbn [negb] in Hrun.
    + destruct (length (websocket.unregister h) <? websocket.hubBufferSize)%nat.
      * eapply IH; [|exact Hrun]. done.
      * destruct Hrun as [[=] | [= <-]]. done.
    + eapply IH; [|exact Hrun]. by apply wf_enqueue.
Qed.



(** ** The hub: broadcast to a channel *)

(** The delivery loop over members that all have an open queue, of which
    [slow] alone has a full one. *)
Lemma deliver_spec (message : websocket.OutgoingMessage) (slow : N) (order : list N) :
  forall h : websocket.Hub,
  NoDup order ->
  (forall x, x ∈ order ->
     exists c, websocket.mem h !! x = Some c /\
               websocket.closed (websocket.send c) = false /\
               (websocket.full (websocket.send c) = true <-> x = slow)) ->
  (slow ∈ order -> (length (websocket.unregister h) < websocket.hubBufferSize)%nat) ->
  exists h',
    websocket.deliver message order h = Done h' /\
    websocket.clients h' = websocket.clients h /\
    websocket.register h' = websocket.register h /\
    websocket.broadcast h' = websocket.broadcast h /\
    websocket.unregister h'
      = websocket.unregister h ++ (if decide (slow ∈ order) then [slow] else []) /\
    forall x, websocket.mem h' !! x
              = if decide (x ∈ order /\ x ≠ slow)
                then enqueue message <$> websocket.mem h !! x
                else websocket.mem h !! x.
Proof.
  induction order as [|a order IH]; intros h Hnd Hall Hroom.
  - exists h. cbn. rewrite decide_False, app_nil_r by set_solver.
    repeat split; try done.
  - apply NoDup_cons in Hnd as [Ha Hnd].
    destruct (Hall a) as (c & Hc & Hopen & Hfull); [set_solver|].
    cbn [websocket.deliver]. rewrite Hc, Hopen.
    destruct (websocket.full (websocket.send c)) eqn:Hf; cbn [negb].
    + assert (a = slow) as -> by (by apply Hfull).
      assert (Hlt : (length (websocket.unregister h) < websocket.hubBufferSize)%nat)
        by (apply Hroom; set_solver).
      apply Nat.ltb_lt in Hlt. rewrite Hlt.
      destruct (IH (websocket.with_unregister h (websocket.unregister h ++ [slow])))
        as (h' & Hrun & Hcl & Hreg & Hbc & Hun & Hmem);
        [done|intros x Hx; apply Hall; set_solver|done|].
      exists h'. cbn in *. rewrite decide_False in Hun by done.
      rewrite app_nil_r in Hun. rewrite decide_True by set_solver.
      repeat split; try done.
      intros x. rewrite Hmem. repeat case_decide; try done; set_solver.
    + assert (Hne : a ≠ slow).
      { intros ->. pose proof (proj2 Hfull eq_refl). congruence. }
      destruct (IH (websocket.with_mem h
                      (<[a := websocket.with_send c
                                (websocket.push (websocket.send c) message)]>
                         (websocket.mem h))))
        as (h' & Hrun & Hcl & Hreg & Hbc & Hun & Hmem);
        [done| |intros Hs; cbn; apply Hroom; set_solver|].
      { intros x Hx. cbn. rewrite lookup_insert_ne by (intros ->; done).
        apply Hall. set_solver. }
      exists h'. cbn in *. repeat split; try done.
      * rewrite Hun. repeat case_decide; try done; set_solver.
      * intros x. rewrite Hmem. destruct (decide (x = a)) as [->|Hxa].
        -- rewrite lookup_insert_eq, Hc, decide_False, decide_True by set_solver.
           done.
        -- rewrite lookup_insert_ne by done.
           repeat case_decide; try done; set_solver.
Qed.

Lemma demo_members (x : N) : x ∈ ({[1%N; 2%N; 3%N]} : gset N) -> x = 1%N \/ x = 2%N \/ x = 3%N.
Proof. set_solver. Qed.

Lemma demo_clients (pending : list N) :
  websocket.clients (demo_hub pending) !! "overlay:T1" = Some {[1%N; 2%N; 3%N]}.
Proof. apply lookup_singleton_eq. Qed.

Lemma demo_mem (pending : list N) :
  websocket.mem (demo_hub pending) !! 1%N = Some (idle "c1") /\
  websocket.mem (demo_hub pending) !! 2%N = Some (stalled "c2") /\
  websocket.mem (demo_hub pending) !! 3%N = Some (idle "c3").
Proof.
  unfold demo_hub. cbn [websocket.mem].
  split; [|split]; by repeat (rewrite lookup_insert_ne by done || rewrite lookup_insert_eq).
Qed.

Lemma demo_full :
  websocket.full (websocket.send (idle "c1")) = false /\
  websocket.full (websocket.send (stalled "c2")) = true /\
  websocket.full (websocket.send (idle "c3")) = false.
Proof. split; [|split]; vm_compute; reflexivity. Qed.

Lemma wf_demo_hub (pending : list N) : websocket.wf (demo_hub pending).
Proof.
  intros ch members H. cbn [demo_hub websocket.clients] in H.
  apply lookup_singleton_Some in H as [<- <-]. split; [set_solver|].
  destruct (demo_mem pending) as (H1 & H2 & H3).
  intros x Hx. apply demo_members in Hx as [-> | [-> | ->]];
    eexists; (split; [eassumption|split; reflexivity]).
Qed.

(** The hub of the examples with its unregister channel full: the send of
    the slow member waits there, in whatever order the members are visited,
    so no unregister is issued; and when the slow member is visited first,
    no member at all is served. *)
Example full_unregister_channel_blocks :
  let pending := replicate websocket.hubBufferSize 9%N in
  let h := demo_hub pending in
  let msg := {| websocket.Channel := "overlay:T1"; websocket.Message := demo_message |} in
  websocket.wf h /\
  websocket.clients h !! "overlay:T1" = Some {[1%N; 2%N; 3%N]} /\
  websocket.full (websocket.send (idle "c1")) = false /\
  websocket.full (websocket.send (stalled "c2")) = true /\
  websocket.full (websocket.send (idle "c3")) = false /\
  (forall order, order ≡ₚ [1%N; 2%N; 3%N] ->
     blocked_with (fun h' => websocket.unregister h' = pending)
       (websocket.broadcastToChannel order h msg)) /\
  blocked_with (fun h' => websocket.mem h' !! 1%N = Some (idle "c1") /\
                          websocket.mem h' !! 3%N = Some (idle "c3"))
    (websocket.broadcastToChannel [2%N; 1%N; 3%N] h msg).
Proof.
  cbv zeta. split; [apply wf_demo_hub|]. split; [apply demo_clients|].
  destruct demo_full as (F1 & F2 & F3). do 3 (split; [done|]).
  split.
  - intros order Hperm.
    assert (Hcases : order ∈ permutations [1%N; 2%N; 3%N]).
    { apply permutations_Permutation. by symmetry. }
    cbn in Hcases. rewrite !elem_of_cons, elem_of_nil in Hcases.
    destruct Hcases as [-> | [-> | [-> | [-> | [-> | [-> | []]]]]]];
      vm_compute; reflexivity.
  - vm_compute. split; reflexivity.
Qed.

(** With a free slot on the unregister channel the broadcast does what its
    comment says. In a well-formed hub whose unregister channel has a free
    slot, broadcasting one message to a channel with N members of which
    exactly one, [slow], has a full queue returns; the message is appended
    to the queues of the N-1 other members and to no other queue, [slow] is
    sent on the unregister channel, and the registry is unchanged, so all
    members are still registered until the hub serves that request. This
    holds in whatever order the members are visited. Serving the request
    then removes [slow] and leaves the N-1 others registered with their
    queues as the broadcast left them. *)
Lemma broadcast_drops_slow_consumer (h : websocket.Hub) (ch : string)
    (members : gset N) (order : list N) (slow : N)
    (message : websocket.OutgoingMessage) :
  websocket.wf h ->
  websocket.clients h !! ch = Some members ->
  order ≡ₚ elements members ->
  slow ∈ members ->
  (forall x c, x ∈ members -> websocket.mem h !! x = Some c ->
     (websocket.full (websocket.send c) = true <-> x = slow)) ->
  (length (websocket.unregister h) < websocket.hubBufferSize)%nat ->
  exists h',
    websocket.broadcastToChannel order h
      {| websocket.Channel := ch; websocket.Message := message |} = Done h' /\
    websocket.clients h' = websocket.clients h /\
    websocket.register h' = websocket.register h /\
    websocket.broadcast h' = websocket.broadcast h /\
    websocket.unregister h' = websocket.unregister h ++ [slow] /\
    (forall x, x ∈ members ∖ {[slow]} ->
       exists c, websocket.mem h !! x = Some c /\
                 websocket.mem h' !! x = Some (enqueue message c)) /\
    (forall x, x ∉ members ∖ {[slow]} -> websocket.mem h' !! x = websocket.mem h !! x) /\
    size (members ∖ {[slow]}) = (size members - 1)%nat /\
    exists h'',
      websocket.handle h' (websocket.Unregister slow) = Done h'' /\
      (members ∖ {[slow]} ≠ ∅ ->
         websocket.clients h'' !! ch = Some (members ∖ {[slow]})) /\
      (forall x, x ≠ slow -> websocket.mem h'' !! x = websocket.mem h' !! x).
Proof.
  intros Hwf Hch Hperm Hslow Hfull Hroom.
  assert (Hin : forall x, x ∈ order <-> x ∈ members).
  { intros x. rewrite Hperm. apply elem_of_elements. }
  destruct (deliver_spec message slow order h) as (h' & Hrun & Hcl & Hreg & Hbc & Hun & Hmem).
  - rewrite Hperm. apply NoDup_elements.
  - intros x Hx. apply Hin in Hx.
    destruct (wf_member h ch members x Hwf Hch Hx) as (c & Hc & _ & Hopen).
    exists c. split; [done|]. split; [done|]. by apply Hfull.
  - done.
  - exists h'. unfold websocket.broadcastToChannel. cbn. rewrite Hch.
    split; [done|]. split; [done|]. split; [done|]. split; [done|].
    split; [by rewrite Hun, decide_True by (by apply Hin)|].
    split; [|split].
    + intros x Hx. apply elem_of_difference in Hx as [Hx Hxs].
      rewrite not_elem_of_singleton in Hxs.
      destruct (wf_member h ch members x Hwf Hch Hx) as (c & Hc & _).
      exists c. split; [done|].
      rewrite Hmem, decide_True, Hc by (split; [by apply Hin|done]). done.
    + intros x Hx. rewrite Hmem, decide_False; [done|].
      intros [Hxo Hxs]. apply Hx. apply elem_of_difference.
      split; [by apply Hin|]. by rewrite not_elem_of_singleton.
    + split; [rewrite size_difference by set_solver; by rewrite size_singleton|].
      destruct (wf_member h ch members slow Hwf Hch Hslow) as (cs & Hcs & Hchs & Hopen).
      assert (Hcs' : websocket.mem h' !! slow = Some cs).
      { rewrite Hmem, decide_False; [done|]. by intros [_ ?]. }
      exists (unregistered h' slow cs members). split.
      * apply unregisterClient_member; try done. by rewrite Hcl, Hchs.
      * unfold unregistered. cbn. split.
        -- intros Hne. rewrite decide_False by done. rewrite Hchs.
           apply lookup_insert_eq.
        -- intros x Hx. by rewrite lookup_insert_ne.
Qed.

Lemma broadcast_drops_slow_consumer_witness :
  let h := demo_hub [] in
  websocket.wf h /\
  (length (websocket.unregister h) < websocket.hubBufferSize)%nat /\
  exists h',
    websocket.broadcastToChannel [3%N; 1%N; 2%N] h
      {| websocket.Channel := "overlay:T1"; websocket.Message := demo_message |}
      = Done h' /\
    websocket.unregister h' = [2%N] /\
    websocket.mem h' !! 1%N = Some (enqueue demo_message (idle "c1")) /\
    websocket.mem h' !! 3%N = Some (enqueue demo_message (idle "c3")) /\
    websocket.mem h' !! 2%N = Some (stalled "c2") /\
    size (({[1%N; 2%N; 3%N]} : gset N) ∖ {[2%N]}) = (size ({[1%N; 2%N; 3%N]} : gset N) - 1)%nat.
Proof.
  cbv zeta. split; [apply wf_demo_hub|].
  split; [cbn; unfold websocket.hubBufferSize; lia|].
  destruct (demo_mem []) as (M1 & M2 & M3).
  destruct demo_full as (F1 & F2 & F3).
  destruct (broadcast_drops_slow_consumer (demo_hub []) "overlay:T1"
              {[1%N; 2%N; 3%N]} [3%N; 1%N; 2%N] 2%N demo_message)
    as (h' & Hrun & _ & _ & _ & Hun & Hgot & Hrest & Hsize & _).
  - apply wf_demo_hub.
  - apply demo_clients.
  - apply NoDup_Permutation.
    + repeat (apply NoDup_cons; split; [set_solver|]). apply NoDup_nil_2.
    + apply NoDup_elements.
    + intros x. rewrite elem_of_elements. set_solver.
  - set_solver.
  - intros x c Hx Hc. apply demo_members in Hx as [-> | [-> | ->]].
    + rewrite M1 in Hc. injection Hc as <-. rewrite F1. split; discriminate.
    + rewrite M2 in Hc. injection Hc as <-. rewrite F2. split; reflexivity.
    + rewrite M3 in Hc. injection Hc as <-. rewrite F3. split; discriminate.
  - cbn; unfold websocket.hubBufferSize; lia.
  - exists h'. split; [exact Hrun|]. split; [exact Hun|].
    destruct (Hgot 1%N) as (c1 & H1 & ->); [set_solver|].
    destruct (Hgot 3%N) as (c3 & H3 & ->); [set_solver|].
    rewrite (Hrest 2%N) by set_solver.
    rewrite M1 in H1. rewrite M3 in H3. injection H1 as <-. injection H3 as <-.
    split; [done|]. split; [done|]. split; [exact M2|]. exact Hsize.
Defined.

(** The delivery loop with the unregister channel full: it stops at the
    first member whose queue is full. *)
Lemma deliver_blocks (message : websocket.OutgoingMessage) (slow : N) (order : list N) :
  forall h : websocket.Hub,
  NoDup order ->
  (forall x, x ∈ order ->
     exists c, websocket.mem h !! x = Some c /\
               websocket.closed (websocket.send c) = false) ->
  slow ∈ order ->
  (exists c, websocket.mem h !! slow = Some c /\
             websocket.full (websocket.send c) = true) ->
  (websocket.hubBufferSize <= length (websocket.unregister h))%nat ->
  blocked_with
    (fun h' => websocket.unregister h' = websocket.unregister h /\
               websocket.clients h' = websocket.clients h /\
               websocket.mem h' !! slow = websocket.mem h !! slow)
    (websocket.deliver message order h).
Proof.
  induction order as [|a order IH]; intros h Hnd Hall Hslow Hfull Hroom;
    [set_solver|].
  apply NoDup_cons in Hnd as [Ha Hnd].
  destruct (Hall a) as (c & Hc & Hopen); [set_solver|].
  cbn [websocket.deliver]. rewrite Hc, Hopen.
  destruct (websocket.full (websocket.send c)) eqn:Hf; cbn [negb].
  - apply Nat.ltb_ge in Hroom. rewrite Hroom. cbn. done.
  - assert (Hne : a ≠ slow).
    { intros ->. destruct Hfull as (c' & Hc' & Hf'). congruence. }
    specialize (IH (websocket.with_mem h
                      (<[a := websocket.with_send c
                                (websocket.push (websocket.send c) message)]>
                         (websocket.mem h)))).
    cbn [websocket.with_mem websocket.mem websocket.unregister websocket.clients] in IH.
    rewrite lookup_insert_ne in IH by done.
    apply IH; [done| |set_solver|done|done].
    intros x Hx. rewrite lookup_insert_ne by (intros ->; done).
    apply Hall. set_solver.
Qed.

(** C6. [broadcastToChannel] means to drop a slow consumer without
    waiting: the send to the member's queue is a [select] with a [default]
    branch. But that branch does a blocking send on the hub's own
    unregister channel, which only the hub loop, the caller of this very
    function, receives from. In every well-formed hub whose unregister
    channel is full (256 requests pending), broadcasting to a channel with
    a member whose queue is full never returns, in whatever order the
    members are visited: the run waits at that send with no unregister
    issued for the member, which stays registered with its queue as it
    was. *)
Theorem broadcast_blocks_on_full_unregister (h : websocket.Hub) (ch : string)
    (members : gset N) (order : list N) (slow : N)
    (message : websocket.OutgoingMessage) :
  websocket.wf h ->
  websocket.clients h !! ch = Some members ->
  order ≡ₚ elements members ->
  slow ∈ members ->
  (forall c, websocket.mem h !! slow = Some c ->
             websocket.full (websocket.send c) = true) ->
  length (websocket.unregister h) = websocket.hubBufferSize ->
  blocked_with
    (fun h' => websocket.unregister h' = websocket.unregister h /\
               websocket.clients h' = websocket.clients h /\
               websocket.mem h' !! slow = websocket.mem h !! slow)
    (websocket.broadcastToChannel order h
       {| websocket.Channel := ch; websocket.Message := message |}).
Proof.
  intros Hwf Hch Hperm Hslow Hfull Hroom.
  unfold websocket.broadcastToChannel. cbn [websocket.Channel websocket.Message].
  rewrite Hch.
  assert (Hin : forall x, x ∈ order <-> x ∈ members).
  { intros x. rewrite Hperm. apply elem_of_elements. }
  apply deliver_blocks.
  - rewrite Hperm. apply NoDup_elements.
  - intros x Hx. apply Hin in Hx.
    destruct (wf_member h ch members x Hwf Hch Hx) as (c & Hc & _ & Hopen). eauto.
  - by apply Hin.
  - destruct (wf_member h ch members slow Hwf Hch Hslow) as (c & Hc & _). eauto.
  - by rewrite Hroom.
Qed.

Lemma broadcast_blocks_on_full_unregister_witness :
  let pending := replicate websocket.hubBufferSize 9%N in
  blocked_with
    (fun h' => websocket.unregister h' = pending /\
               websocket.clients h' = websocket.clients (demo_hub pending) /\
               websocket.mem h' !! 2%N = websocket.mem (demo_hub pending) !! 2%N)
    (websocket.broadcastToChannel [3%N; 1%N; 2%N] (demo_hub pending)
       {| websocket.Channel := "overlay:T1"; websocket.Message := demo_message |}).
Proof.
  cbv zeta.
  apply (broadcast_blocks_on_full_unregister
           (demo_hub (replicate websocket.hubBufferSize 9%N)) "overlay:T1"
           {[1%N; 2%N; 3%N]} [3%N; 1%N; 2%N] 2%N demo_message).
  - apply wf_demo_hub.
  - apply demo_clients.
  - apply NoDup_Permutation.
    + repeat (apply NoDup_cons; split; [set_solver|]). apply NoDup_nil_2.
    + apply NoDup_elements.
    + intros x. rewrite elem_of_elements. set_solver.
  - set_solver.
  - intros c Hc.
    destruct (demo_mem (replicate websocket.hubBufferSize 9%N)) as (_ & M2 & _).
    rewrite M2 in Hc. injection Hc as <-. by destruct demo_full as (_ & F2 & _).
  - apply length_replicate.
Defined.

Lemma unregister_idempotent_witness :
  websocket.wf (demo_hub []) /\
  websocket.mem (demo_hub []) !! 2%N = Some (stalled "c2") /\
  exists h1,
    websocket.unregisterClient (demo_hub []) 2%N = Done h1 /\
    websocket.unregisterClient h1 2%N = Done h1 /\
    websocket.clients h1 !! "overlay:T1" = Some ({[1%N; 2%N; 3%N]} ∖ {[2%N]}).
Proof.
  destruct (demo_mem []) as (_ & M2 & _).
  split; [apply wf_demo_hub|]. split; [exact M2|].
  destruct (unregister_idempotent (demo_hub []) 2%N (stalled "c2")
              (wf_demo_hub []) M2) as (h1 & Hfirst & Hsecond & _ & Hshape).
  exists h1. split; [exact Hfirst|]. split; [exact Hsecond|].
  change (websocket.channel (stalled "c2")) with "overlay:T1"%string in Hshape.
  rewrite demo_clients in Hshape.
  rewrite decide_True in Hshape by set_solver.
  destruct Hshape as (_ & _ & Hleft & _). apply Hleft. set_solver.
Defined.



(** ** The hub: donation fan-out *)

Lemma overlay_prefix (channel : string) :
  substring 0 8 channel = "overlay:"%string ->
  exists token, channel = ("overlay:" +:+ token)%string.
Proof.
  intros H.
  do 8 (destruct channel as [|? channel]; [discriminate H|]).
  cbn in H. injection H as -> -> -> -> -> -> -> ->.
  by exists channel.
Qed.

Lemma fanout_spec (data : websocket.OutgoingMessage) (order : list string) :
  forall h : websocket.Hub,
  exists h' new,
    final (websocket.fanout data order h) = Some h' /\
    websocket.clients h' = websocket.clients h /\
    websocket.mem h' = websocket.mem h /\
    websocket.register h' = websocket.register h /\
    websocket.unregister h' = websocket.unregister h /\
    websocket.broadcast h' = websocket.broadcast h ++ new /\
    forall m, m ∈ new ->
      websocket.Message m = data /\
      websocket.Channel m ∈ order /\
      exists token, websocket.Channel m = ("overlay:" +:+ token)%string.
Proof.
  induction order as [|channel order IH]; intros h.
  - exists h, []. cbn. rewrite app_nil_r. split_and!; try done.
    intros m Hm. by apply elem_of_nil in Hm.
  - cbn [websocket.fanout].
    destruct ((8 <? String.length channel)%nat
              && String.eqb (substring 0 8 channel) "overlay:") eqn:Hov.
    + apply andb_true_iff in Hov as [_ Hov]. apply String.eqb_eq in Hov.
      destruct (length (websocket.broadcast h) <? websocket.hubBufferSize)%nat.
      * destruct (IH (websocket.with_broadcast h
                        (websocket.broadcast h ++
                           [{| websocket.Channel := channel;
                               websocket.Message := data |}])))
          as (h' & new & Hrun & Hcl & Hmem & Hreg & Hun & Hbc & Hnew).
        exists h', ({| websocket.Channel := channel; websocket.Message := data |} :: new).
        cbn in *. rewrite Hbc, <- app_assoc. split_and!; try done.
        intros m Hm. apply elem_of_cons in Hm as [-> | Hm]; cbn.
        -- split_and!; [done|by apply list_elem_of_here|by apply overlay_prefix].
        -- destruct (Hnew m Hm) as (? & ? & ?).
           split_and!; [done|by apply list_elem_of_further|done].
      * exists h, []. cbn. rewrite app_nil_r. split_and!; try done.
        intros m Hm. by apply elem_of_nil in Hm.
    + destruct (IH h) as (h' & new & Hrun & Hcl & Hmem & Hreg & Hun & Hbc & Hnew).
      exists h', new. split_and!; try done.
      intros m Hm. destruct (Hnew m Hm) as (? & ? & ?).
      split_and!; [done|by apply list_elem_of_further|done].
Qed.

(** C8. For every hub, every donation event and every order in which the
    channel names are visited, the fan-out never panics and, whether it
    returns or waits at a full broadcast channel, what it has done is to
    append broadcast requests to that channel, each for a visited channel
    whose name starts with [overlay:]; none is for a channel named
    [admin:<userId>]. The client queues and the registry are not touched by
    the fan-out itself. *)
Theorem donation_fanout_overlay_only (now : Z) (order : list string)
    (h : websocket.Hub) (event : redis.DonationEvent) :
  exists h' new,
    final (websocket.BroadcastDonation now order h event) = Some h' /\
    websocket.clients h' = websocket.clients h /\
    websocket.mem h' = websocket.mem h /\
    websocket.broadcast h' = websocket.broadcast h ++ new /\
    forall m, m ∈ new ->
      websocket.Channel m ∈ order /\
      (exists token, websocket.Channel m = ("overlay:" +:+ token)%string) /\
      forall userID, websocket.Channel m ≠ ("admin:" +:+ userID)%string.
Proof.
  unfold websocket.BroadcastDonation.
  destruct (fanout_spec
    {| websocket.Type_ := "donation";
       websocket.Data :=
         <["id" := VString (redis.ID event)]>
           (<["donor_name" := VString (redis.DonorName event)]>
              (<["message" := VString (redis.Message event)]>
                 (<["amount" := VInt (redis.Amount event)]>
                    (<["paid_at" := VInstant (redis.PaidAt event)]> ∅))));
       websocket.Timestamp := now |} order h)
    as (h' & new & Hrun & Hcl & Hmem & _ & _ & Hbc & Hnew).
  exists h', new. split_and!; try done.
  intros m Hm. destruct (Hnew m Hm) as (_ & Hin & token & Htok).
  split_and!; [done|by exists token|].
  intros userID He. rewrite Htok in He. discriminate He.
Qed.

(** A hub with an overlay channel, an admin channel and the channel named
    just [overlay:]: one request is queued, for the overlay channel. *)
Example fanout_skips_admin :
  let h := {| websocket.clients := {["overlay:T1" := {[1%N]}; "admin:42" := {[2%N]};
                                      "overlay:" := {[3%N]}]};
              websocket.mem := ∅; websocket.register := [];
              websocket.unregister := []; websocket.broadcast := [] |} in
  let event := redis.NewDonationEvent "d-1" "Ayu" "semangat" 50000 1000 in
  websocket.Channel <$>
    websocket.broadcast
      (default h (final (websocket.BroadcastDonation 2000
                           ["admin:42"; "overlay:"; "overlay:T1"] h event)))
  = ["overlay:T1"%string].
Proof. vm_compute. reflexivity. Qed.


(** ** The digest and the signature it admits *)

Lemma be_bytes_length (n : nat) (x : Z) : length (sha512.be_bytes n x) = n.
Proof.
  revert x. induction n as [|n IH]; intros x; [reflexivity|].
  cbn [sha512.be_bytes]. rewrite length_app, IH. cbn. lia.
Qed.

Lemma be_bytes_is_byte (n : nat) (x : Z) : Forall is_byte (sha512.be_bytes n x).
Proof.
  revert x. induction n as [|n IH]; intros x; [constructor|].
  cbn [sha512.be_bytes]. apply Forall_app. split; [apply IH|].
  constructor; [|constructor]. unfold is_byte. apply Z.mod_pos_bound. lia.
Qed.

Lemma round_length (k w : Z) (v : list Z) :
  length (sha512.round k w v) = length v.
Proof.
  unfold sha512.round.
  do 9 (destruct v as [|? v]; [reflexivity|]). reflexivity.
Qed.

Lemma rounds_length (ks : list Z) : forall (w v : list Z),
  length (sha512.rounds ks w v) = length v.
Proof.
  induction ks as [|k ks IH]; intros w v; [reflexivity|].
  cbn [sha512.rounds]. cbv zeta. by rewrite IH, round_length.
Qed.

Lemma block_length (h p : list Z) : length (sha512.block h p) = length h.
Proof.
  unfold sha512.block. rewrite length_zip_with, rounds_length. lia.
Qed.

Lemma blocks_length (fuel : nat) : forall (h bs : list Z),
  length (sha512.blocks fuel h bs) = length h.
Proof.
  induction fuel as [|fuel IH]; intros h bs; [reflexivity|].
  cbn [sha512.blocks]. destruct bs; [reflexivity|].
  by rewrite IH, block_length.
Qed.

Lemma flat_map_be_bytes_length (ws : list Z) :
  length (flat_map (sha512.be_bytes 8) ws) = (8 * length ws)%nat.
Proof.
  induction ws as [|w ws IH]; [reflexivity|].
  cbn [flat_map]. rewrite length_app, be_bytes_length, IH. cbn [length]. lia.
Qed.

Lemma EncodeToString_length (src : list Z) :
  String.length (hex.EncodeToString src) = (2 * length src)%nat.
Proof.
  induction src as [|v src IH]; [reflexivity|].
  cbn [hex.EncodeToString String.length length]. rewrite IH. lia.
Qed.

Lemma Sum_length (msg : list Z) : length (sha512.Sum msg) = 64%nat.
Proof.
  unfold sha512.Sum. cbv zeta.
  by rewrite flat_map_be_bytes_length, blocks_length.
Qed.

Lemma Sum_is_byte (msg : list Z) : Forall is_byte (sha512.Sum msg).
Proof.
  unfold sha512.Sum. cbv zeta.
  generalize (sha512.blocks (length (sha512.pad msg)) sha512.init (sha512.pad msg)).
  intros ws. induction ws as [|x ws IH]; [constructor|].
  cbn [flat_map]. apply Forall_app. split; [apply be_bytes_is_byte|exact IH].
Qed.

(** X1. The digest [sha512.Sum] returns has 64 bytes whatever the message
    is, so a signature [verifyMidtransSignature] accepts has exactly 128
    characters, all of them in [0-9a-f]: the right digest written in upper
    case, or cut short, is refused. *)
Theorem accepted_signature_shape (cfg : config.Config) (w : dto.MidtransWebhook) :
  handler.verifyMidtransSignature cfg w = true ->
  String.length (dto.SignatureKey w) = 128%nat /\
  forallb is_lower_hex (list_ascii_of_string (dto.SignatureKey w)) = true.
Proof.
  intros Hv. unfold handler.verifyMidtransSignature in Hv.
  apply hmac_Equal_spec in Hv; try apply bytes_of_is_byte.
  apply bytes_of_inj in Hv. rewrite <- Hv.
  split; [by rewrite EncodeToString_length, Sum_length|apply EncodeToString_lower].
Qed.

Lemma accepted_signature_shape_witness :
  handler.verifyMidtransSignature demo_cfg signed = true /\
  String.length (dto.SignatureKey signed) = 128%nat /\
  forallb is_lower_hex (list_ascii_of_string (dto.SignatureKey signed)) = true.
Proof.
  split; [vm_compute; reflexivity|].
  apply (accepted_signature_shape demo_cfg signed). vm_compute; reflexivity.
Defined.

(** ** The replies of the two webhook handlers *)




(** ** What a webhook and a manual reconcile write *)

Lemma find_existsb {A} (f : A -> bool) (l : list A) (x : A) :
  List.find f l = Some x -> existsb f l = true.
Proof.
  intros H. apply List.find_some in H as [Hin Hf].
  apply existsb_exists. eauto.
Qed.

Lemma find_by_id_ID (rows : list payment.Payment) (id : N) (r : payment.Payment) :
  List.find (by_id id) rows = Some r -> payment.ID r = id.
Proof. intros H. apply List.find_some in H as [_ H]. by apply N.eqb_eq in H. Qed.

Lemma find_donation_ID (rows : list donation.Donation) (id : N) (r : donation.Donation) :
  List.find (donation_by_id id) rows = Some r -> donation.ID r = id.
Proof. intros H. apply List.find_some in H as [_ H]. by apply N.eqb_eq in H. Qed.

Lemma find_donations_updated (now : Z) (d : donation.Donation)
    (rows : list donation.Donation) (id : N) :
  List.find (donation_by_id id) (donations_updated now d rows) =
  (fun row => if (donation.ID row =? donation.ID d)%N
              then postgres.DonationRepository.update_row now d row else row)
    <$> List.find (donation_by_id id) rows.
Proof.
  induction rows as [|r rows IH]; [reflexivity|].
  cbn [donations_updated map List.find]. fold (donations_updated now d rows).
  assert (Hid : donation_by_id id (if (donation.ID r =? donation.ID d)%N
                   then postgres.DonationRepository.update_row now d r else r)
                = donation_by_id id r).
  { by destruct (donation.ID r =? donation.ID d)%N. }
  rewrite Hid. destruct (donation_by_id id r); [reflexivity|exact IH].
Qed.

(** [Update] succeeds on a row that a query by the same identifier found. *)
Lemma PaymentUpdate_found (now : Z) (d : postgres.DB) (p r : payment.Payment) :
  List.find (by_id (payment.ID p)) (postgres.payments d) = Some r ->
  postgres.PaymentRepository.Update now d p =
    (postgres.with_payments d (updated now p (postgres.payments d)), None).
Proof.
  intros Hf. unfold postgres.PaymentRepository.Update.
  fold (by_id (payment.ID p)). by rewrite (find_existsb _ _ _ Hf).
Qed.

Lemma DonationUpdate_found (now : Z) (d : postgres.DB) (don r : donation.Donation) :
  List.find (donation_by_id (donation.ID don)) (postgres.donations d) = Some r ->
  postgres.DonationRepository.Update now d don =
    (postgres.with_donations d (donations_updated now don (postgres.donations d)), None).
Proof.
  intros Hf. unfold postgres.DonationRepository.Update.
  fold (donation_by_id (donation.ID don)). by rewrite (find_existsb _ _ _ Hf).
Qed.

(** A payment a query returned has a row under its identifier. *)
Lemma found_has_row (rows : list payment.Payment) (f : payment.Payment -> bool)
    (pay : payment.Payment) :
  List.find f rows = Some pay ->
  exists r, List.find (by_id (payment.ID pay)) rows = Some r.
Proof.
  intros Hf. apply List.find_some in Hf as [Hin _].
  destruct (List.find (by_id (payment.ID pay)) rows) as [r|] eqn:Hr; [eauto|].
  exfalso. eapply List.find_none in Hr; [|exact Hin].
  unfold by_id in Hr. by rewrite N.eqb_refl in Hr.
Qed.

Lemma GetByID_updated (now : Z) (d : postgres.DB) (p r : payment.Payment) :
  List.find (by_id (payment.ID p)) (postgres.payments d) = Some r ->
  List.find (by_id (payment.ID p)) (updated now p (postgres.payments d))
    = Some (postgres.PaymentRepository.update_row now p r).
Proof.
  intros Hf. rewrite find_updated, Hf. cbn.
  by rewrite (find_by_id_ID _ _ _ Hf), N.eqb_refl.
Qed.

Lemma DonationGetByID_updated (now : Z) (d : postgres.DB) (don r : donation.Donation) :
  List.find (donation_by_id (donation.ID don)) (postgres.donations d) = Some r ->
  List.find (donation_by_id (donation.ID don))
    (donations_updated now don (postgres.donations d))
    = Some (postgres.DonationRepository.update_row now don r).
Proof.
  intros Hf. rewrite find_donations_updated, Hf. cbn.
  by rewrite (find_donation_ID _ _ _ Hf), N.eqb_refl.
Qed.

(** The first delivery of a webhook claims its key. *)
Lemma SetNX_free (now : Z) (c : redis.Client) (key value : string) (ttl : Z) :
  redis.reachable c = true -> redis.live now (redis.keys c) key = false ->
  redis.SetNX now c key value ttl =
    ({| redis.reachable := true;
        redis.keys := <[key := (redis.Marshal_string value,
                                if ttl =? 0 then None else Some (now + ttl))]> (redis.keys c);
        redis.published := redis.published c |}, true, None).
Proof.
  intros Hup Hfree. unfold redis.SetNX, redis.client_SetNX.
  by rewrite Hup, Hfree.
Qed.

Lemma ProcessWebhook_paid_path (now : Z) (s : service.World)
    (params : service.ProcessWebhookParams) (pay : payment.Payment)
    (don : donation.Donation) :
  redis.reachable (service.rds s) = true ->
  redis.live now (redis.keys (service.rds s)) (key_of params) = false ->
  postgres.PaymentRepository.GetByExternalID (service.db s)
    (service.Provider params) (service.OrderID params) = Ok pay ->
  payment.IsPaid pay = false ->
  postgres.DonationRepository.GetByID (service.db s) (payment.DonationID pay) = Ok don ->
  service.Status params = payment.StatusPaid ->
  service.ProcessWebhook now s params = (paid_result now s params pay don, None).
Proof.
  intros Hup Hfree Hpay Hunpaid Hdon Hst.
  unfold service.ProcessWebhook. fold (key_of params).
  rewrite (SetNX_free _ _ _ _ _ Hup Hfree). cbn [negb]. proj.
  rewrite Hpay, Hunpaid, Hst.
  unfold postgres.PaymentRepository.GetByExternalID in Hpay.
  destruct (List.find _ _) as [pay0|] eqn:Hf in Hpay; [|discriminate].
  injection Hpay as ->.
  destruct (found_has_row _ _ _ Hf) as [r Hr].
  unfold postgres.DonationRepository.GetByID in Hdon.
  fold (donation_by_id (payment.DonationID pay)) in Hdon.
  destruct (List.find _ _) as [don0|] eqn:Hd in Hdon; [|discriminate].
  injection Hdon as ->.
  pose proof (find_donation_ID _ _ _ Hd) as Hdid.
  unfold service.webhook_paid. proj.
  rewrite (PaymentUpdate_found now _ (payment.MarkAsPaid now pay) r) by exact Hr. proj.
  pose proof Hd as Hd0. unfold donation_by_id in Hd0.
  unfold postgres.DonationRepository.GetByID at 1.
  cbn [postgres.with_payments postgres.donations payment.MarkAsPaid payment.DonationID].
  rewrite Hd0. cbn [postgres.scanDonation].
  assert (Hd' : List.find (donation_by_id (donation.ID (donation.MarkAsPaid now don)))
                  (postgres.donations
                     (postgres.with_payments (service.db s)
                        (updated now (payment.MarkAsPaid now pay)
                           (postgres.payments (service.db s))))) = Some don).
  { cbn [postgres.with_payments postgres.donations donation.MarkAsPaid donation.ID].
    by rewrite Hdid. }
  rewrite (DonationUpdate_found now _ _ _ Hd'). proj.
  unfold redis.PublishDonationEvent, redis.Publish. cbn [redis.reachable negb]. proj.
  reflexivity.
Qed.

(** What the database and Redis hold in that world. *)
Lemma paid_result_reads (now : Z) (s : service.World)
    (params : service.ProcessWebhookParams) (pay : payment.Payment)
    (don : donation.Donation) :
  postgres.PaymentRepository.GetByExternalID (service.db s)
    (service.Provider params) (service.OrderID params) = Ok pay ->
  postgres.DonationRepository.GetByID (service.db s) (payment.DonationID pay) = Ok don ->
  let s' := paid_result now s params pay don in
  exists pay' don',
    postgres.PaymentRepository.GetByID (service.db s') (payment.ID pay) = Ok pay' /\
    payment.Status_ pay' = payment.StatusPaid /\
    payment.PaidAt pay' = Some now /\
    postgres.DonationRepository.GetByID (service.db s') (payment.DonationID pay) = Ok don' /\
    donation.Status_ don' = donation.StatusCompleted /\
    donation.PaidAt don' = Some now /\
    redis.published (service.rds s') =
      redis.published (service.rds s) ++
        [("donations:new"%string,
          redis.NewDonationEvent (uuid.String (payment.DonationID pay))
            (donation.DonorName don) (donation.Message don) (donation.Amount don) now)] /\
    redis.keys (service.rds s') !! key_of params
      = Some (redis.Marshal_string "processing", Some (now + 24 * Hour)).
Proof.
  intros Hpay Hdon. cbv zeta.
  unfold postgres.PaymentRepository.GetByExternalID in Hpay.
  destruct (List.find _ _) as [pay0|] eqn:Hf in Hpay; [|discriminate].
  injection Hpay as ->.
  destruct (found_has_row _ _ _ Hf) as [r Hr].
  unfold postgres.DonationRepository.GetByID in Hdon.
  fold (donation_by_id (payment.DonationID pay)) in Hdon.
  destruct (List.find _ _) as [don0|] eqn:Hd in Hdon; [|discriminate].
  injection Hdon as ->.
  pose proof (find_donation_ID _ _ _ Hd) as Hdid.
  exists (postgres.PaymentRepository.update_row now (payment.MarkAsPaid now pay) r),
    (postgres.DonationRepository.update_row now (donation.MarkAsPaid now don) don).
  unfold paid_result. proj.
  unfold postgres.PaymentRepository.GetByID, postgres.DonationRepository.GetByID.
  fold (by_id (payment.ID pay)). fold (donation_by_id (payment.DonationID pay)).
  cbn [postgres.with_donations postgres.with_payments postgres.payments
       postgres.donations redis.published redis.keys].
  split_and!.
  - change (payment.ID pay) with (payment.ID (payment.MarkAsPaid now pay)).
    by rewrite (GetByID_updated now _ _ r).
  - reflexivity.
  - reflexivity.
  - rewrite <- Hdid at 1.
    change (donation.ID don) with (donation.ID (donation.MarkAsPaid now don)) at 1.
    by rewrite (DonationGetByID_updated now (service.db s) _ don)
      by (cbn [donation.MarkAsPaid donation.ID]; by rewrite Hdid).
  - reflexivity.
  - reflexivity.
  - unfold service.event_of. cbn [donation.MarkAsPaid donation.ID donation.DonorName
      donation.Message donation.Amount donation.PaidAt default].
    by rewrite Hdid.
  - by rewrite lookup_insert_eq.
Qed.

(** X4. The normal path of a paid webhook, for every world: with Redis
    reachable, the idempotency key free, the payment found by provider and
    order id and not yet paid (pending, but also expired or failed) and its
    donation found, [ProcessWebhook] returns success; the payment is stored
    as paid and the donation as completed, both paid at [now]; exactly one
    event is published on [donations:new], carrying the donation's id, donor
    name, message and amount; the key is claimed for 24 hours. *)
Theorem paid_webhook_completes (now : Z) (s : service.World)
    (params : service.ProcessWebhookParams) (pay : payment.Payment)
    (don : donation.Donation) :
  redis.reachable (service.rds s) = true ->
  redis.live now (redis.keys (service.rds s)) (key_of params) = false ->
  postgres.PaymentRepository.GetByExternalID (service.db s)
    (service.Provider params) (service.OrderID params) = Ok pay ->
  payment.IsPaid pay = false ->
  postgres.DonationRepository.GetByID (service.db s) (payment.DonationID pay) = Ok don ->
  service.Status params = payment.StatusPaid ->
  exists s' pay' don',
    service.ProcessWebhook now s params = (s', None) /\
    postgres.PaymentRepository.GetByID (service.db s') (payment.ID pay) = Ok pay' /\
    payment.Status_ pay' = payment.StatusPaid /\
    payment.PaidAt pay' = Some now /\
    postgres.DonationRepository.GetByID (service.db s') (payment.DonationID pay) = Ok don' /\
    donation.Status_ don' = donation.StatusCompleted /\
    donation.PaidAt don' = Some now /\
    redis.published (service.rds s') =
      redis.published (service.rds s) ++
        [("donations:new"%string,
          redis.NewDonationEvent (uuid.String (payment.DonationID pay))
            (donation.DonorName don) (donation.Message don) (donation.Amount don) now)] /\
    redis.keys (service.rds s') !! key_of params
      = Some (redis.Marshal_string "processing", Some (now + 24 * Hour)).
Proof.
  intros Hup Hfree Hpay Hunpaid Hdon Hst.
  rewrite (ProcessWebhook_paid_path now s params pay don) by done.
  destruct (paid_result_reads now s params pay don Hpay Hdon) as (pay' & don' & H).
  exists (paid_result now s params pay don), pay', don'. by split.
Qed.

Lemma paid_webhook_completes_witness :
  exists s' pay' don',
    service.ProcessWebhook 1000 (demo_world true) (demo_params payment.StatusPaid)
      = (s', None) /\
    postgres.PaymentRepository.GetByID (service.db s') (payment.ID demo_payment) = Ok pay' /\
    payment.Status_ pay' = payment.StatusPaid /\
    payment.PaidAt pay' = Some 1000 /\
    postgres.DonationRepository.GetByID (service.db s') (payment.DonationID demo_payment)
      = Ok don' /\
    donation.Status_ don' = donation.StatusCompleted /\
    donation.PaidAt don' = Some 1000 /\
    redis.published (service.rds s') =
      redis.published (service.rds (demo_world true)) ++
        [("donations:new"%string,
          redis.NewDonationEvent (uuid.String (payment.DonationID demo_payment))
            (donation.DonorName demo_donation) (donation.Message demo_donation)
            (donation.Amount demo_donation) 1000)] /\
    redis.keys (service.rds s') !! key_of (demo_params payment.StatusPaid)
      = Some (redis.Marshal_string "processing", Some (1000 + 24 * Hour)).
Proof.
  apply (paid_webhook_completes 1000 (demo_world true) (demo_params payment.StatusPaid)
           demo_payment demo_donation); reflexivity.
Defined.

(** X5. An expired or failed webhook on the same path: the payment is
    stored with the reported status, its donation with the matching one,
    neither gets a payment instant, and nothing is published. *)
Theorem closing_webhook_mirrors (now : Z) (s : service.World)
    (params : service.ProcessWebhookParams) (pay : payment.Payment)
    (don : donation.Donation) :
  redis.reachable (service.rds s) = true ->
  redis.live now (redis.keys (service.rds s)) (key_of params) = false ->
  postgres.PaymentRepository.GetByExternalID (service.db s)
    (service.Provider params) (service.OrderID params) = Ok pay ->
  payment.IsPaid pay = false ->
  postgres.DonationRepository.GetByID (service.db s) (payment.DonationID pay) = Ok don ->
  service.Status params = payment.StatusExpired \/
  service.Status params = payment.StatusFailed ->
  exists s' pay' don',
    service.ProcessWebhook now s params = (s', None) /\
    postgres.PaymentRepository.GetByID (service.db s') (payment.ID pay) = Ok pay' /\
    payment.Status_ pay' = service.Status params /\
    payment.PaidAt pay' = payment.PaidAt pay /\
    postgres.DonationRepository.GetByID (service.db s') (payment.DonationID pay) = Ok don' /\
    donation.Status_ don' = mirrored (service.Status params) (donation.Status_ don) /\
    donation.PaidAt don' = donation.PaidAt don /\
    redis.published (service.rds s') = redis.published (service.rds s).
Proof.
  intros Hup Hfree Hpay Hunpaid Hdon Hst.
  unfold service.ProcessWebhook. fold (key_of params).
  rewrite (SetNX_free _ _ _ _ _ Hup Hfree). cbn [negb]. proj.
  rewrite Hpay, Hunpaid.
  unfold postgres.PaymentRepository.GetByExternalID in Hpay.
  destruct (List.find _ _) as [pay0|] eqn:Hf in Hpay; [|discriminate].
  injection Hpay as ->.
  destruct (found_has_row _ _ _ Hf) as [r Hr].
  unfold postgres.DonationRepository.GetByID in Hdon.
  fold (donation_by_id (payment.DonationID pay)) in Hdon.
  destruct (List.find _ _) as [don0|] eqn:Hd in Hdon; [|discriminate].
  injection Hdon as ->.
  pose proof (find_donation_ID _ _ _ Hd) as Hdid.
  pose proof Hd as Hd0. unfold donation_by_id in Hd0.
  assert (Hgen : forall (mark : Z -> payment.Payment -> payment.Payment)
                        (markD : Z -> donation.Donation -> donation.Donation) s0,
    service.db s0 = service.db s ->
    payment.ID (mark now pay) = payment.ID pay ->
    payment.DonationID (mark now pay) = payment.DonationID pay ->
    donation.ID (markD now don) = donation.ID don ->
    exists s' pay' don',
      service.webhook_closed now s0 (mark now pay) markD = (s', None) /\
      postgres.PaymentRepository.GetByID (service.db s') (payment.ID pay) = Ok pay' /\
      payment.Status_ pay' = payment.Status_ (mark now pay) /\
      payment.PaidAt pay' = payment.PaidAt (mark now pay) /\
      postgres.DonationRepository.GetByID (service.db s') (payment.DonationID pay) = Ok don' /\
      donation.Status_ don' = donation.Status_ (markD now don) /\
      donation.PaidAt don' = donation.PaidAt (markD now don) /\
      service.rds s' = service.rds s0).
  { intros mark markD s0 Hs0 Hid Hdon Hdid'.
    unfold service.webhook_closed. rewrite Hs0.
    rewrite (PaymentUpdate_found now _ (mark now pay) r) by (by rewrite Hid). proj.
    unfold postgres.DonationRepository.GetByID at 1.
    cbn [postgres.with_payments postgres.donations].
    rewrite Hdon, Hd0. cbn [postgres.scanDonation].
    rewrite (DonationUpdate_found now _ (markD now don) don)
      by (cbn [postgres.with_payments postgres.donations]; by rewrite Hdid', Hdid).
    proj.
    eexists _, (postgres.PaymentRepository.update_row now (mark now pay) r),
      (postgres.DonationRepository.update_row now (markD now don) don).
    split; [reflexivity|]. proj.
    unfold postgres.PaymentRepository.GetByID, postgres.DonationRepository.GetByID.
    fold (by_id (payment.ID pay)). fold (donation_by_id (payment.DonationID pay)).
    cbn [postgres.with_donations postgres.with_payments postgres.payments
         postgres.donations].
    split_and!; try reflexivity.
    - rewrite <- Hid. rewrite (GetByID_updated now _ _ r); [done|by rewrite Hid].
    - rewrite <- Hdid, <- Hdid'.
      rewrite (DonationGetByID_updated now (service.db s) _ don); [done|].
      by rewrite Hdid', Hdid. }
  destruct Hst as [Hst|Hst]; rewrite Hst.
  - edestruct (Hgen payment.MarkAsExpired donation.MarkAsExpired)
      as (s' & pay' & don' & Hrun & ? & ? & ? & ? & ? & ? & Hrds);
      [| | | |rewrite Hrun; eexists s', pay', don'; split_and!; eauto;
              by rewrite Hrds]; reflexivity.
  - edestruct (Hgen payment.MarkAsFailed donation.MarkAsFailed)
      as (s' & pay' & don' & Hrun & ? & ? & ? & ? & ? & ? & Hrds);
      [| | | |rewrite Hrun; eexists s', pay', don'; split_and!; eauto;
              by rewrite Hrds]; reflexivity.
Qed.

Lemma closing_webhook_mirrors_witness :
  exists s' pay' don',
    service.ProcessWebhook 1000 (demo_world true) (demo_params payment.StatusExpired)
      = (s', None) /\
    postgres.PaymentRepository.GetByID (service.db s') (payment.ID demo_payment) = Ok pay' /\
    payment.Status_ pay' = payment.StatusExpired /\
    payment.PaidAt pay' = payment.PaidAt demo_payment /\
    postgres.DonationRepository.GetByID (service.db s') (payment.DonationID demo_payment)
      = Ok don' /\
    donation.Status_ don' = mirrored payment.StatusExpired (donation.Status_ demo_donation) /\
    donation.PaidAt don' = donation.PaidAt demo_donation /\
    redis.published (service.rds s') = redis.published (service.rds (demo_world true)).
Proof.
  apply (closing_webhook_mirrors 1000 (demo_world true)
           (demo_params payment.StatusExpired) demo_payment demo_donation);
    try reflexivity.
  left; reflexivity.
Defined.


(** ** What is published, and when *)

Lemma SetNX_published (now : Z) (c : redis.Client) (key value : string) (ttl : Z) :
  redis.published (redis.SetNX now c key value ttl).1.1 = redis.published c.
Proof.
  unfold redis.SetNX, redis.client_SetNX.
  destruct (redis.reachable c); cbn [negb]; [|reflexivity].
  by destruct (redis.live now (redis.keys c) key).
Qed.

Lemma PublishDonationEvent_published (c : redis.Client) (ev : redis.DonationEvent) :
  redis.published (redis.PublishDonationEvent c ev).1 = redis.published c \/
  redis.published (redis.PublishDonationEvent c ev).1
    = redis.published c ++ [("donations:new"%string, ev)].
Proof.
  unfold redis.PublishDonationEvent, redis.Publish.
  destruct (redis.reachable c); cbn; auto.
Qed.

Lemma webhook_closed_rds (now : Z) (s : service.World) (pay : payment.Payment)
    (mark : Z -> donation.Donation -> donation.Donation) :
  service.rds (service.webhook_closed now s pay mark).1 = service.rds s.
Proof.
  unfold service.webhook_closed.
  destruct (postgres.PaymentRepository.Update _ _ _) as [d1 [e|]]; [reflexivity|].
  proj. by destruct (postgres.DonationRepository.GetByID _ _).
Qed.

Lemma webhook_paid_published (now : Z) (s : service.World) (pay : payment.Payment) :
  let s' := (service.webhook_paid now s pay).1 in
  redis.published (service.rds s') = redis.published (service.rds s) \/
  exists ev, redis.Type_ ev = "new_donation"%string /\
             redis.published (service.rds s')
               = redis.published (service.rds s) ++ [("donations:new"%string, ev)].
Proof.
  unfold service.webhook_paid.
  destruct (postgres.PaymentRepository.Update _ _ _) as [d1 [e|]]; [by left|].
  proj. destruct (postgres.DonationRepository.GetByID _ _) as [don|e]; [|by left].
  destruct (postgres.DonationRepository.Update _ _ _) as [d2 [e|]]; [by left|].
  proj.
  destruct (PublishDonationEvent_published (service.rds s)
              (service.event_of (donation.MarkAsPaid now don))) as [H|H];
    destruct (redis.PublishDonationEvent _ _) as [r [e|]]; proj; cbn [fst] in H;
    rewrite H; [by left|by left| |];
    (right; eexists; split; [|reflexivity]; reflexivity).
Qed.

(** X6. Whatever the world and the webhook, [ProcessWebhook] publishes at
    most one event, and only for a webhook that reports paid; the event goes
    to [donations:new] and has type [new_donation]. Webhooks reporting
    pending, expired, failed or refunded never publish. *)
Theorem webhook_publishes_only_paid (now : Z) (s : service.World)
    (params : service.ProcessWebhookParams) :
  let s' := (service.ProcessWebhook now s params).1 in
  redis.published (service.rds s') = redis.published (service.rds s) \/
  service.Status params = payment.StatusPaid /\
  exists ev, redis.Type_ ev = "new_donation"%string /\
             redis.published (service.rds s')
               = redis.published (service.rds s) ++ [("donations:new"%string, ev)].
Proof.
  unfold service.ProcessWebhook.
  pose proof (SetNX_published now (service.rds s)
                (redis.IdempotencyKey (payment.Provider_string (service.Provider params))
                   (service.OrderID params) (service.TransactionID params))
                "processing" (24 * Hour)) as Hp.
  destruct (redis.SetNX _ _ _ _ _) as [[r set] err]. cbn [fst] in Hp.
  assert (Hrds : redis.published (service.rds
            match err with
            | Some _ => service.log service.Warn "failed to check idempotency"
                          (service.with_rds s r)
            | None => service.with_rds s r
            end) = redis.published (service.rds s)) by (by destruct err).
  set (s0 := match err with Some _ => _ | None => _ end) in *. clearbody s0.
  destruct set; cbn [negb]; [|by left].
  destruct (postgres.PaymentRepository.GetByExternalID _ _ _) as [pay|e]; [|by left].
  destruct (payment.IsPaid pay); [by left|].
  destruct (service.Status params) eqn:Hst; try by left.
  - destruct (webhook_paid_published now s0 pay) as [H|H]; cbv zeta in H;
      rewrite <- Hrds; [by left|by right].
  - left. by rewrite webhook_closed_rds.
  - left. by rewrite webhook_closed_rds.
Qed.

(** ** Manual reconciliation *)

(** [ManualReconcile] on a payment and a donation that exist. *)
Lemma ManualReconcile_found (now : Z) (s : service.World) (paymentID : N)
    (status : payment.Status) (reason : string) (pay : payment.Payment)
    (don : donation.Donation) :
  postgres.PaymentRepository.GetByID (service.db s) paymentID = Ok pay ->
  postgres.DonationRepository.GetByID (service.db s) (payment.DonationID pay) = Ok don ->
  service.ManualReconcile now s paymentID status reason =
    (service.log service.Info "manual reconciliation completed"
       {| service.db :=
            postgres.with_donations
              (postgres.with_payments (service.db s)
                 (updated now (reconciled_payment now status reason pay)
                    (postgres.payments (service.db s))))
              (donations_updated now (reconciled_donation now status don)
                 (postgres.donations (service.db s)));
          service.rds :=
            match status with
            | payment.StatusPaid =>
                (redis.PublishDonationEvent (service.rds s)
                   (service.event_of (donation.MarkAsPaid now don))).1
            | _ => service.rds s
            end;
          service.logger := service.logger s |}, None).
Proof.
  intros Hpay Hdon. unfold service.ManualReconcile. rewrite Hpay, Hdon.
  unfold postgres.PaymentRepository.GetByID in Hpay. fold (by_id paymentID) in Hpay.
  destruct (List.find _ _) as [pay0|] eqn:Hf in Hpay; [|discriminate].
  injection Hpay as ->. pose proof (find_by_id_ID _ _ _ Hf) as Hid.
  unfold postgres.DonationRepository.GetByID in Hdon.
  fold (donation_by_id (payment.DonationID pay)) in Hdon.
  destruct (List.find _ _) as [don0|] eqn:Hd in Hdon; [|discriminate].
  injection Hdon as ->. pose proof (find_donation_ID _ _ _ Hd) as Hdid.
  assert (Hsave : forall s1 pay' don',
    service.db s1 = service.db s ->
    payment.ID pay' = paymentID -> donation.ID don' = payment.DonationID pay ->
    match postgres.PaymentRepository.Update now (service.db s1) pay' with
    | (_, Some e) => (s1, Some ("failed to update payment: " +:+ e))
    | (db1, None) =>
        match postgres.DonationRepository.Update now
                (service.db (service.with_db s1 db1)) don' with
        | (_, Some e) =>
            (service.with_db s1 db1, Some ("failed to update donation: " +:+ e))
        | (db2, None) =>
            (service.log service.Info "manual reconciliation completed"
               (service.with_db (service.with_db s1 db1) db2), None)
        end
    end =
    (service.log service.Info "manual reconciliation completed"
       {| service.db :=
            postgres.with_donations
              (postgres.with_payments (service.db s)
                 (updated now pay' (postgres.payments (service.db s))))
              (donations_updated now don' (postgres.donations (service.db s)));
          service.rds := service.rds s1;
          service.logger := service.logger s1 |}, None)).
  { intros s1 pay' don' Hs1 Hid' Hdid'. rewrite Hs1.
    rewrite (PaymentUpdate_found now _ pay' pay) by (by rewrite Hid'). proj.
    rewrite (DonationUpdate_found now _ don' don)
      by (cbn [postgres.with_payments postgres.donations]; by rewrite Hdid').
    reflexivity. }
  destruct status; cbv zeta; cbn [reconciled_payment reconciled_donation];
    rewrite Hsave by (try reflexivity; assumption); reflexivity.
Qed.

(** X8. A manual reconcile that finds its rows leaves its trace on the
    payment: the stored row carries [reconciliation_reason] with the reason
    given and [reconciliation_at] with the instant of the call. The stored
    statuses are paid/completed for paid and failed/failed for failed; any
    other status leaves both statuses as they were. *)
Theorem reconcile_leaves_audit_trail (now : Z) (s : service.World) (paymentID : N)
    (status : payment.Status) (reason : string) (pay : payment.Payment)
    (don : donation.Donation) :
  postgres.PaymentRepository.GetByID (service.db s) paymentID = Ok pay ->
  postgres.DonationRepository.GetByID (service.db s) (payment.DonationID pay) = Ok don ->
  exists s' pay' don',
    service.ManualReconcile now s paymentID status reason = (s', None) /\
    postgres.PaymentRepository.GetByID (service.db s') paymentID = Ok pay' /\
    payment.Metadata pay' !! "reconciliation_reason" = Some (VString reason) /\
    payment.Metadata pay' !! "reconciliation_at" = Some (VInstant now) /\
    payment.Status_ pay' =
      match status with
      | payment.StatusPaid => payment.StatusPaid
      | payment.StatusFailed => payment.StatusFailed
      | _ => payment.Status_ pay
      end /\
    postgres.DonationRepository.GetByID (service.db s') (payment.DonationID pay) = Ok don' /\
    donation.Status_ don' =
      match status with
      | payment.StatusPaid => donation.StatusCompleted
      | payment.StatusFailed => donation.StatusFailed
      | _ => donation.Status_ don
      end.
Proof.
  intros Hpay Hdon.
  rewrite (ManualReconcile_found now s paymentID status reason pay don Hpay Hdon).
  unfold postgres.PaymentRepository.GetByID in Hpay. fold (by_id paymentID) in Hpay.
  destruct (List.find _ _) as [pay0|] eqn:Hf in Hpay; [|discriminate].
  injection Hpay as ->. pose proof (find_by_id_ID _ _ _ Hf) as Hid.
  unfold postgres.DonationRepository.GetByID in Hdon.
  fold (donation_by_id (payment.DonationID pay)) in Hdon.
  destruct (List.find _ _) as [don0|] eqn:Hd in Hdon; [|discriminate].
  injection Hdon as ->. pose proof (find_donation_ID _ _ _ Hd) as Hdid.
  assert (Hpid : payment.ID (reconciled_payment now status reason pay) = paymentID)
    by (by destruct status).
  assert (Hrid : donation.ID (reconciled_donation now status don) = payment.DonationID pay)
    by (by destruct status).
  eexists _, (postgres.PaymentRepository.update_row now
                (reconciled_payment now status reason pay) pay),
    (postgres.DonationRepository.update_row now (reconciled_donation now status don) don).
  split; [reflexivity|]. proj.
  unfold postgres.PaymentRepository.GetByID, postgres.DonationRepository.GetByID.
  fold (by_id paymentID). fold (donation_by_id (payment.DonationID pay)).
  cbn [postgres.with_donations postgres.with_payments postgres.payments
       postgres.donations].
  split_and!.
  - rewrite <- Hpid at 1. rewrite (GetByID_updated now _ _ pay); [done|by rewrite Hpid].
  - cbn. rewrite lookup_insert_ne by done. by rewrite lookup_insert_eq.
  - cbn. by rewrite lookup_insert_eq.
  - by destruct status.
  - rewrite <- Hrid at 1.
    rewrite (DonationGetByID_updated now (service.db s) _ don); [done|by rewrite Hrid].
  - by destruct status.
Qed.

Lemma reconcile_leaves_audit_trail_witness :
  exists s' pay' don',
    service.ManualReconcile 5000 (demo_world true) 1 payment.StatusFailed
      "chargeback reported by the bank" = (s', None) /\
    postgres.PaymentRepository.GetByID (service.db s') 1 = Ok pay' /\
    payment.Metadata pay' !! "reconciliation_reason"
      = Some (VString "chargeback reported by the bank") /\
    payment.Metadata pay' !! "reconciliation_at" = Some (VInstant 5000) /\
    payment.Status_ pay' = payment.StatusFailed /\
    postgres.DonationRepository.GetByID (service.db s') (payment.DonationID demo_payment)
      = Ok don' /\
    donation.Status_ don' = donation.StatusFailed.
Proof.
  apply (reconcile_leaves_audit_trail 5000 (demo_world true) 1 payment.StatusFailed
           "chargeback reported by the bank" demo_payment demo_donation);
    reflexivity.
Defined.

(** X9. [ManualReconcile] with paid is not deduplicated: it has no test of
    the current status and claims no idempotency key, so with Redis
    reachable two calls on the same payment publish two events for the same
    donation, also when the payment was paid before the first call. *)
Theorem reconcile_paid_publishes_again (now1 now2 : Z) (s : service.World)
    (paymentID : N) (reason1 reason2 : string) (pay : payment.Payment)
    (don : donation.Donation) :
  redis.reachable (service.rds s) = true ->
  postgres.PaymentRepository.GetByID (service.db s) paymentID = Ok pay ->
  postgres.DonationRepository.GetByID (service.db s) (payment.DonationID pay) = Ok don ->
  exists s1 s2,
    service.ManualReconcile now1 s paymentID payment.StatusPaid reason1 = (s1, None) /\
    service.ManualReconcile now2 s1 paymentID payment.StatusPaid reason2 = (s2, None) /\
    redis.published (service.rds s2) =
      redis.published (service.rds s) ++
        [("donations:new"%string,
          redis.NewDonationEvent (uuid.String (payment.DonationID pay))
            (donation.DonorName don) (donation.Message don) (donation.Amount don) now1);
         ("donations:new"%string,
          redis.NewDonationEvent (uuid.String (payment.DonationID pay))
            (donation.DonorName don) (donation.Message don) (donation.Amount don) now2)].
Proof.
  intros Hup Hpay Hdon.
  rewrite (ManualReconcile_found now1 s paymentID payment.StatusPaid reason1 pay don
             Hpay Hdon).
  unfold postgres.PaymentRepository.GetByID in Hpay. fold (by_id paymentID) in Hpay.
  destruct (List.find _ _) as [pay0|] eqn:Hf in Hpay; [|discriminate].
  injection Hpay as ->. pose proof (find_by_id_ID _ _ _ Hf) as Hid.
  unfold postgres.DonationRepository.GetByID in Hdon.
  fold (donation_by_id (payment.DonationID pay)) in Hdon.
  destruct (List.find _ _) as [don0|] eqn:Hd in Hdon; [|discriminate].
  injection Hdon as ->. pose proof (find_donation_ID _ _ _ Hd) as Hdid.
  set (pay1 := postgres.PaymentRepository.update_row now1
                 (reconciled_payment now1 payment.StatusPaid reason1 pay) pay).
  set (don1 := postgres.DonationRepository.update_row now1
                 (reconciled_donation now1 payment.StatusPaid don) don).
  eexists _, _. split; [reflexivity|].
  erewrite (ManualReconcile_found now2 _ paymentID payment.StatusPaid reason2 pay1 don1).
  - split; [reflexivity|]. proj.
    unfold redis.PublishDonationEvent, redis.Publish. rewrite Hup. cbn [negb fst].
    cbn [redis.reachable negb fst redis.published].
    rewrite <- app_assoc. cbn [app]. unfold service.event_of.
    cbn [donation.MarkAsPaid donation.ID donation.DonorName donation.Message
         donation.Amount donation.PaidAt default don1 reconciled_donation
         postgres.DonationRepository.update_row].
    by rewrite Hdid.
  - proj. unfold postgres.PaymentRepository.GetByID. fold (by_id paymentID).
    cbn [postgres.with_donations postgres.with_payments postgres.payments].
    assert (Hpid : payment.ID (reconciled_payment now1 payment.StatusPaid reason1 pay)
                   = paymentID) by exact Hid.
    rewrite <- Hpid at 1. rewrite (GetByID_updated now1 _ _ pay); [done|by rewrite Hpid].
  - proj. unfold postgres.DonationRepository.GetByID.
    cbn [postgres.with_donations postgres.donations pay1
         postgres.PaymentRepository.update_row payment.DonationID].
    fold (donation_by_id (payment.DonationID pay)).
    assert (Hrid : donation.ID (reconciled_donation now1 payment.StatusPaid don)
                   = payment.DonationID pay) by exact Hdid.
    rewrite <- Hrid at 1.
    rewrite (DonationGetByID_updated now1 (service.db s) _ don); [done|by rewrite Hrid].
Qed.

Lemma reconcile_paid_publishes_again_witness :
  exists s1 s2,
    service.ManualReconcile 5000 paid_world 1 payment.StatusPaid "first" = (s1, None) /\
    service.ManualReconcile 6000 s1 1 payment.StatusPaid "second" = (s2, None) /\
    redis.published (service.rds s2) =
      redis.published (service.rds paid_world) ++
        [("donations:new"%string,
          redis.NewDonationEvent (uuid.String 10) "Ayu" "semangat" 50000 5000);
         ("donations:new"%string,
          redis.NewDonationEvent (uuid.String 10) "Ayu" "semangat" 50000 6000)].
Proof.
  apply (reconcile_paid_publishes_again 5000 6000 paid_world 1 "first" "second"
           (postgres.PaymentRepository.update_row 1000
              (payment.MarkAsPaid 1000 demo_payment) demo_payment)
           (postgres.DonationRepository.update_row 1000
              (donation.MarkAsPaid 1000 demo_donation) demo_donation));
    reflexivity.
Defined.


(** ** Columns that no webhook and no reconcile can change *)

Lemma frozen_updated (now : Z) (p : payment.Payment) (rows : list payment.Payment) :
  frozen <$> updated now p rows = frozen <$> rows.
Proof.
  induction rows as [|r rows IH]; [reflexivity|].
  cbn [updated map fmap list_fmap] in *. f_equal; [|exact IH].
  by destruct (payment.ID r =? payment.ID p)%N.
Qed.

Lemma donation_ids_updated (now : Z) (d : donation.Donation)
    (rows : list donation.Donation) :
  donation.ID <$> donations_updated now d rows = donation.ID <$> rows.
Proof.
  induction rows as [|r rows IH]; [reflexivity|].
  cbn [donations_updated map fmap list_fmap] in *. f_equal; [|exact IH].
  by destruct (donation.ID r =? donation.ID d)%N.
Qed.

Lemma find_donation_unique (rows : list donation.Donation) (id : N)
    (r d : donation.Donation) :
  NoDup (donation.ID <$> rows) ->
  List.find (donation_by_id id) rows = Some r -> d ∈ rows -> donation.ID d = id -> d = r.
Proof.
  induction rows as [|a rows IH]; cbn; [discriminate|].
  intros Hnd Hf Hd Hid. apply NoDup_cons in Hnd as [Ha Hnd].
  unfold donation_by_id at 1 in Hf.
  destruct (donation.ID a =? id)%N eqn:Hai.
  - apply N.eqb_eq in Hai. injection Hf as <-.
    apply elem_of_cons in Hd as [->|Hd]; [done|].
    exfalso. apply Ha. rewrite Hai, <- Hid. by apply list_elem_of_fmap_2.
  - apply elem_of_cons in Hd as [->|Hd].
    + apply N.eqb_neq in Hai. contradiction.
    + by apply IH.
Qed.

(** Saving a donation that was read under a unique identifier, with the
    donor's columns as read, changes no donor column of any row. *)
Lemma donation_frozen_updated (now : Z) (rows : list donation.Donation) (id : N)
    (don don' : donation.Donation) :
  NoDup (donation.ID <$> rows) ->
  List.find (donation_by_id id) rows = Some don ->
  donation_frozen don' = donation_frozen don ->
  donation_frozen <$> donations_updated now don' rows = donation_frozen <$> rows.
Proof.
  intros Hnd Hf Hfr.
  assert (Hid : donation.ID don' = donation.ID don) by (by injection Hfr).
  unfold donations_updated. rewrite <- list_fmap_compose.
  apply list_fmap_ext. intros i row Hrow. cbn.
  destruct (donation.ID row =? donation.ID don')%N eqn:He; [|reflexivity].
  apply N.eqb_eq in He.
  assert (row = don) as ->.
  { eapply find_donation_unique; eauto.
    - by eapply list_elem_of_lookup_2.
    - rewrite He, Hid. by eapply find_donation_ID. }
  unfold donation_frozen in *. cbn. by injection Hfr as _ -> -> -> -> -> _.
Qed.

Lemma DonationUpdate_rows (now : Z) (d : postgres.DB) (don : donation.Donation) :
  postgres.donations (postgres.DonationRepository.Update now d don).1
    = postgres.donations d \/
  postgres.donations (postgres.DonationRepository.Update now d don).1
    = donations_updated now don (postgres.donations d).
Proof.
  unfold postgres.DonationRepository.Update.
  destruct (existsb _ _); cbn; auto.
Qed.

Lemma donations_webhook_paid (now : Z) (s : service.World) (pay : payment.Payment) :
  donation_saved now (postgres.donations (service.db s))
    (postgres.donations (service.db (service.webhook_paid now s pay).1)).
Proof.
  unfold service.webhook_paid.
  pose proof (payments_Update now (service.db s) (payment.MarkAsPaid now pay)) as HU.
  destruct (postgres.PaymentRepository.Update _ _ _) as [d1 [e|]]; cbn in HU;
    [by left|].
  destruct HU as (_ & HU & _). proj.
  unfold postgres.DonationRepository.GetByID.
  fold (donation_by_id (payment.DonationID (payment.MarkAsPaid now pay))).
  destruct (List.find _ _) as [don|] eqn:Hd; cbn [postgres.scanDonation];
    [|left; proj; by rewrite HU].
  rewrite HU in Hd.
  destruct (DonationUpdate_rows now d1 (donation.MarkAsPaid now don)) as [H|H];
    destruct (postgres.DonationRepository.Update _ _ _) as [d2 [e|]];
    cbn [fst] in H; proj;
    try destruct (redis.PublishDonationEvent _ _) as [r [e|]]; proj;
    rewrite ?H, HU; try (by left);
    right; eexists _, don, (donation.MarkAsPaid now don); split_and!; eauto.
Qed.

Lemma donations_webhook_closed (now : Z) (s : service.World) (pay : payment.Payment)
    (mark : Z -> donation.Donation -> donation.Donation) :
  (forall d, donation_frozen (mark now d) = donation_frozen d) ->
  donation_saved now (postgres.donations (service.db s))
    (postgres.donations (service.db (service.webhook_closed now s pay mark).1)).
Proof.
  intros Hmark. unfold service.webhook_closed.
  pose proof (payments_Update now (service.db s) pay) as HU.
  destruct (postgres.PaymentRepository.Update _ _ _) as [d1 [e|]]; cbn in HU;
    [by left|].
  destruct HU as (_ & HU & _). proj.
  unfold postgres.DonationRepository.GetByID.
  fold (donation_by_id (payment.DonationID pay)).
  destruct (List.find _ _) as [don|] eqn:Hd; cbn [postgres.scanDonation];
    [|left; proj; by rewrite HU].
  rewrite HU in Hd. proj.
  destruct (DonationUpdate_rows now d1 (mark now don)) as [H|H];
    rewrite H, HU; [by left|].
  right; eexists _, don, (mark now don); split_and!; eauto.
Qed.

Lemma donations_ProcessWebhook (now : Z) (s : service.World)
    (params : service.ProcessWebhookParams) :
  donation_saved now (postgres.donations (service.db s))
    (postgres.donations (service.db (service.ProcessWebhook now s params).1)).
Proof.
  unfold service.ProcessWebhook.
  destruct (redis.SetNX _ _ _ _ _) as [[r set] err].
  assert (Hdb : service.db
            match err with
            | Some _ => service.log service.Warn "failed to check idempotency"
                          (service.with_rds s r)
            | None => service.with_rds s r
            end = service.db s) by (by destruct err).
  set (s0 := match err with Some _ => _ | None => _ end) in *. clearbody s0.
  rewrite <- Hdb.
  destruct set; cbn [negb]; [|by left].
  destruct (postgres.PaymentRepository.GetByExternalID _ _ _) as [pay|e]; [|by left].
  destruct (payment.IsPaid pay); [by left|].
  destruct (service.Status params); try by left.
  - apply donations_webhook_paid.
  - by apply donations_webhook_closed.
  - by apply donations_webhook_closed.
Qed.

Lemma donations_ManualReconcile (now : Z) (s : service.World) (paymentID : N)
    (status : payment.Status) (reason : string) :
  donation_saved now (postgres.donations (service.db s))
    (postgres.donations
       (service.db (service.ManualReconcile now s paymentID status reason).1)).
Proof.
  destruct (postgres.PaymentRepository.GetByID (service.db s) paymentID)
    as [pay|e] eqn:Hpay;
    [|unfold service.ManualReconcile; rewrite Hpay; by left].
  destruct (postgres.DonationRepository.GetByID (service.db s) (payment.DonationID pay))
    as [don|e] eqn:Hdon;
    [|unfold service.ManualReconcile; rewrite Hpay, Hdon; by left].
  rewrite (ManualReconcile_found now s paymentID status reason pay don Hpay Hdon).
  proj. cbn [postgres.with_donations postgres.donations].
  unfold postgres.DonationRepository.GetByID in Hdon.
  fold (donation_by_id (payment.DonationID pay)) in Hdon.
  destruct (List.find _ _) as [don0|] eqn:Hd in Hdon; [|discriminate].
  injection Hdon as ->.
  right. eexists _, don, (reconciled_donation now status don).
  split_and!; eauto. by destruct status.
Qed.

Lemma payments_ManualReconcile_rows (now : Z) (s : service.World) (paymentID : N)
    (status : payment.Status) (reason : string) :
  let rows' := postgres.payments
                 (service.db (service.ManualReconcile now s paymentID status reason).1) in
  rows' = postgres.payments (service.db s) \/
  exists pay', rows' = updated now pay' (postgres.payments (service.db s)).
Proof.
  destruct (postgres.PaymentRepository.GetByID (service.db s) paymentID)
    as [pay|e] eqn:Hpay;
    [|unfold service.ManualReconcile; rewrite Hpay; by left].
  destruct (postgres.DonationRepository.GetByID (service.db s) (payment.DonationID pay))
    as [don|e] eqn:Hdon;
    [|unfold service.ManualReconcile; rewrite Hpay, Hdon; by left].
  rewrite (ManualReconcile_found now s paymentID status reason pay don Hpay Hdon).
  right. by eexists.
Qed.

Lemma frozen_step (s : service.World) (c : call) :
  NoDup (donation.ID <$> postgres.donations (service.db s)) ->
  frozen <$> postgres.payments (service.db (perform s c))
    = frozen <$> postgres.payments (service.db s) /\
  donation_frozen <$> postgres.donations (service.db (perform s c))
    = donation_frozen <$> postgres.donations (service.db s) /\
  NoDup (donation.ID <$> postgres.donations (service.db (perform s c))).
Proof.
  intros Hnd.
  assert (Hp : frozen <$> postgres.payments (service.db (perform s c))
               = frozen <$> postgres.payments (service.db s)).
  { destruct c as [now params|now paymentID status reason]; cbn [perform].
    - destruct (payments_ProcessWebhook now s params)
        as [-> | (pay & pay' & _ & _ & _ & ->)]; [done|apply frozen_updated].
    - destruct (payments_ManualReconcile_rows now s paymentID status reason)
        as [-> | (pay' & ->)]; [done|apply frozen_updated]. }
  split; [exact Hp|].
  assert (Hd : exists now, donation_saved now (postgres.donations (service.db s))
                 (postgres.donations (service.db (perform s c)))).
  { destruct c as [now params|now paymentID status reason]; cbn [perform]; exists now.
    - apply donations_ProcessWebhook.
    - apply donations_ManualReconcile. }
  destruct Hd as (now & [-> | (id & don & don' & Hf & Hfr & ->)]); [done|].
  split; [by eapply donation_frozen_updated|by rewrite donation_ids_updated].
Qed.

(** X10. Through every sequence of webhooks and manual reconciles, of any
    status and in any order, no row of [payments] or [donations] is added
    or removed and the columns fixed at creation keep their values: for a
    payment its id, donation, provider, method, amount, expiry and creation
    time; for a donation (identifiers being unique, as the primary key
    makes them) its id, donor name, donor e-mail, message, amount, metadata
    and creation time. Only status, payment instant, provider references,
    payment metadata and update time ever change. *)
Theorem calls_keep_amounts (s : service.World) (calls : list call) :
  NoDup (donation.ID <$> postgres.donations (service.db s)) ->
  frozen <$> postgres.payments (service.db (foldl perform s calls))
    = frozen <$> postgres.payments (service.db s) /\
  donation_frozen <$> postgres.donations (service.db (foldl perform s calls))
    = donation_frozen <$> postgres.donations (service.db s).
Proof.
  revert s. induction calls as [|c calls IH]; intros s Hnd; [done|].
  cbn [foldl]. destruct (frozen_step s c Hnd) as (Hp & Hd & Hnd').
  destruct (IH _ Hnd') as [IHp IHd]. split; congruence.
Qed.

Lemma calls_keep_amounts_witness :
  let calls :=
    [Webhook 1000 (demo_params payment.StatusPaid);
     Reconcile 5000 1 payment.StatusFailed "chargeback reported by the bank";
     Webhook 9000 {| service.Provider := payment.ProviderMidtrans;
                     service.OrderID := "DON-abc";
                     service.TransactionID := "tx-2";
                     service.Status := payment.StatusExpired |}] in
  frozen <$> postgres.payments (service.db (foldl perform (demo_world true) calls))
    = frozen <$> postgres.payments (service.db (demo_world true)) /\
  donation_frozen <$> postgres.donations (service.db (foldl perform (demo_world true) calls))
    = donation_frozen <$> postgres.donations (service.db (demo_world true)).
Proof.
  cbv zeta. apply (calls_keep_amounts (demo_world true)).
  cbn. apply NoDup_singleton.
Defined.


(** ** The Redis cache: counters and strings *)

Lemma to_int_nonnil (z : Z) : Z.to_int z <> Decimal.Pos Decimal.Nil /\
                              Z.to_int z <> Decimal.Neg Decimal.Nil.
Proof.
  destruct z as [|p|p]; cbn; split; try discriminate;
    intros [= H]; by apply DecimalPos.Unsigned.to_uint_nonnil in H.
Qed.

Lemma int_of_FormatInt (z : Z) :
  NilZero.int_of_string (redis.FormatInt z) = Some (Z.to_int z).
Proof.
  unfold redis.FormatInt. destruct (to_int_nonnil z). by apply NilZero.isi.
Qed.

Lemma FormatInt_inj (a b : Z) : redis.FormatInt a = redis.FormatInt b -> a = b.
Proof.
  intros H. apply (f_equal NilZero.int_of_string) in H.
  rewrite !int_of_FormatInt in H. injection H as H. by apply to_int_inj.
Qed.

Lemma string2ll_FormatInt (z : Z) :
  redis.MinInt64 <= z <= redis.MaxInt64 -> redis.string2ll (redis.FormatInt z) = Some z.
Proof.
  intros [Hlo Hhi]. unfold redis.string2ll.
  rewrite int_of_FormatInt. cbv zeta. rewrite of_to, String.eqb_refl.
  apply Z.leb_le in Hlo, Hhi. by rewrite Hlo, Hhi.
Qed.

Lemma ParseInt_FormatInt (z : Z) :
  redis.MinInt64 <= z <= redis.MaxInt64 -> redis.ParseInt (redis.FormatInt z) = Ok z.
Proof.
  intros [Hlo Hhi]. unfold redis.ParseInt.
  pose proof (int_of_FormatInt z) as Hz.
  assert (Hd : match redis.FormatInt z with
               | String "+" rest =>
                   match rest with
                   | String "-" _ => None
                   | _ => Z.of_int <$> NilZero.int_of_string rest
                   end
               | _ => Z.of_int <$> NilZero.int_of_string (redis.FormatInt z)
               end = Some z).
  { destruct (redis.FormatInt z) as [|a s] eqn:Hs; [by rewrite Hz; cbn; rewrite of_to|].
    destruct (Ascii.eqb_spec a "+") as [->|Hne].
    - cbn in Hz. destruct (NilEmpty.uint_of_string s); discriminate Hz.
    - assert (Hgo : forall X : option Z,
                match a with
                | "+"%char => X
                | _ => Z.of_int <$> NilZero.int_of_string (String a s)
                end = Z.of_int <$> NilZero.int_of_string (String a s)).
      { intros X. destruct a as [[] [] [] [] [] [] [] []]; try reflexivity.
        by destruct Hne. }
      rewrite Hgo, Hz. cbn. by rewrite of_to. }
  rewrite Hd. apply Z.leb_le in Hlo, Hhi. by rewrite Hlo, Hhi.
Qed.

(** One increment of a counter that holds [k] and has no expiry. *)
Lemma Increment_step (t : Z) (c : redis.Client) (key : string) (k : Z) :
  redis.reachable c = true ->
  redis.keys c !! key = Some (redis.FormatInt k, None) ->
  redis.MinInt64 <= k < redis.MaxInt64 ->
  redis.Increment t c key =
    (redis.with_keys c (<[key := (redis.FormatInt (k + 1), None)]> (redis.keys c)),
     Ok (k + 1)).
Proof.
  intros Hup Hk Hr. unfold redis.Increment, redis.server_Incr,
    redis.value_at, redis.expiry_at, redis.live.
  rewrite Hup, Hk. cbn [negb fmap option_fmap option_map fst mbind option_bind snd].
  rewrite string2ll_FormatInt by lia.
  destruct (Z.eqb_spec k redis.MaxInt64); [lia|done].
Qed.

Lemma count_from (key : string) (times : list Z) : forall (c : redis.Client) (k : Z),
  redis.reachable c = true ->
  redis.keys c !! key = Some (redis.FormatInt k, None) ->
  redis.MinInt64 <= k -> k + Z.of_nat (length times) <= redis.MaxInt64 ->
  (count c key times).2 = (fun i => Ok (k + Z.of_nat i)) <$> seq 1 (length times) /\
  redis.reachable (count c key times).1 = true /\
  redis.keys (count c key times).1 !! key
    = Some (redis.FormatInt (k + Z.of_nat (length times)), None) /\
  forall other, other <> key ->
    redis.keys (count c key times).1 !! other = redis.keys c !! other.
Proof.
  induction times as [|t rest IH]; intros c k Hup Hk Hlo Hhi.
  - cbn. rewrite Z.add_0_r. done.
  - cbn [count length] in *.
    rewrite (Increment_step t c key k) by (done || lia).
    specialize (IH (redis.with_keys c
                      (<[key := (redis.FormatInt (k + 1), None)]> (redis.keys c)))
                   (k + 1)).
    destruct (count _ key rest) as [c2 rs]. cbn [fst snd] in *.
    destruct IH as (Hrs & Hup2 & Hk2 & Hother);
      [done|cbn; by rewrite lookup_insert_eq|lia|lia|].
    split_and!.
    + cbn [seq fmap list_fmap]. f_equal. rewrite Hrs, <- (fmap_S_seq 1).
      rewrite <- list_fmap_compose. apply list_fmap_ext.
      intros i x _. cbn. f_equal. lia.
    + done.
    + rewrite Hk2. do 2 f_equal. f_equal. lia.
    + intros other Hne. rewrite Hother by done. cbn.
      by rewrite lookup_insert_ne.
Qed.

(** X11. A counter counts: with Redis reachable and the key not live at the
    first call, successive calls of [Increment] return 1, 2, ..., n
    whatever the instants of the calls (the counter gets no expiry),
    [GetCounter] then reads n back at any instant, and no other key is
    touched. The sequence is as long as a 64-bit counter can hold. *)
Theorem Increment_counts (c : redis.Client) (key : string) (t1 now : Z)
    (rest : list Z) :
  redis.reachable c = true ->
  redis.live t1 (redis.keys c) key = false ->
  Z.of_nat (S (length rest)) <= redis.MaxInt64 ->
  let res := count c key (t1 :: rest) in
  res.2 = (fun i => Ok (Z.of_nat i)) <$> seq 1 (S (length rest)) /\
  redis.GetCounter now res.1 key = Ok (Z.of_nat (S (length rest))) /\
  forall other, other <> key -> redis.keys res.1 !! other = redis.keys c !! other.
Proof.
  intros Hup Hfree Hn. cbv zeta. cbn [count].
  assert (H1 : redis.Increment t1 c key =
               (redis.with_keys c (<[key := ("1"%string, None)]> (redis.keys c)), Ok 1)).
  { unfold redis.Increment, redis.server_Incr, redis.value_at.
    by rewrite Hup, Hfree. }
  rewrite H1.
  pose proof (count_from key rest
                (redis.with_keys c (<[key := ("1"%string, None)]> (redis.keys c))) 1)
    as Hc.
  destruct (count _ key rest) as [c2 rs]. cbn [fst snd] in *.
  destruct Hc as (Hrs & Hup2 & Hk2 & Hother);
    [done|cbn; by rewrite lookup_insert_eq|unfold redis.MinInt64; lia|lia|].
  split_and!.
  - cbn [seq fmap list_fmap]. f_equal. rewrite Hrs, <- (fmap_S_seq 1).
    rewrite <- list_fmap_compose. apply list_fmap_ext.
    intros i x _. cbn. f_equal. lia.
  - unfold redis.GetCounter, redis.client_Get, redis.value_at, redis.live.
    rewrite Hup2, Hk2. cbn [negb fmap option_fmap option_map fst].
    rewrite ParseInt_FormatInt by (unfold redis.MinInt64; lia).
    f_equal. lia.
  - intros other Hne. rewrite Hother by done. cbn. by rewrite lookup_insert_ne.
Qed.

Lemma Increment_counts_witness :
  let c := {| redis.reachable := true; redis.keys := ∅; redis.published := [] |} in
  let res := count c "visits" [100; 50; 7000] in
  res.2 = (fun i => Ok (Z.of_nat i)) <$> seq 1 3 /\
  redis.GetCounter 9000 res.1 "visits" = Ok (Z.of_nat 3) /\
  forall other, other <> "visits"%string ->
    redis.keys res.1 !! other = redis.keys c !! other.
Proof.
  cbv zeta.
  apply (Increment_counts
           {| redis.reachable := true; redis.keys := ∅; redis.published := [] |}
           "visits" 100 9000 [50; 7000]); [reflexivity|reflexivity|].
  cbn. unfold redis.MaxInt64. lia.
Defined.

(** X12. A string written with [SetString] and a time to live of whole
    milliseconds is read back by [GetString] at every instant before
    [now + ttl], is a cache miss from that instant on, and is read back at
    every instant when the time to live is 0; the other keys read as before. *)
Theorem SetString_GetString (now : Z) (c : redis.Client) (key value : string)
    (ttl : Z) :
  redis.reachable c = true ->
  0 <= ttl -> ttl mod redis.Millisecond = 0 ->
  exists c',
    redis.SetString now c key value ttl = (c', None) /\
    (forall t, ttl = 0 \/ t < now + ttl -> redis.GetString t c' key = Ok value) /\
    (forall t, 0 < ttl -> now + ttl <= t ->
               redis.GetString t c' key = Err redis.ErrCacheMiss) /\
    (forall t other, other <> key ->
               redis.GetString t c' other = redis.GetString t c other).
Proof.
  intros Hup Httl Hms. unfold redis.SetString, redis.client_Set. rewrite Hup.
  cbn [negb]. eexists. split; [reflexivity|].
  assert (Hlife : 0 < ttl ->
            (if ttl <? redis.Millisecond then redis.Millisecond
             else ttl / redis.Millisecond * redis.Millisecond) = ttl).
  { intros Hpos. unfold redis.Millisecond in *.
    destruct (Z.ltb_spec ttl (10 ^ 6)).
    - rewrite Z.mod_small in Hms by lia. lia.
    - pose proof (Z.div_mod ttl (10 ^ 6)). lia. }
  unfold redis.GetString, redis.client_Get, redis.value_at, redis.live.
  cbn [redis.with_keys redis.reachable redis.keys negb]. rewrite Hup.
  split_and!.
  - intros t Ht. rewrite lookup_insert_eq.
    destruct (Z.ltb_spec 0 ttl) as [Hpos|Hz].
    + rewrite Hlife by done. destruct Ht as [->|Ht]; [lia|].
      apply Z.ltb_lt in Ht. by rewrite Ht.
    + assert (ttl = 0) as -> by lia. reflexivity.
  - intros t Hpos Ht. rewrite lookup_insert_eq.
    apply Z.ltb_lt in Hpos as Hpos'. rewrite Hpos', Hlife by done.
    destruct (Z.ltb_spec t (now + ttl)); [lia|done].
  - intros t other Hne. by rewrite lookup_insert_ne.
Qed.

Lemma SetString_GetString_witness :
  exists c',
    redis.SetString 1000 {| redis.reachable := true; redis.keys := ∅;
                            redis.published := [] |}
      "session:abc" "ayu" (30 * redis.Second) = (c', None) /\
    (forall t, 30 * redis.Second = 0 \/ t < 1000 + 30 * redis.Second ->
               redis.GetString t c' "session:abc" = Ok "ayu"%string) /\
    (forall t, 0 < 30 * redis.Second -> 1000 + 30 * redis.Second <= t ->
               redis.GetString t c' "session:abc" = Err redis.ErrCacheMiss) /\
    (forall t other, other <> "session:abc"%string ->
               redis.GetString t c' other
               = redis.GetString t {| redis.reachable := true; redis.keys := ∅;
                                      redis.published := [] |} other).
Proof.
  apply (SetString_GetString 1000
           {| redis.reachable := true; redis.keys := ∅; redis.published := [] |}
           "session:abc" "ayu" (30 * redis.Second)); [reflexivity| |reflexivity].
  unfold redis.Second. lia.
Defined.


(** ** The rate limiter *)

Lemma formatSec_pos (d : Z) : 0 < d -> 0 < redis.formatSec d.
Proof.
  intros Hd. unfold redis.formatSec, redis.Second.
  destruct (Z.ltb_spec 0 d); [|lia]. cbn [andb].
  destruct (Z.ltb_spec d (10 ^ 9)); [lia|].
  apply Z.quot_str_pos. lia.
Qed.

(** [IncrementWithTTL] on a key that is not live, and on a live counter. *)
Lemma IncrementWithTTL_fresh (now : Z) (c : redis.Client) (key : string) (ttl : Z) :
  redis.reachable c = true -> redis.live now (redis.keys c) key = false -> 0 < ttl ->
  redis.IncrementWithTTL now c key ttl =
    (redis.with_keys c
       (<[key := ("1"%string, Some (now + redis.formatSec ttl * redis.Second))]>
          (redis.keys c)), Ok 1).
Proof.
  intros Hup Hfree Httl. unfold redis.IncrementWithTTL, redis.server_Incr.
  rewrite Hup. cbn [negb]. unfold redis.value_at at 1. rewrite Hfree.
  unfold redis.server_Expire, redis.value_at, redis.live.
  cbn [redis.with_keys redis.keys]. rewrite lookup_insert_eq.
  cbn [fmap option_fmap option_map fst].
  pose proof (formatSec_pos ttl Httl) as Hs. apply Z.ltb_lt in Hs. rewrite Hs.
  cbn [redis.with_keys redis.keys redis.reachable redis.published].
  by rewrite insert_insert_eq.
Qed.

Lemma IncrementWithTTL_live (now : Z) (c : redis.Client) (key : string) (ttl k e : Z) :
  redis.reachable c = true ->
  redis.keys c !! key = Some (redis.FormatInt k, Some e) -> now < e ->
  redis.MinInt64 <= k < redis.MaxInt64 -> 0 < ttl ->
  redis.IncrementWithTTL now c key ttl =
    (redis.with_keys c
       (<[key := (redis.FormatInt (k + 1),
                  Some (now + redis.formatSec ttl * redis.Second))]>
          (redis.keys c)), Ok (k + 1)).
Proof.
  intros Hup Hk He Hr Httl. unfold redis.IncrementWithTTL, redis.server_Incr.
  rewrite Hup. cbn [negb]. apply Z.ltb_lt in He as He'.
  unfold redis.value_at at 1, redis.expiry_at, redis.live. rewrite Hk, He'.
  cbn [fmap option_fmap option_map fst mbind option_bind snd].
  rewrite string2ll_FormatInt by lia.
  destruct (Z.eqb_spec k redis.MaxInt64); [lia|].
  unfold redis.server_Expire, redis.value_at, redis.live.
  cbn [redis.with_keys redis.keys]. rewrite lookup_insert_eq, He'.
  cbn [fmap option_fmap option_map fst].
  pose proof (formatSec_pos ttl Httl) as Hs. apply Z.ltb_lt in Hs. rewrite Hs.
  cbn [redis.with_keys redis.keys redis.reachable redis.published].
  by rewrite insert_insert_eq.
Qed.

Lemma Limit_counted {A} (rl : middleware.RateLimiter) (endpoint : string) (now : Z)
    (c c' : redis.Client) (r : handler.Request A) (n : Z) :
  redis.IncrementWithTTL now c
    (redis.RateLimitKey (middleware.getClientIP r) endpoint)
    (middleware.windowSize rl) = (c', Ok n) ->
  (middleware.Limit rl endpoint now c r).1 = c' /\
  allowed (middleware.Limit rl endpoint now c r).2
    = (n <=? middleware.requestsLimit rl).
Proof.
  intros H. unfold middleware.Limit. rewrite H.
  rewrite Z.leb_antisym.
  by destruct (middleware.requestsLimit rl <? n).
Qed.

Lemma serve_from {A} (rl : middleware.RateLimiter) (endpoint ip : string)
    (reqs : list (Z * handler.Request A)) :
  forall (c : redis.Client) (k prev : Z),
  0 < middleware.windowSize rl ->
  redis.reachable c = true ->
  redis.keys c !! redis.RateLimitKey ip endpoint
    = Some (redis.FormatInt k, Some (prev + window rl)) ->
  Forall (fun q => middleware.getClientIP q.2 = ip) reqs ->
  chained (window rl) prev reqs ->
  redis.MinInt64 <= k -> k + Z.of_nat (length reqs) <= redis.MaxInt64 ->
  allowed <$> (serve rl endpoint c reqs).2
    = (fun i => k + Z.of_nat i <=? middleware.requestsLimit rl) <$> seq 1 (length reqs).
Proof.
  induction reqs as [|[t r] rest IH]; intros c k prev Hw Hup Hk Hip Hch Hlo Hhi;
    [reflexivity|].
  apply Forall_cons in Hip as [Hr Hip]. cbn [snd] in Hr.
  destruct Hch as [Ht Hch]. cbn [length] in Hhi.
  cbn [serve].
  pose proof (IncrementWithTTL_live t c (redis.RateLimitKey ip endpoint)
                (middleware.windowSize rl) k (prev + window rl) Hup Hk Ht) as Hinc.
  rewrite <- Hr in Hinc at 1.
  destruct (Limit_counted rl endpoint t c _ r (k + 1) (Hinc ltac:(lia) Hw)) as [Hc Hv].
  destruct (middleware.Limit rl endpoint t c r) as [c1 v]. cbn [fst snd] in Hc, Hv.
  subst c1.
  specialize (IH (redis.with_keys c
                    (<[redis.RateLimitKey ip endpoint :=
                         (redis.FormatInt (k + 1),
                          Some (t + redis.formatSec (middleware.windowSize rl)
                                      * redis.Second))]> (redis.keys c)))
                 (k + 1) t Hw).
  destruct (serve rl endpoint _ rest) as [c2 vs]. cbn [fst snd] in *.
  rewrite fmap_cons, IH; [|done|cbn; by rewrite lookup_insert_eq|done|done|lia|lia].
  cbn [length seq]. rewrite fmap_cons. f_equal.
  - rewrite Hv. reflexivity.
  - rewrite <- (fmap_S_seq 1), <- list_fmap_compose. apply list_fmap_ext.
    intros i x _. cbn. f_equal. lia.
Qed.

(** X13. The limiter counts per window: for requests of one client address
    to one endpoint, with Redis reachable, no counter live at the first
    request and every later request less than a window (in whole seconds)
    after the one before it, the i-th request is passed on when
    [i <= requestsLimit] and answered 429 otherwise. The expiry is renewed
    by every request, rejected ones included, so the counter is reset only
    by a silence of a whole window. *)
Theorem rate_limit_counts {A} (rl : middleware.RateLimiter) (endpoint ip : string)
    (c : redis.Client) (t1 : Z) (r1 : handler.Request A)
    (rest : list (Z * handler.Request A)) :
  0 < middleware.windowSize rl ->
  redis.reachable c = true ->
  redis.live t1 (redis.keys c) (redis.RateLimitKey ip endpoint) = false ->
  Forall (fun q => middleware.getClientIP q.2 = ip) ((t1, r1) :: rest) ->
  chained (window rl) t1 rest ->
  Z.of_nat (S (length rest)) <= redis.MaxInt64 ->
  allowed <$> (serve rl endpoint c ((t1, r1) :: rest)).2
    = (fun i => Z.of_nat i <=? middleware.requestsLimit rl)
        <$> seq 1 (S (length rest)).
Proof.
  intros Hw Hup Hfree Hip Hch Hn.
  apply Forall_cons in Hip as [Hr Hip]. cbn [snd] in Hr.
  cbn [serve].
  pose proof (IncrementWithTTL_fresh t1 c (redis.RateLimitKey ip endpoint)
                (middleware.windowSize rl) Hup Hfree Hw) as Hinc.
  rewrite <- Hr in Hinc at 1.
  destruct (Limit_counted rl endpoint t1 c _ r1 1 Hinc) as [Hc Hv].
  destruct (middleware.Limit rl endpoint t1 c r1) as [c1 v]. cbn [fst snd] in Hc, Hv.
  subst c1.
  pose proof (serve_from rl endpoint ip rest
                (redis.with_keys c
                   (<[redis.RateLimitKey ip endpoint :=
                        ("1"%string,
                         Some (t1 + redis.formatSec (middleware.windowSize rl)
                                      * redis.Second))]> (redis.keys c)))
                1 t1 Hw) as Hrest.
  destruct (serve rl endpoint _ rest) as [c2 vs]. cbn [fst snd] in *.
  rewrite fmap_cons, Hrest;
    [|done|cbn; by rewrite lookup_insert_eq|done|done|unfold redis.MinInt64; lia|lia].
  cbn [length seq]. rewrite fmap_cons. f_equal; [done|].
  rewrite <- (fmap_S_seq 1), <- list_fmap_compose. apply list_fmap_ext.
  intros i x _. cbn. f_equal. lia.
Qed.

Lemma rate_limit_counts_witness :
  let rl := {| middleware.requestsLimit := 2;
               middleware.windowSize := 60 * redis.Second |} in
  let c := {| redis.reachable := true; redis.keys := ∅; redis.published := [] |} in
  let r := forwarded "203.0.113.7" "10.0.0.1:4711" in
  allowed <$> (serve rl "donation" c
                 [(0, r); (10 * redis.Second, r); (65 * redis.Second, r)]).2
    = (fun i => Z.of_nat i <=? middleware.requestsLimit rl) <$> seq 1 3.
Proof.
  cbv zeta.
  apply (rate_limit_counts
           {| middleware.requestsLimit := 2; middleware.windowSize := 60 * redis.Second |}
           "donation" "203.0.113.7"
           {| redis.reachable := true; redis.keys := ∅; redis.published := [] |}
           0 (forwarded "203.0.113.7" "10.0.0.1:4711")
           [(10 * redis.Second, forwarded "203.0.113.7" "10.0.0.1:4711");
            (65 * redis.Second, forwarded "203.0.113.7" "10.0.0.1:4711")]).
  - reflexivity.
  - reflexivity.
  - reflexivity.
  - repeat constructor.
  - cbn [chained]. split_and!; [reflexivity|reflexivity|exact I].
  - cbn. unfold redis.MaxInt64. lia.
Defined.

Lemma RateLimitKey_inj (ip1 ip2 endpoint : string) :
  redis.RateLimitKey ip1 endpoint = redis.RateLimitKey ip2 endpoint -> ip1 = ip2.
Proof.
  unfold redis.RateLimitKey. intros H.
  by do 3 apply String.app_inj in H.
Qed.

Lemma getClientIP_forwarded {A} (r : handler.Request A) :
  handler.Header_Get r "X-Forwarded-For" <> ""%string ->
  middleware.getClientIP r = handler.Header_Get r "X-Forwarded-For".
Proof.
  intros H. unfold middleware.getClientIP.
  by destruct (String.eqb_spec (handler.Header_Get r "X-Forwarded-For") "").
Qed.

(** X14. The counter is chosen by the [X-Forwarded-For] value the request
    carries: requests whose values are non-empty and pairwise different are
    counted apart, so with a limit of at least 1 and no counter stored for
    them, all of them are passed on, whatever their number, their instants
    and the address they come from. *)
Theorem rate_limit_keyed_by_forwarded_header {A} (rl : middleware.RateLimiter)
    (endpoint : string) (reqs : list (Z * handler.Request A)) :
  forall c : redis.Client,
  0 < middleware.windowSize rl ->
  1 <= middleware.requestsLimit rl ->
  redis.reachable c = true ->
  Forall (fun q => handler.Header_Get q.2 "X-Forwarded-For" <> ""%string) reqs ->
  NoDup ((fun q => handler.Header_Get q.2 "X-Forwarded-For") <$> reqs) ->
  Forall (fun q => redis.keys c
                     !! redis.RateLimitKey (handler.Header_Get q.2 "X-Forwarded-For")
                          endpoint = None) reqs ->
  Forall (fun v => allowed v = true) (serve rl endpoint c reqs).2.
Proof.
  induction reqs as [|[t r] rest IH]; intros c Hw Hlim Hup Hne Hnd Hfree;
    [constructor|].
  apply Forall_cons in Hne as [Hr Hne]. apply Forall_cons in Hfree as [Hk Hfree].
  cbn [snd] in Hr, Hk. rewrite fmap_cons in Hnd. apply NoDup_cons in Hnd as [Hnew Hnd].
  cbn [snd] in Hnew. cbn [serve].
  assert (Hlive : redis.live t (redis.keys c)
                    (redis.RateLimitKey (middleware.getClientIP r) endpoint) = false).
  { rewrite getClientIP_forwarded by done. unfold redis.live. by rewrite Hk. }
  pose proof (IncrementWithTTL_fresh t c _ (middleware.windowSize rl) Hup Hlive Hw)
    as Hinc.
  destruct (Limit_counted rl endpoint t c _ r 1 Hinc) as [Hc Hv].
  destruct (middleware.Limit rl endpoint t c r) as [c1 v]. cbn [fst snd] in Hc, Hv.
  subst c1.
  specialize (IH (redis.with_keys c
                    (<[redis.RateLimitKey (middleware.getClientIP r) endpoint :=
                         ("1"%string,
                          Some (t + redis.formatSec (middleware.windowSize rl)
                                      * redis.Second))]> (redis.keys c)))
                 Hw Hlim Hup Hne Hnd).
  destruct (serve rl endpoint _ rest) as [c2 vs]. cbn [fst snd] in *.
  constructor.
  - rewrite Hv. apply Z.leb_le. lia.
  - apply IH. rewrite Forall_forall in Hfree |- *. intros q Hq. cbn.
    rewrite lookup_insert_ne; [by apply Hfree|].
    rewrite getClientIP_forwarded by done. intros He.
    apply RateLimitKey_inj in He. apply Hnew. rewrite He.
    by apply (list_elem_of_fmap_2 (fun q => handler.Header_Get q.2 "X-Forwarded-For")).
Qed.

Lemma rate_limit_keyed_by_forwarded_header_witness :
  Forall (fun v => allowed v = true)
    (serve {| middleware.requestsLimit := 1; middleware.windowSize := 60 * redis.Second |}
       "donation"
       {| redis.reachable := true; redis.keys := ∅; redis.published := [] |}
       [(0, forwarded "198.51.100.1" "10.0.0.1:4711");
        (1, forwarded "198.51.100.2" "10.0.0.1:4711");
        (2, forwarded "198.51.100.3" "10.0.0.1:4711")]).2.
Proof.
  apply (rate_limit_keyed_by_forwarded_header
           {| middleware.requestsLimit := 1; middleware.windowSize := 60 * redis.Second |}
           "donation").
  - reflexivity.
  - cbn. lia.
  - reflexivity.
  - repeat constructor; cbn; discriminate.
  - cbn. repeat constructor; set_solver.
  - repeat constructor.
Defined.

(** ** The IP whitelist *)

Lemma append_cons (c : ascii) (s t : string) :
  (String c s +:+ t)%string = String c (s +:+ t).
Proof. reflexivity. Qed.

Lemma substring_prefix (p : string) : forall ip : string,
  (String.length p <=? String.length ip)%nat
  && String.eqb (substring 0 (String.length p) ip) p = true <->
  exists rest, ip = (p +:+ rest)%string.
Proof.
  induction p as [|a p IH]; intros ip.
  - cbn. destruct ip; cbn; split; eauto.
  - destruct ip as [|b ip]; cbn [String.length substring].
    + split; [discriminate|]. by intros [rest [=]].
    + change (S (String.length p) <=? S (String.length ip))%nat
        with (String.length p <=? String.length ip)%nat.
      split.
      * intros H. apply andb_true_iff in H as [Hl He].
        apply String.eqb_eq in He. injection He as -> He.
        destruct (proj1 (IH ip)) as [rest ->].
        { rewrite Hl. cbn. by apply String.eqb_eq. }
        by exists rest.
      * intros [rest [= -> ->]].
        pose proof (proj2 (IH (p +:+ rest)%string) (ex_intro _ rest eq_refl)) as H2.
        apply andb_true_iff in H2 as [Hl H2]. apply String.eqb_eq in H2.
        rewrite Hl, H2. cbn [andb]. apply String.eqb_refl.
Qed.

Lemma star_suffix (a : string) :
  (0 <? String.length a)%nat
  && match String.get (String.length a - 1) a with
     | Some c => Ascii.eqb c "*"
     | None => false
     end = true <->
  a = (substring 0 (String.length a - 1) a +:+ "*")%string.
Proof.
  induction a as [|c a IH]; [cbn; split; discriminate|].
  destruct a as [|d a].
  - cbn. destruct (Ascii.eqb_spec c "*") as [->|Hne]; split; try done.
    intros [= ->]. done.
  - set (s := String d a) in *.
    assert (Hs : (0 <? String.length s)%nat = true) by reflexivity.
    clearbody s. rewrite Hs in IH. cbn [andb] in IH.
    assert (E : (String.length (String c s) - 1 = S (String.length s - 1))%nat).
    { apply Nat.ltb_lt in Hs. cbn [String.length]. lia. }
    rewrite E. cbn [String.get substring String.append].
    change (0 <? String.length (String c s))%nat with true. cbn [andb].
    change (String c (substring 0 (String.length s - 1) s) +:+ "*")%string
      with (String c (substring 0 (String.length s - 1) s +:+ "*")).
    split.
    + intros H. apply IH in H. by f_equal.
    + intros [= H]. by apply IH.
Qed.

Lemma length_app_star (p : string) :
  String.length (p +:+ "*") = S (String.length p).
Proof.
  induction p as [|x p IH]; [reflexivity|].
  rewrite append_cons. cbn [String.length]. by f_equal.
Qed.

Lemma substring_app (p rest : string) :
  substring 0 (String.length p) (p +:+ rest) = p.
Proof.
  induction p as [|x p IH]; [by destruct rest|].
  rewrite append_cons. cbn [String.length substring]. by f_equal.
Qed.

Lemma isIPWhitelisted_spec (ip : string) (whitelist : list string) :
  middleware.isIPWhitelisted ip whitelist = true <->
  exists allowed, allowed ∈ whitelist /\ matches ip allowed.
Proof.
  induction whitelist as [|a rest IH]; cbn [middleware.isIPWhitelisted].
  - split; [discriminate|]. intros (x & Hx & _). by apply elem_of_nil in Hx.
  - destruct (String.eqb_spec ip a) as [->|Hne].
    { split; [|done]. intros _. exists a. split; [apply list_elem_of_here|by left]. }
    set (star := ((0 <? String.length a)%nat
                  && match String.get (String.length a - 1) a with
                     | Some c => Ascii.eqb c "*"
                     | None => false
                     end)).
    set (pre := (String.length (substring 0 (String.length a - 1) a)
                   <=? String.length ip)%nat
                && String.eqb (substring 0
                                 (String.length (substring 0 (String.length a - 1) a)) ip)
                     (substring 0 (String.length a - 1) a)).
    assert (Hhere : star && pre = true <->
              exists p tail, a = (p +:+ "*")%string /\ ip = (p +:+ tail)%string).
    { rewrite andb_true_iff. unfold star, pre. rewrite star_suffix, substring_prefix.
      split.
      - intros [Ha [tail Hip]]. eauto.
      - intros (p & tail & Ha & Hip).
        assert (Hp : substring 0 (String.length a - 1) a = p).
        { subst a. rewrite length_app_star.
          replace (S (String.length p) - 1)%nat with (String.length p) by lia.
          apply substring_app. }
        rewrite Hp. split; [by rewrite Ha at 1|by exists tail]. }
    change (if star && pre then true else middleware.isIPWhitelisted ip rest)
      with (if star && pre then true else middleware.isIPWhitelisted ip rest).
    destruct (star && pre) eqn:Hsp.
    + split; [|done]. intros _. exists a.
      split; [apply list_elem_of_here|right; by apply Hhere].
    + rewrite IH. split.
      * intros (x & Hx & Hm). exists x. split; [by apply list_elem_of_further|done].
      * intros (x & Hx & Hm). apply elem_of_cons in Hx as [->|Hx]; [|eauto].
        destruct Hm as [Hm|Hm]; [done|].
        apply Hhere in Hm. discriminate Hm.
Qed.

(** X15. [IPWhitelistMiddleware] passes a request on exactly when its
    client address (the [X-Forwarded-For] value when the request carries
    one, else [X-Real-IP], else the remote address) matches an entry of the
    whitelist: it is the entry, or the entry ends in [*] and the address
    starts, as a string, with what precedes the [*]. So [10.1*] admits
    [10.100.0.1], and [*] admits every request. *)
Theorem whitelist_decides_on_client_address {A} (whitelist : list string)
    (r : handler.Request A) :
  allowed (middleware.IPWhitelistMiddleware whitelist r) = true <->
  exists entry, entry ∈ whitelist /\ matches (middleware.getClientIP r) entry.
Proof.
  rewrite <- isIPWhitelisted_spec. unfold middleware.IPWhitelistMiddleware.
  by destruct (middleware.isIPWhitelisted _ _).
Qed.


(** ** Creating a donation *)

Lemma donations_updated_fresh (now : Z) (d : donation.Donation)
    (rows : list donation.Donation) :
  donation.ID d ∉ donation.ID <$> rows -> donations_updated now d rows = rows.
Proof.
  induction rows as [|r rows IH]; [reflexivity|].
  rewrite fmap_cons, not_elem_of_cons. intros [Hr Hrows].
  cbn [donations_updated map]. fold (donations_updated now d rows).
  rewrite IH by done. destruct (N.eqb_spec (donation.ID r) (donation.ID d)); congruence.
Qed.

Lemma donations_updated_app (now : Z) (d : donation.Donation)
    (l1 l2 : list donation.Donation) :
  donations_updated now d (l1 ++ l2)
    = donations_updated now d l1 ++ donations_updated now d l2.
Proof. apply map_app. Qed.

Lemma find_donation_fresh (id : N) (rows : list donation.Donation) :
  id ∉ donation.ID <$> rows -> List.find (donation_by_id id) rows = None.
Proof.
  induction rows as [|r rows IH]; [reflexivity|].
  rewrite fmap_cons, not_elem_of_cons. intros [Hr Hrows].
  cbn [List.find]. unfold donation_by_id at 1.
  destruct (N.eqb_spec (donation.ID r) id); [congruence|by apply IH].
Qed.

Lemma find_app_None {A} (f : A -> bool) (l1 l2 : list A) :
  List.find f l1 = None -> List.find f (l1 ++ l2) = List.find f l2.
Proof.
  induction l1 as [|x l1 IH]; [reflexivity|].
  cbn. destruct (f x); [discriminate|exact IH].
Qed.

(** The three ways [CreateDonation] goes once the amount is in range and
    the donation row is admitted. *)
Lemma CreateDonation_run (k : postgres.Constraints) (prov : provider.Provider)
    (now : Z) (donID payID : N) (s : service.World)
    (params : service.CreateDonationParams) :
  donID ∉ donation.ID <$> postgres.donations (service.db s) ->
  5000 <= service.Amount params <= 100000000 ->
  postgres.check_donation k (service.db s) (new_donation now donID params) = None ->
  let don := new_donation now donID params in
  let s1 := service.with_db s
              (postgres.with_donations (service.db s)
                 (postgres.donations (service.db s) ++ [don])) in
  service.CreateDonation k prov now donID payID s params =
    match provider.CreatePayment prov (payment_request prov now payID params) with
    | Err e =>
        (service.with_db s
           (postgres.with_donations (service.db s)
              (postgres.donations (service.db s)
                 ++ [postgres.DonationRepository.update_row now
                       (donation.MarkAsFailed now don) don])),
         Err ("failed to create payment: " +:+ e))
    | Ok resp =>
        let pay := new_payment prov now donID payID params resp in
        match postgres.check_payment k (service.db s1) pay with
        | Some e =>
            (s1, Err ("failed to save payment: " +:+ ("failed to create payment: " +:+ e)))
        | None =>
            (service.log service.Info "donation created"
               (service.with_db s1
                  (postgres.with_payments (service.db s1)
                     (postgres.payments (service.db s) ++ [pay]))),
             Ok (don, pay))
        end
    end.
Proof.
  intros Hfresh [Hlo Hhi] Hadm. cbv zeta.
  unfold service.CreateDonation.
  destruct (Z.ltb_spec (service.Amount params) 5000); [lia|].
  destruct (Z.ltb_spec 100000000 (service.Amount params)); [lia|].
  fold (new_donation now donID params).
  unfold postgres.DonationRepository.Create. rewrite Hadm. proj.
  change (payment.GenerateOrderID
            (payment.NewPayment now payID (donation.ID (new_donation now donID params))
               (provider.GetName prov) (service.PaymentMethod params)
               (service.Amount params) (now + 24 * Hour)))
    with (provider.OrderID (payment_request prov now payID params)).
  change {| provider.OrderID := provider.OrderID (payment_request prov now payID params);
            provider.Amount := service.Amount params;
            provider.PaymentMethod := service.PaymentMethod params;
            provider.CustomerName := service.DonorName params;
            provider.CustomerEmail := service.DonorEmail params;
            provider.Description := "Donation from " +:+ service.DonorName params;
            provider.CallbackURL := "";
            provider.ExpiryTime := now + 24 * Hour |}
    with (payment_request prov now payID params).
  destruct (provider.CreatePayment prov (payment_request prov now payID params))
    as [resp|e].
  - fold (new_payment prov now donID payID params resp).
    unfold postgres.PaymentRepository.Create.
    destruct (postgres.check_payment k _ _) as [e|]; reflexivity.
  - f_equal.
    set (don := new_donation now donID params).
    set (failed := donation.MarkAsFailed now don).
    assert (Hid : donation.ID failed = donID) by reflexivity.
    assert (Hrow : List.find (donation_by_id (donation.ID failed))
                     (postgres.donations (service.db s) ++ [don]) = Some don).
    { rewrite find_app_None by (rewrite Hid; by apply find_donation_fresh).
      cbn [List.find]. unfold donation_by_id. by rewrite Hid, N.eqb_refl. }
    rewrite (DonationUpdate_found now _ failed don) by exact Hrow.
    cbn [fst postgres.with_donations postgres.donations postgres.payments
         postgres.webhook_logs].
    f_equal. unfold postgres.with_donations. f_equal.
    rewrite donations_updated_app, donations_updated_fresh by (by rewrite Hid).
    cbn [donations_updated map]. by rewrite Hid, N.eqb_refl.
Qed.

(** X16. What [CreateDonation] can leave behind, for every provider and
    every set of database constraints, the new donation id being unused:
    Redis is never touched. On success exactly the returned donation and
    the returned payment are inserted; the donation is pending, has a
    non-empty donor name and an amount between 5000 and 100000000, and the
    payment is pending, unpaid, of the same amount and refers to that
    donation. On an error no payment row is inserted; the database is
    unchanged, or it has gained the donation alone, pending (the payment
    could not be saved) or failed (the provider refused). *)
Theorem CreateDonation_outcomes (k : postgres.Constraints) (prov : provider.Provider)
    (now : Z) (donID payID : N) (s : service.World)
    (params : service.CreateDonationParams) :
  donID ∉ donation.ID <$> postgres.donations (service.db s) ->
  let res := service.CreateDonation k prov now donID payID s params in
  let db' := service.db res.1 in
  service.rds res.1 = service.rds s /\
  match res.2 with
  | Ok (don, pay) =>
      postgres.donations db' = postgres.donations (service.db s) ++ [don] /\
      postgres.payments db' = postgres.payments (service.db s) ++ [pay] /\
      donation.ID don = donID /\
      5000 <= donation.Amount don <= 100000000 /\
      donation.DonorName don <> ""%string /\
      donation.Status_ don = donation.StatusPending /\
      payment.DonationID pay = donID /\
      payment.Amount pay = donation.Amount don /\
      payment.Status_ pay = payment.StatusPending /\
      payment.PaidAt pay = None
  | Err _ =>
      postgres.payments db' = postgres.payments (service.db s) /\
      (postgres.donations db' = postgres.donations (service.db s) \/
       exists d, postgres.donations db' = postgres.donations (service.db s) ++ [d] /\
                 donation.ID d = donID /\
                 5000 <= donation.Amount d <= 100000000 /\
                 (donation.Status_ d = donation.StatusPending \/
                  donation.Status_ d = donation.StatusFailed))
  end.
Proof.
  intros Hfresh. cbv zeta.
  destruct (Z.ltb_spec (service.Amount params) 5000) as [Hlo|Hlo].
  { unfold service.CreateDonation. apply Z.ltb_lt in Hlo. rewrite Hlo. cbn. auto. }
  destruct (Z.ltb_spec 100000000 (service.Amount params)) as [Hhi|Hhi].
  { unfold service.CreateDonation. apply Z.ltb_lt in Hhi. apply Z.ltb_ge in Hlo.
    rewrite Hlo, Hhi. cbn. auto. }
  destruct (postgres.check_donation k (service.db s) (new_donation now donID params))
    as [e|] eqn:Hadm.
  { unfold service.CreateDonation. apply Z.ltb_ge in Hlo, Hhi. rewrite Hlo, Hhi.
    fold (new_donation now donID params).
    unfold postgres.DonationRepository.Create. rewrite Hadm. cbn. auto. }
  rewrite (CreateDonation_run k prov now donID payID s params Hfresh) by (done || lia).
  destruct (provider.CreatePayment prov _) as [resp|e].
  - cbv zeta. destruct (postgres.check_payment k _ _) as [e|]; cbn [fst snd]; proj.
    + split; [done|]. split; [done|]. right. eexists. split; [reflexivity|].
      cbn. split_and!; auto; lia.
    + split; [done|]. cbn. split_and!; try done; try lia.
      by destruct (String.eqb_spec (service.DonorName params) "").
  - cbn [fst snd]. proj. split; [done|]. split; [done|]. right.
    eexists. split; [reflexivity|]. cbn. split_and!; auto; lia.
Qed.

Lemma CreateDonation_outcomes_witness :
  let res := service.CreateDonation schema down 1000 10 1 empty_world demo_request in
  let db' := service.db res.1 in
  service.rds res.1 = service.rds empty_world /\
  match res.2 with
  | Ok (don, pay) =>
      postgres.donations db' = postgres.donations (service.db empty_world) ++ [don] /\
      postgres.payments db' = postgres.payments (service.db empty_world) ++ [pay] /\
      donation.ID don = 10%N /\
      5000 <= donation.Amount don <= 100000000 /\
      donation.DonorName don <> ""%string /\
      donation.Status_ don = donation.StatusPending /\
      payment.DonationID pay = 10%N /\
      payment.Amount pay = donation.Amount don /\
      payment.Status_ pay = payment.StatusPending /\
      payment.PaidAt pay = None
  | Err _ =>
      postgres.payments db' = postgres.payments (service.db empty_world) /\
      (postgres.donations db' = postgres.donations (service.db empty_world) \/
       exists d, postgres.donations db'
                   = postgres.donations (service.db empty_world) ++ [d] /\
                 donation.ID d = 10%N /\
                 5000 <= donation.Amount d <= 100000000 /\
                 (donation.Status_ d = donation.StatusPending \/
                  donation.Status_ d = donation.StatusFailed))
  end.
Proof.
  apply (CreateDonation_outcomes schema down 1000 10 1 empty_world demo_request).
  cbn. apply not_elem_of_nil.
Defined.

Lemma Provider_eqb_refl (p : payment.Provider) : payment.Provider_eqb p p = true.
Proof. by destruct p. Qed.

(** X17. From the donation form to the overlay: when [CreateDonation]
    succeeds (with a new donation id and an order id no stored payment of
    that provider carries), a paid webhook of that provider for the stored
    order id, arriving with Redis reachable and its idempotency key free,
    completes that donation and publishes one event with its id, the donor
    name given in the request ([Anonymous] when it was empty), the message
    and the amount of the request. *)
Theorem created_donation_completes_on_paid_webhook
    (k : postgres.Constraints) (prov : provider.Provider) (now now' : Z)
    (donID payID : N) (s s1 : service.World) (params : service.CreateDonationParams)
    (don : donation.Donation) (pay : payment.Payment) (tx : string) :
  let webhook := {| service.Provider := provider.GetName prov;
                    service.OrderID := payment.ExternalID pay;
                    service.TransactionID := tx;
                    service.Status := payment.StatusPaid |} in
  donID ∉ donation.ID <$> postgres.donations (service.db s) ->
  service.CreateDonation k prov now donID payID s params = (s1, Ok (don, pay)) ->
  postgres.PaymentRepository.GetByExternalID (service.db s) (provider.GetName prov)
    (payment.ExternalID pay) = Err "payment not found" ->
  redis.reachable (service.rds s) = true ->
  redis.live now' (redis.keys (service.rds s)) (key_of webhook) = false ->
  exists s2 pay' don',
    service.ProcessWebhook now' s1 webhook = (s2, None) /\
    postgres.PaymentRepository.GetByID (service.db s2) (payment.ID pay) = Ok pay' /\
    payment.Status_ pay' = payment.StatusPaid /\
    postgres.DonationRepository.GetByID (service.db s2) donID = Ok don' /\
    donation.Status_ don' = donation.StatusCompleted /\
    donation.PaidAt don' = Some now' /\
    redis.published (service.rds s2) =
      redis.published (service.rds s) ++
        [("donations:new"%string,
          redis.NewDonationEvent (uuid.String donID)
            (if String.eqb (service.DonorName params) "" then "Anonymous"
             else service.DonorName params)
            (service.Message params) (service.Amount params) now')].
Proof.
  intros webhook Hfresh Hrun Hnew Hup Hfree.
  assert (Hshape : exists resp,
    don = new_donation now donID params /\
    pay = new_payment prov now donID payID params resp /\
    service.db s1 =
      postgres.with_payments
        (postgres.with_donations (service.db s)
           (postgres.donations (service.db s) ++ [don]))
        (postgres.payments (service.db s) ++ [pay]) /\
    service.rds s1 = service.rds s).
  { destruct (Z.ltb_spec (service.Amount params) 5000) as [Hlo|Hlo].
    { unfold service.CreateDonation in Hrun. apply Z.ltb_lt in Hlo.
      rewrite Hlo in Hrun. discriminate Hrun. }
    destruct (Z.ltb_spec 100000000 (service.Amount params)) as [Hhi|Hhi].
    { unfold service.CreateDonation in Hrun. apply Z.ltb_lt in Hhi.
      apply Z.ltb_ge in Hlo. rewrite Hlo, Hhi in Hrun. discriminate Hrun. }
    destruct (postgres.check_donation k (service.db s) (new_donation now donID params))
      as [e|] eqn:Hadm.
    { unfold service.CreateDonation in Hrun. apply Z.ltb_ge in Hlo, Hhi.
      rewrite Hlo, Hhi in Hrun. fold (new_donation now donID params) in Hrun.
      unfold postgres.DonationRepository.Create in Hrun. rewrite Hadm in Hrun.
      discriminate Hrun. }
    rewrite (CreateDonation_run k prov now donID payID s params Hfresh) in Hrun
      by (done || lia).
    destruct (provider.CreatePayment prov _) as [resp|e]; [|discriminate Hrun].
    cbv zeta in Hrun.
    destruct (postgres.check_payment k _ _) as [e|]; [discriminate Hrun|].
    injection Hrun as <- <- <-. exists resp. done. }
  destruct Hshape as (resp & Hdon & Hpay & Hdb & Hrds).
  assert (Hpid : payment.DonationID pay = donID) by (by rewrite Hpay).
  assert (Hfind : postgres.PaymentRepository.GetByExternalID (service.db s1)
                    (service.Provider webhook) (service.OrderID webhook) = Ok pay).
  { unfold postgres.PaymentRepository.GetByExternalID in *. rewrite Hdb.
    cbn [postgres.with_payments postgres.payments webhook service.Provider
         service.OrderID].
    destruct (List.find _ (postgres.payments (service.db s))) eqn:Hold;
      [discriminate Hnew|].
    rewrite (find_app_None _ _ _ Hold). cbn [List.find].
    assert (Hprov : payment.Provider_ pay = provider.GetName prov)
      by (by rewrite Hpay).
    by rewrite Hprov, Provider_eqb_refl, String.eqb_refl. }
  assert (Hget : postgres.DonationRepository.GetByID (service.db s1)
                   (payment.DonationID pay) = Ok don).
  { unfold postgres.DonationRepository.GetByID. rewrite Hdb, Hpid.
    cbn [postgres.with_payments postgres.with_donations postgres.donations].
    fold (donation_by_id donID).
    rewrite find_app_None by (by apply find_donation_fresh).
    cbn [List.find]. unfold donation_by_id. rewrite Hdon.
    cbn [new_donation donation.NewDonation donation.ID]. by rewrite N.eqb_refl. }
  assert (Hunpaid : payment.IsPaid pay = false) by (by rewrite Hpay).
  rewrite (ProcessWebhook_paid_path now' s1 webhook pay don)
    by (rewrite ?Hrds; done).
  destruct (paid_result_reads now' s1 webhook pay don Hfind Hget)
    as (pay' & don' & Hp1 & Hp2 & _ & Hd1 & Hd2 & Hd3 & Hpub & _).
  exists (paid_result now' s1 webhook pay don), pay', don'.
  rewrite Hpid in Hd1, Hpub. rewrite Hrds in Hpub.
  split_and!; try done.
  rewrite Hpub, Hdon. reflexivity.
Qed.

Lemma created_donation_completes_on_paid_webhook_witness :
  let res := service.CreateDonation schema echo 1000 10 1 empty_world demo_request in
  exists s2 pay' don',
    service.ProcessWebhook 5000 res.1
      {| service.Provider := payment.ProviderMidtrans;
         service.OrderID := "DONATION-00000000";
         service.TransactionID := "tx-1";
         service.Status := payment.StatusPaid |} = (s2, None) /\
    postgres.PaymentRepository.GetByID (service.db s2) 1 = Ok pay' /\
    payment.Status_ pay' = payment.StatusPaid /\
    postgres.DonationRepository.GetByID (service.db s2) 10 = Ok don' /\
    donation.Status_ don' = donation.StatusCompleted /\
    donation.PaidAt don' = Some 5000 /\
    redis.published (service.rds s2) =
      redis.published (service.rds empty_world) ++
        [("donations:new"%string,
          redis.NewDonationEvent (uuid.String 10) "Anonymous" "semangat" 25000 5000)].
Proof.
  cbv zeta.
  refine (created_donation_completes_on_paid_webhook schema echo 1000 5000 10 1
            empty_world _ demo_request
            (new_donation 1000 10 demo_request)
            (new_payment echo 1000 10 1 demo_request
               {| provider.ExternalID := "DONATION-00000000";
                  provider.TransactionID := "tx-1";
                  provider.r_PaymentMethod := "qris";
                  provider.QRCodeURL := "https://qr.example/1";
                  provider.VANumber := "";
                  provider.DeepLink := "";
                  provider.ExpiresAt := 1000 + 24 * Hour |})
            "tx-1" _ _ _ _ _).
  - cbn. apply not_elem_of_nil.
  - vm_compute. reflexivity.
  - reflexivity.
  - reflexivity.
  - reflexivity.
Defined.


(** ** The simulation endpoint *)






(** ** The hub: registering, counting and answering *)

Lemma total_insert_fresh (cs : gmap string (gset N)) (ch : string) (members : gset N) :
  cs !! ch = None -> total (<[ch := members]> cs) = (total cs + size members)%nat.
Proof.
  intros Hch. unfold total. rewrite map_fold_insert_L; [done| |done].
  intros. lia.
Qed.

Lemma total_insert (cs : gmap string (gset N)) (ch : string) (old members : gset N) :
  cs !! ch = Some old ->
  (total (<[ch := members]> cs) + size old = total cs + size members)%nat.
Proof.
  intros Hch. rewrite <- (insert_delete_id cs ch old Hch) at 2.
  rewrite <- (insert_delete_eq cs).
  rewrite !total_insert_fresh by apply lookup_delete_eq. lia.
Qed.

(** X19. Registering and unregistering undo each other. For a well-formed
    hub and a client with an open queue that is not registered:
    [registerClient] adds it to its channel, so [GetClientCount] of that
    channel and the total of [GetStats] grow by one; registering it again
    changes nothing; [unregisterClient] then closes its queue and restores
    the registry and the statistics exactly, the channel entry being
    removed when the client was its only member. *)
Theorem register_unregister_round_trip (h : websocket.Hub) (client : N)
    (c : websocket.Client) :
  websocket.wf h ->
  websocket.mem h !! client = Some c ->
  websocket.closed (websocket.send c) = false ->
  (forall members, websocket.clients h !! websocket.channel c = Some members ->
                   client ∉ members) ->
  exists h1 h2 c2,
    websocket.registerClient h client = Done h1 /\
    websocket.GetClientCount h1 (websocket.channel c)
      = S (websocket.GetClientCount h (websocket.channel c)) /\
    websocket.total_clients (websocket.GetStats h1)
      = S (websocket.total_clients (websocket.GetStats h)) /\
    websocket.registerClient h1 client = Done h1 /\
    websocket.unregisterClient h1 client = Done h2 /\
    websocket.clients h2 = websocket.clients h /\
    websocket.GetStats h2 = websocket.GetStats h /\
    websocket.mem h2 !! client = Some c2 /\
    websocket.closed (websocket.send c2) = true.
Proof.
  intros Hwf Hc Hopen Hout.
  set (ch := websocket.channel c) in *.
  set (old := default ∅ (websocket.clients h !! ch)).
  assert (Hnew : client ∉ old).
  { unfold old. destruct (websocket.clients h !! ch) as [ms|] eqn:Hch; cbn;
      [by apply Hout|set_solver]. }
  set (h1 := websocket.with_clients h (<[ch := old ∪ {[client]}]> (websocket.clients h))).
  assert (Hreg : websocket.registerClient h client = Done h1).
  { unfold websocket.registerClient. by rewrite Hc. }
  assert (Hsize : size (old ∪ {[client]}) = S (size old)).
  { rewrite size_union by set_solver. rewrite size_singleton. lia. }
  assert (Hback : (old ∪ {[client]}) ∖ {[client]} = old) by set_solver.
  set (c2 := websocket.with_send c
               {| websocket.buf := websocket.buf (websocket.send c);
                  websocket.cap := websocket.cap (websocket.send c);
                  websocket.closed := true |}).
  assert (Hcl : (if (size old =? 0)%nat
                 then delete ch (<[ch := old ∪ {[client]}]> (websocket.clients h))
                 else <[ch := old]> (<[ch := old ∪ {[client]}]> (websocket.clients h)))
                = websocket.clients h).
  { unfold old in *. destruct (websocket.clients h !! ch) as [ms|] eqn:Hch; cbn in *.
    - destruct (Hwf ch ms Hch) as [Hne _].
      destruct (Nat.eqb_spec (size ms) 0) as [Hz|_].
      + apply size_empty_iff in Hz. destruct Hne. by apply leibniz_equiv.
      + rewrite insert_insert_eq. by apply insert_id.
    - rewrite size_empty. cbn. by apply delete_insert_id. }
  exists h1,
    (websocket.with_clients
       (websocket.with_mem h1 (<[client := c2]> (websocket.mem h)))
       (websocket.clients h)), c2.
  split_and!.
  - exact Hreg.
  - unfold websocket.GetClientCount, h1. cbn [websocket.with_clients websocket.clients].
    rewrite lookup_insert_eq, Hsize. unfold old.
    destruct (websocket.clients h !! ch); cbn; [done|by rewrite size_empty].
  - unfold websocket.GetStats, h1.
    cbn [websocket.total_clients websocket.with_clients websocket.clients].
    fold (total (<[ch := old ∪ {[client]}]> (websocket.clients h))).
    fold (total (websocket.clients h)). unfold old in *.
    destruct (websocket.clients h !! ch) as [ms|] eqn:Hch; cbn in *.
    + pose proof (total_insert _ ch ms (ms ∪ {[client]}) Hch). lia.
    + rewrite total_insert_fresh by done. rewrite Hsize, size_empty. lia.
  - unfold websocket.registerClient, h1.
    cbn [websocket.with_clients websocket.clients websocket.mem].
    rewrite Hc. fold ch. rewrite lookup_insert_eq. cbn [default]. f_equal.
    unfold websocket.with_clients. cbn. f_equal.
    rewrite insert_insert_eq. f_equal. set_solver.
  - unfold websocket.unregisterClient, h1.
    cbn [websocket.with_clients websocket.clients websocket.mem].
    rewrite Hc. fold ch. rewrite lookup_insert_eq.
    rewrite decide_True by set_solver. rewrite Hopen, Hback.
    cbn [websocket.with_mem websocket.with_clients websocket.clients websocket.mem
         websocket.register websocket.unregister websocket.broadcast].
    fold c2. revert Hcl. destruct (size old =? 0)%nat; intros Hcl;
      unfold websocket.with_clients, websocket.with_mem; cbn; by rewrite Hcl.
  - reflexivity.
  - reflexivity.
  - cbn. by rewrite lookup_insert_eq.
  - reflexivity.
Qed.

Lemma wf_lobby : websocket.wf lobby.
Proof. intros ch members H. cbn in H. by rewrite lookup_empty in H. Qed.

Lemma register_unregister_round_trip_witness :
  exists h1 h2 c2,
    websocket.registerClient lobby 7 = Done h1 /\
    websocket.GetClientCount h1 "overlay:0123456789abcdef0123456789abcdef"
      = S (websocket.GetClientCount lobby "overlay:0123456789abcdef0123456789abcdef") /\
    websocket.total_clients (websocket.GetStats h1)
      = S (websocket.total_clients (websocket.GetStats lobby)) /\
    websocket.registerClient h1 7 = Done h1 /\
    websocket.unregisterClient h1 7 = Done h2 /\
    websocket.clients h2 = websocket.clients lobby /\
    websocket.GetStats h2 = websocket.GetStats lobby /\
    websocket.mem h2 !! 7%N = Some c2 /\
    websocket.closed (websocket.send c2) = true.
Proof.
  apply (register_unregister_round_trip lobby 7
           (websocket.NewClient "c-7" "overlay:0123456789abcdef0123456789abcdef"
              "overlay" "0123456789abcdef0123456789abcdef")).
  - exact wf_lobby.
  - reflexivity.
  - reflexivity.
  - intros members H. cbn in H. by rewrite lookup_empty in H.
Defined.

(** X20. Once the hub has unregistered a client (on its own request, or
    after a broadcast found its queue full) the queue is closed, and any
    frame of that client that [handleMessage] answers (a ping, a subscribe
    or a frame that does not decode) makes [sendJSON] send on the closed
    queue, which panics; a frame of any other type is ignored. *)
Theorem answer_after_unregister_panics (now : Z) (h : websocket.Hub) (client : N)
    (c : websocket.Client) (members : gset N) (msg : option string) :
  websocket.wf h ->
  websocket.mem h !! client = Some c ->
  websocket.clients h !! websocket.channel c = Some members ->
  client ∈ members ->
  exists h',
    websocket.unregisterClient h client = Done h' /\
    websocket.handleMessage now h' client msg
      = if answered msg then Panic else Done h'.
Proof.
  intros Hwf Hc Hch Hin.
  destruct (wf_member h _ members client Hwf Hch Hin) as (c' & Hc' & _ & Hopen).
  assert (c' = c) as -> by congruence.
  rewrite (unregisterClient_member h client c members Hc Hch Hin Hopen).
  eexists. split; [reflexivity|].
  assert (Hsend : forall m, websocket.sendJSON (unregistered h client c members) client m
                            = Panic).
  { intros m. unfold websocket.sendJSON, unregistered.
    cbn [websocket.with_clients websocket.with_mem websocket.mem].
    by rewrite lookup_insert_eq. }
  unfold websocket.handleMessage, answered, websocket.sendError, websocket.sendPong,
    websocket.sendAck.
  destruct msg as [ty|]; [|apply Hsend].
  destruct (String.eqb ty "ping"); [apply Hsend|].
  destruct (String.eqb ty "subscribe"); [apply Hsend|reflexivity].
Qed.

Lemma answer_after_unregister_panics_witness :
  exists h',
    websocket.unregisterClient (demo_hub []) 2 = Done h' /\
    websocket.handleMessage 9000 h' 2 (Some "ping"%string)
      = if answered (Some "ping"%string) then Panic else Done h'.
Proof.
  apply (answer_after_unregister_panics 9000 (demo_hub []) 2 (stalled "c2")
           {[1%N; 2%N; 3%N]} (Some "ping"%string)).
  - apply wf_demo_hub.
  - apply demo_mem.
  - apply demo_clients.
  - set_solver.
Defined.

(** ** The hub: from the overlay handshake to the donation fan-out *)

Lemma is_overlay_token (token : string) :
  token <> ""%string -> is_overlay ("overlay:" +:+ token) = true.
Proof.
  intros Hne. unfold is_overlay. destruct token as [|a token]; [done|].
  reflexivity.
Qed.

(** With room for one request per channel, the fan-out returns and has
    queued a request for every overlay channel it visited. *)
Lemma fanout_room (data : websocket.OutgoingMessage) (order : list string) :
  forall h : websocket.Hub,
  (length (websocket.broadcast h) + length order <= websocket.hubBufferSize)%nat ->
  exists h',
    websocket.fanout data order h = Done h' /\
    (forall m, m ∈ websocket.broadcast h -> m ∈ websocket.broadcast h') /\
    forall ch, ch ∈ order -> is_overlay ch = true ->
      {| websocket.Channel := ch; websocket.Message := data |} ∈ websocket.broadcast h'.
Proof.
  induction order as [|channel order IH]; intros h Hroom.
  - exists h. split_and!; [done|done|]. intros ch Hch. by apply elem_of_nil in Hch.
  - cbn [websocket.fanout length] in *. fold (is_overlay channel).
    destruct (is_overlay channel) eqn:Hov.
    + destruct (Nat.ltb_spec (length (websocket.broadcast h)) websocket.hubBufferSize)
        as [_|Hfull]; [|lia].
      destruct (IH (websocket.with_broadcast h
                      (websocket.broadcast h ++
                         [{| websocket.Channel := channel;
                             websocket.Message := data |}])))
        as (h' & Hrun & Hkeep & Hnew).
      { cbn. rewrite length_app. cbn. lia. }
      exists h'. split_and!; [done| |].
      * intros m Hm. apply Hkeep. cbn. apply elem_of_app. by left.
      * intros ch Hch Hch'. apply elem_of_cons in Hch as [->|Hch]; [|by apply Hnew].
        apply Hkeep. cbn. apply elem_of_app. right. apply list_elem_of_here.
    + destruct (IH h) as (h' & Hrun & Hkeep & Hnew); [lia|].
      exists h'. split_and!; [done|done|].
      intros ch Hch Hch'. apply elem_of_cons in Hch as [->|Hch]; [congruence|].
      by apply Hnew.
Qed.

(** X21. An overlay that connects with a token [ValidateOverlayToken]
    accepts is reached by the donation fan-out. With the connection
    upgraded, a free address and room on the register channel,
    [HandleOverlay] writes no HTTP error, creates the client on the channel
    [overlay:<token>] with the welcome message first in its open queue and
    queues its registration; and [BroadcastDonation], at any later time and
    in any hub that has room on the broadcast channel for the channels it
    visits, queues that donation for that channel. *)
Theorem overlay_is_reached_by_fanout (now : Z) (h : websocket.Hub) (token : string)
    (client : N) (newID : string) :
  (middleware.ValidateOverlayToken token).1 = true ->
  websocket.mem h !! client = None ->
  (length (websocket.register h) < websocket.hubBufferSize)%nat ->
  exists h1 c welcome,
    websocket.HandleOverlay now h token true client newID = (None, Done h1) /\
    websocket.mem h1 !! client = Some c /\
    websocket.channel c = ("overlay:" +:+ token)%string /\
    websocket.buf (websocket.send c) = [welcome] /\
    websocket.Type_ welcome = "welcome"%string /\
    websocket.closed (websocket.send c) = false /\
    websocket.register h1 = websocket.register h ++ [client] /\
    websocket.clients h1 = websocket.clients h /\
    forall (now' : Z) (order : list string) (h2 : websocket.Hub)
           (event : redis.DonationEvent),
      websocket.channel c ∈ order ->
      (length (websocket.broadcast h2) + length order <= websocket.hubBufferSize)%nat ->
      exists h3 m,
        websocket.BroadcastDonation now' order h2 event = Done h3 /\
        m ∈ websocket.broadcast h3 /\
        websocket.Channel m = websocket.channel c /\
        websocket.Type_ (websocket.Message m) = "donation"%string /\
        websocket.Data (websocket.Message m) !! "amount"
          = Some (VInt (redis.Amount event)).
Proof.
  intros Hvalid Hfresh Hroom.
  assert (Hlen : (32 <=? String.length token)%nat = true).
  { unfold middleware.ValidateOverlayToken in Hvalid.
    by destruct (32 <=? String.length token)%nat. }
  assert (Hne : token <> ""%string).
  { intros ->. discriminate Hlen. }
  unfold websocket.HandleOverlay, middleware.ValidateOverlayToken.
  destruct (String.eqb_spec token "") as [|_]; [done|].
  rewrite Hlen. cbn [orb negb].
  cbn [websocket.with_mem websocket.register].
  apply Nat.ltb_lt in Hroom. rewrite Hroom.
  unfold websocket.SendWelcome, websocket.sendJSON.
  cbn [websocket.with_register websocket.with_mem websocket.mem].
  rewrite lookup_insert_eq.
  cbn [websocket.NewClient websocket.send websocket.closed websocket.make
       websocket.full websocket.cap websocket.buf length Nat.leb
       websocket.sendBufferSize negb].
  eexists _, _, _. split; [reflexivity|].
  cbn [websocket.with_register websocket.with_mem websocket.mem websocket.register
       websocket.clients].
  rewrite lookup_insert_eq.
  split_and!; try reflexivity.
  intros now' order h2 event Hin Hroom2.
  unfold websocket.BroadcastDonation.
  match goal with
  | |- context [websocket.fanout ?data order h2] =>
      destruct (fanout_room data order h2 Hroom2) as (h3 & Hrun & _ & Hnew);
      exists h3, {| websocket.Channel := ("overlay:" +:+ token)%string;
                    websocket.Message := data |}
  end.
  split_and!; [exact Hrun| |reflexivity|reflexivity|].
  - apply Hnew; [exact Hin|by apply is_overlay_token].
  - cbn [websocket.Data websocket.Message].
    rewrite !lookup_insert_ne by done. apply lookup_insert_eq.
Qed.

Lemma overlay_is_reached_by_fanout_witness :
  let token := "0123456789abcdef0123456789abcdef"%string in
  exists h1 c welcome,
    websocket.HandleOverlay 1000 websocket.NewHub token true 7 "c-7" = (None, Done h1) /\
    websocket.mem h1 !! 7%N = Some c /\
    websocket.channel c = ("overlay:" +:+ token)%string /\
    websocket.buf (websocket.send c) = [welcome] /\
    websocket.Type_ welcome = "welcome"%string /\
    websocket.closed (websocket.send c) = false /\
    websocket.register h1 = websocket.register websocket.NewHub ++ [7%N] /\
    websocket.clients h1 = websocket.clients websocket.NewHub /\
    forall (now' : Z) (order : list string) (h2 : websocket.Hub)
           (event : redis.DonationEvent),
      websocket.channel c ∈ order ->
      (length (websocket.broadcast h2) + length order <= websocket.hubBufferSize)%nat ->
      exists h3 m,
        websocket.BroadcastDonation now' order h2 event = Done h3 /\
        m ∈ websocket.broadcast h3 /\
        websocket.Channel m = websocket.channel c /\
        websocket.Type_ (websocket.Message m) = "donation"%string /\
        websocket.Data (websocket.Message m) !! "amount"
          = Some (VInt (redis.Amount event)).
Proof.
  cbv zeta.
  apply (overlay_is_reached_by_fanout 1000 websocket.NewHub
           "0123456789abcdef0123456789abcdef" 7 "c-7").
  - reflexivity.
  - reflexivity.
  - cbn. unfold websocket.hubBufferSize. lia.
Defined.


(** ** The provider endpoints of the server *)

Lemma receive_frame (cfg : config.Config) (s : service.World) (d : delivery) :
  service.db (receive cfg s d) = service.db s /\
  service.rds (receive cfg s d) = service.rds s.
Proof.
  destruct d as [now r|now r]; cbn [receive].
  - unfold handler.HandleMidtrans.
    destruct (handler.Body r) as [|raw decoded]; by destruct s.
  - unfold handler.HandleXendit.
    destruct (negb _); [by destruct s|].
    destruct (handler.Body r) as [|raw decoded]; by destruct s.
Qed.

(** X22. The provider endpoints of the server change nothing. The server
    builds the webhook handler with a nil audit-log repository, so a request
    to [HandleMidtrans] or [HandleXendit] is turned away (400, 401) or ends
    in the panic of [logWebhook] before [ProcessWebhook] is called. Through
    any sequence of such requests, whatever they carry, the database (the
    payments, the donations and the audit log) and Redis (the idempotency
    keys and the published events) are what they were: no payment changes
    its status, no event is published and no audit row is stored. *)
Theorem provider_endpoints_change_nothing (cfg : config.Config)
    (deliveries : list delivery) (s : service.World) :
  service.db (foldl (receive cfg) s deliveries) = service.db s /\
  service.rds (foldl (receive cfg) s deliveries) = service.rds s.
Proof.
  revert s. induction deliveries as [|d rest IH]; intros s; [done|].
  cbn [foldl]. destruct (IH (receive cfg s d)) as [-> ->].
  apply receive_frame.
Qed.

(** ** The status tables of the handler and of the provider packages *)

(** X23. The webhook handler and the provider packages each carry a table
    from provider statuses to payment statuses. The two agree on every
    input but these: Xendit's [COMPLETED] is paid for the handler and
    pending for the provider package, and a Midtrans [capture] whose fraud
    status is neither [accept] nor empty is pending for the handler and
    paid for the provider package, which does not look at the fraud status. *)
Theorem handler_and_provider_tables (status fraudStatus : string) :
  (handler.mapXenditStatus status <> xendit.webhook_status status <->
     status = "COMPLETED"%string) /\
  (handler.mapMidtransStatus status fraudStatus <> midtrans.webhook_status status <->
     status = "capture"%string /\ fraudStatus <> "accept"%string
     /\ fraudStatus <> ""%string).
Proof.
  split.
  - unfold handler.mapXenditStatus, xendit.webhook_status.
    case_strings; split; intros H; try done; try (by destruct H).
  - unfold handler.mapMidtransStatus, midtrans.webhook_status.
    case_strings; split; intros H; try done; try (by destruct H);
      try (destruct H as (? & ? & ?); done).
Qed.


(** ** CORS: the preflight answer *)

Lemma string_of_uint_head (d : Decimal.uint) :
  d <> Decimal.Nil ->
  exists c s, NilZero.string_of_uint d = String c s /\ is_digit c = true.
Proof.
  destruct d; intros H; try done; cbn; eauto.
Qed.

Lemma FormatInt_head (n : Z) :
  0 < n -> exists c s, redis.FormatInt n = String c s /\ is_digit c = true.
Proof.
  destruct n as [|p|p]; try lia. intros _. unfold redis.FormatInt. cbn.
  apply string_of_uint_head, DecimalPos.Unsigned.to_uint_nonnil.
Qed.

Lemma byte_value (z : Z) : 0 <= z < 256 -> N_of_ascii (middleware.byte z) = Z.to_N z.
Proof.
  intros Hz. unfold middleware.byte. apply N_ascii_embedding. lia.
Qed.

Lemma byte_not_digit (z : Z) (s : string) :
  0 <= z < 48 \/ 57 < z < 256 -> is_digit (middleware.byte z) = false.
Proof.
  intros Hz. unfold is_digit. rewrite byte_value by lia.
  destruct (N.leb_spec 48 (Z.to_N z)), (N.leb_spec (Z.to_N z) 57); try done; lia.
Qed.

(** The text Go makes of [string(rune(n))] is never the decimal text of
    [n]. *)
Lemma string_of_rune_not_decimal (n : Z) :
  0 < n -> middleware.string_of_rune (middleware.rune n) <> redis.FormatInt n.
Proof.
  intros Hn He.
  destruct (FormatInt_head n Hn) as (c & s & Hf & Hc).
  rewrite Hf in He. unfold middleware.string_of_rune in He.
  set (r := middleware.rune n) in *.
  assert (Hnd : forall z t, 0 <= z < 48 \/ 57 < z < 256 ->
                String (middleware.byte z) t <> String c s).
  { intros z t Hz [= Hb _]. rewrite <- Hb, (byte_not_digit z t Hz) in Hc.
    discriminate Hc. }
  destruct ((r <? 0) || (1114111 <? r) || ((55296 <=? r) && (r <=? 57343))) eqn:Hbad.
  { revert He. apply Hnd. lia. }
  apply orb_false_iff in Hbad as [Hbad _]. apply orb_false_iff in Hbad as [Hlo Hhi].
  apply Z.ltb_ge in Hlo, Hhi.
  destruct (Z.ltb_spec r 128) as [H1|H1].
  - destruct (decide (48 <= r <= 57)) as [Hd|Hd];
      [|revert He; apply Hnd; lia].
    injection He as Hb Hs. subst s.
    assert (Hsmall : exists k, 0 <= k <= 9 /\ r = 48 + k) by (exists (r - 48); lia).
    destruct Hsmall as (k & Hk & Hr).
    assert (Hfk : redis.FormatInt n = redis.FormatInt k).
    { rewrite Hf, <- Hb, Hr.
      assert (k = 0 \/ k = 1 \/ k = 2 \/ k = 3 \/ k = 4 \/ k = 5 \/ k = 6 \/ k = 7
              \/ k = 8 \/ k = 9) as Hcase by lia.
      repeat destruct Hcase as [->|Hcase]; try reflexivity. subst k. reflexivity. }
    apply FormatInt_inj in Hfk. subst n.
    assert (Hrk : middleware.rune k = k).
    { unfold middleware.rune. rewrite Z.mod_small; lia. }
    unfold r in Hr. lia.
  - destruct (Z.ltb_spec r 2048) as [H2|H2].
    { revert He. apply Hnd.
      pose proof (Z.div_pos r 64). pose proof (Z.div_lt_upper_bound r 64 32).
      pose proof (Z.div_le_lower_bound r 64 2). lia. }
    destruct (Z.ltb_spec r 65536) as [H3|H3].
    { revert He. apply Hnd.
      pose proof (Z.div_lt_upper_bound r 4096 16).
      pose proof (Z.div_le_lower_bound r 4096 0). lia. }
    revert He. apply Hnd.
    pose proof (Z.div_lt_upper_bound r 262144 5).
    pose proof (Z.div_le_lower_bound r 262144 0). lia.
Qed.

(** X24. The preflight answer of [CORS] never carries the configured
    maximum age as a number: for a request with method [OPTIONS] from an
    allowed origin and a positive [MaxAge], the answer is 204 and its
    [Access-Control-Max-Age] header is [string(rune(MaxAge))], the UTF-8
    encoding of the code point [MaxAge] (at most four bytes), which is
    different from the decimal text of [MaxAge] for every value. *)
Theorem cors_max_age_is_not_a_number {A} (config : middleware.CORSConfig)
    (r : handler.Request A) :
  origin_allowed config (handler.Header_Get r "Origin") ->
  0 < middleware.MaxAge config ->
  exists headers value,
    middleware.CORS config "OPTIONS" r = middleware.Answer 204 "" headers /\
    headers !! "Access-Control-Max-Age" = Some value /\
    (String.length value <= 4)%nat /\
    value <> redis.FormatInt (middleware.MaxAge config).
Proof.
  intros Hallowed Hage. unfold middleware.CORS.
  set (allowedOrigin := if (_ && _)%bool then _ else _).
  assert (Hne : String.eqb allowedOrigin "" = false).
  { unfold allowedOrigin. destruct Hallowed as [->|[Horigin Hin]]; [reflexivity|].
    destruct (_ && _)%bool; [reflexivity|].
    assert (Hex : existsb (fun o => String.eqb o (handler.Header_Get r "Origin"))
                    (middleware.AllowedOrigins config) = true).
    { apply existsb_exists. exists (handler.Header_Get r "Origin").
      split; [by apply list_elem_of_In|apply String.eqb_refl]. }
    rewrite Hex. by apply String.eqb_neq. }
  rewrite Hne. cbn [negb]. change (String.eqb "OPTIONS" "OPTIONS") with true. cbv iota.
  apply Z.ltb_lt in Hage as Hage'. rewrite Hage'.
  eexists _, _. split; [reflexivity|]. rewrite lookup_insert_eq.
  split_and!; [reflexivity| |by apply string_of_rune_not_decimal].
  unfold middleware.string_of_rune.
  repeat match goal with |- context [if ?b then _ else _] => destruct b end;
    cbn [String.length]; lia.
Qed.

Lemma cors_max_age_is_not_a_number_witness :
  let r := {| handler.Header := {["Origin" := "https://overlay.example"%string]};
              handler.RemoteAddr := "10.0.0.1:4711";
              handler.Body := @handler.Unreadable unit |} in
  exists headers value,
    middleware.CORS middleware.DefaultCORSConfig "OPTIONS" r
      = middleware.Answer 204 "" headers /\
    headers !! "Access-Control-Max-Age" = Some value /\
    (String.length value <= 4)%nat /\
    value <> redis.FormatInt (middleware.MaxAge middleware.DefaultCORSConfig).
Proof.
  cbv zeta.
  apply (cors_max_age_is_not_a_number middleware.DefaultCORSConfig).
  - left. reflexivity.
  - reflexivity.
Defined.


(** ** One event per order, and what a first notification costs *)

(** A webhook for an order whose payment is paid changes no row and
    publishes nothing; it can only claim its key. *)
Lemma ProcessWebhook_paid_order (now : Z) (s : service.World)
    (params : service.ProcessWebhookParams) (pay : payment.Payment) :
  postgres.PaymentRepository.GetByExternalID (service.db s)
    (service.Provider params) (service.OrderID params) = Ok pay ->
  payment.IsPaid pay = true ->
  service.db (service.ProcessWebhook now s params).1 = service.db s /\
  redis.published (service.rds (service.ProcessWebhook now s params).1)
    = redis.published (service.rds s).
Proof.
  intros Hpay Hpaid. unfold service.ProcessWebhook.
  pose proof (SetNX_published now (service.rds s)
                (redis.IdempotencyKey (payment.Provider_string (service.Provider params))
                   (service.OrderID params) (service.TransactionID params))
                "processing" (24 * Hour)) as Hp.
  destruct (redis.SetNX _ _ _ _ _) as [[r set] err]. cbn [fst] in Hp.
  destruct set, err; cbn [negb]; proj; rewrite ?Hpay, ?Hpaid; by proj.
Qed.

(** After the payment a query returned was saved as paid, the same query
    returns a paid payment. *)
Lemma GetByExternalID_paid (now : Z) (prov : payment.Provider) (order : string)
    (pay : payment.Payment) (rows : list payment.Payment) :
  List.find (fun p => payment.Provider_eqb (payment.Provider_ p) prov
                      && String.eqb (payment.ExternalID p) order) rows = Some pay ->
  exists pay',
    List.find (fun p => payment.Provider_eqb (payment.Provider_ p) prov
                        && String.eqb (payment.ExternalID p) order)
      (updated now (payment.MarkAsPaid now pay) rows) = Some pay' /\
    payment.IsPaid pay' = true.
Proof.
  intros Hf.
  assert (Hext : String.eqb (payment.ExternalID pay) order = true).
  { apply List.find_some in Hf as [_ H]. by apply andb_true_iff in H as [_ H]. }
  induction rows as [|r rows IH]; [discriminate Hf|].
  cbn [List.find updated map] in *. fold (updated now (payment.MarkAsPaid now pay) rows).
  destruct (payment.ID r =? payment.ID (payment.MarkAsPaid now pay))%N eqn:Hid.
  - cbn [postgres.PaymentRepository.update_row payment.Provider_ payment.ExternalID
         payment.MarkAsPaid].
    rewrite Hext, andb_true_r.
    destruct (payment.Provider_eqb (payment.Provider_ r) prov) eqn:Hprov.
    + eexists. split; [reflexivity|reflexivity].
    + cbn [andb] in Hf. by apply IH.
  - destruct (payment.Provider_eqb (payment.Provider_ r) prov
              && String.eqb (payment.ExternalID r) order) eqn:Hr.
    + injection Hf as ->. cbn in Hid. by rewrite N.eqb_refl in Hid.
    + by apply IH.
Qed.

(** X25. One event per order through webhooks. Under the conditions of the
    normal path of a paid webhook (Redis reachable, key free, payment found
    and not paid, donation found), after that webhook no later webhook for
    the same provider and order, whatever its transaction id, status and
    instant, changes a row or publishes: through any sequence of them the
    published events are those before the first webhook plus exactly one. *)
Theorem paid_order_notifies_once (now : Z) (s : service.World)
    (params : service.ProcessWebhookParams) (pay : payment.Payment)
    (don : donation.Donation) (later : list (Z * service.ProcessWebhookParams)) :
  redis.reachable (service.rds s) = true ->
  redis.live now (redis.keys (service.rds s)) (key_of params) = false ->
  postgres.PaymentRepository.GetByExternalID (service.db s)
    (service.Provider params) (service.OrderID params) = Ok pay ->
  payment.IsPaid pay = false ->
  postgres.DonationRepository.GetByID (service.db s) (payment.DonationID pay) = Ok don ->
  service.Status params = payment.StatusPaid ->
  Forall (for_order (service.Provider params) (service.OrderID params)) later ->
  let s1 := (service.ProcessWebhook now s params).1 in
  let s2 := foldl process s1 later in
  service.db s2 = service.db s1 /\
  redis.published (service.rds s2) =
    redis.published (service.rds s) ++
      [("donations:new"%string,
        redis.NewDonationEvent (uuid.String (payment.DonationID pay))
          (donation.DonorName don) (donation.Message don) (donation.Amount don) now)].
Proof.
  intros Hup Hfree Hpay Hunpaid Hdon Hst Hlater. cbv zeta.
  rewrite (ProcessWebhook_paid_path now s params pay don) by done. cbn [fst].
  destruct (paid_result_reads now s params pay don Hpay Hdon)
    as (? & ? & _ & _ & _ & _ & _ & _ & Hpub & _).
  rewrite <- Hpub. clear Hpub.
  assert (Hpaid : exists pay',
            postgres.PaymentRepository.GetByExternalID
              (service.db (paid_result now s params pay don))
              (service.Provider params) (service.OrderID params) = Ok pay' /\
            payment.IsPaid pay' = true).
  { unfold postgres.PaymentRepository.GetByExternalID in *.
    destruct (List.find _ (postgres.payments (service.db s))) as [p|] eqn:Hf;
      [|discriminate Hpay].
    injection Hpay as ->.
    destruct (GetByExternalID_paid now _ _ _ _ Hf) as (pay' & Hf' & Hp').
    exists pay'. unfold paid_result. proj.
    cbn [postgres.with_donations postgres.with_payments postgres.payments].
    by rewrite Hf'. }
  generalize dependent (paid_result now s params pay don).
  induction Hlater as [|[t w] rest [Hprov Horder] _ IH]; intros s1 Hpaid; [done|].
  cbn [foldl]. cbn [fst snd] in Hprov, Horder.
  destruct Hpaid as (pay' & Hfind & Hp').
  destruct (ProcessWebhook_paid_order t s1 w pay') as [Hdb Hevents];
    [by rewrite Hprov, Horder|done|].
  change (process s1 (t, w)) with (service.ProcessWebhook t s1 w).1.
  destruct (IH (service.ProcessWebhook t s1 w).1) as [IHdb IHev].
  { exists pay'. by rewrite Hdb. }
  split; congruence.
Qed.

Lemma paid_order_notifies_once_witness :
  let later :=
    [(2000, demo_params payment.StatusPaid);
     (3000, {| service.Provider := payment.ProviderMidtrans;
               service.OrderID := "DON-abc";
               service.TransactionID := "tx-2";
               service.Status := payment.StatusPaid |});
     (90000 * 10 ^ 9, demo_params payment.StatusExpired)] in
  let s1 := (service.ProcessWebhook 1000 (demo_world true)
               (demo_params payment.StatusPaid)).1 in
  let s2 := foldl process s1 later in
  service.db s2 = service.db s1 /\
  redis.published (service.rds s2) =
    redis.published (service.rds (demo_world true)) ++
      [("donations:new"%string,
        redis.NewDonationEvent (uuid.String (payment.DonationID demo_payment))
          (donation.DonorName demo_donation) (donation.Message demo_donation)
          (donation.Amount demo_donation) 1000)].
Proof.
  cbv zeta.
  apply (paid_order_notifies_once 1000 (demo_world true)
           (demo_params payment.StatusPaid) demo_payment demo_donation);
    try reflexivity.
  repeat constructor.
Defined.

(** X26. The idempotency key does not name the status: a notification that
    reports pending (or refunded) claims the key of its transaction and
    does nothing else, so a later notification of the same provider, order
    and transaction id that arrives within 24 hours, a settlement for
    instance, is taken for a duplicate: [ProcessWebhook] returns success and
    the database and the published events are as before the first
    notification. *)
Theorem first_notification_blocks_the_next (t1 t2 : Z) (s : service.World)
    (first next : service.ProcessWebhookParams) :
  redis.reachable (service.rds s) = true ->
  redis.live t1 (redis.keys (service.rds s)) (key_of first) = false ->
  service.Status first = payment.StatusPending \/
  service.Status first = payment.StatusRefunded ->
  key_of next = key_of first ->
  t2 < t1 + 24 * Hour ->
  let s1 := (service.ProcessWebhook t1 s first).1 in
  let res := service.ProcessWebhook t2 s1 next in
  res.2 = None /\
  service.db res.1 = service.db s /\
  redis.published (service.rds res.1) = redis.published (service.rds s).
Proof.
  intros Hup Hfree Hst Hkey Ht. cbv zeta.
  assert (Hfirst : exists s1,
            (service.ProcessWebhook t1 s first).1 = s1 /\
            service.db s1 = service.db s /\
            redis.published (service.rds s1) = redis.published (service.rds s) /\
            redis.keys (service.rds s1) !! key_of first
              = Some (redis.Marshal_string "processing", Some (t1 + 24 * Hour))).
  { unfold service.ProcessWebhook. fold (key_of first).
    rewrite (SetNX_free _ _ _ _ _ Hup Hfree). cbn [negb]. proj.
    destruct (postgres.PaymentRepository.GetByExternalID _ _ _) as [pay|e].
    - destruct (payment.IsPaid pay);
        [|destruct Hst as [-> | ->]]; eexists; (split; [reflexivity|]); proj;
        cbn [redis.published redis.keys]; by rewrite lookup_insert_eq.
    - eexists. split; [reflexivity|]. proj. cbn [redis.published redis.keys].
      by rewrite lookup_insert_eq. }
  destruct Hfirst as (s1 & -> & Hdb & Hpub & Hk).
  destruct (ProcessWebhook_claimed t2 s1 next) as (s2 & Hrun & Hdb2 & Hrds2).
  { rewrite Hkey. unfold redis.live. rewrite Hk. by apply Z.ltb_lt. }
  rewrite Hrun. cbn [fst snd]. split_and!; [done|congruence|by rewrite Hrds2].
Qed.

Lemma first_notification_blocks_the_next_witness :
  let s1 := (service.ProcessWebhook 1000 (demo_world true)
               (demo_params payment.StatusPending)).1 in
  let res := service.ProcessWebhook 2000 s1 (demo_params payment.StatusPaid) in
  res.2 = None /\
  service.db res.1 = service.db (demo_world true) /\
  redis.published (service.rds res.1) = redis.published (service.rds (demo_world true)).
Proof.
  cbv zeta.
  apply (first_notification_blocks_the_next 1000 2000 (demo_world true)
           (demo_params payment.StatusPending) (demo_params payment.StatusPaid));
    try reflexivity.
  left; reflexivity.
Defined.


(** ** Deleting a cache key *)

(** X27. [Delete] forgets a key for every reader of the cache: on a
    reachable Redis it succeeds whether or not the key was stored, and in
    the store it leaves, at every instant, [Exists] answers [false],
    [GetString] is a cache miss, [GetCounter] is 0 and [SetNX] on the key
    (with a time to live that is not negative) takes it again; [Exists] and [GetString] answer for any other key as
    before. In any store [Exists] answers [true] exactly when [GetString]
    returns a value. *)
Theorem Delete_forgets_key (c : redis.Client) (key : string) :
  redis.reachable c = true ->
  exists c',
    redis.Delete c key = (c', None) /\
    (forall t,
       redis.Exists t c' key = false /\
       redis.GetString t c' key = Err redis.ErrCacheMiss /\
       redis.GetCounter t c' key = Ok 0 /\
       forall value ttl, 0 <= ttl -> (redis.SetNX t c' key value ttl).1.2 = true) /\
    (forall t other, other <> key ->
       redis.Exists t c' other = redis.Exists t c other /\
       redis.GetString t c' other = redis.GetString t c other) /\
    (forall t (d : redis.Client) k,
       redis.Exists t d k = true <-> exists v, redis.GetString t d k = Ok v).
Proof.
  intros Hup. unfold redis.Delete. rewrite Hup. cbn [negb].
  eexists. split; [reflexivity|].
  unfold redis.Exists, redis.GetString, redis.GetCounter, redis.client_Get,
    redis.value_at, redis.live, redis.SetNX, redis.client_SetNX, redis.live.
  cbn [redis.with_keys redis.reachable redis.keys].
  split_and!.
  - intros t. rewrite Hup. cbn [negb]. rewrite lookup_delete_eq. done.
  - intros t other Hne. rewrite Hup. cbn [negb].
    by rewrite lookup_delete_ne.
  - intros t d k. destruct (redis.reachable d); cbn [negb].
    + destruct (redis.keys d !! k) as [[v [e|]]|]; [destruct (t <? e)| |];
        split; try done; try (by intros [? ?]); by eexists.
    + split; [done|by intros [? ?]].
Qed.

Lemma Delete_forgets_key_witness :
  exists c',
    redis.Delete {| redis.reachable := true;
                    redis.keys := {[ "session:abc"%string := ("ayu"%string, None) ]};
                    redis.published := [] |} "session:abc" = (c', None) /\
    (forall t,
       redis.Exists t c' "session:abc" = false /\
       redis.GetString t c' "session:abc" = Err redis.ErrCacheMiss /\
       redis.GetCounter t c' "session:abc" = Ok 0 /\
       forall value ttl, 0 <= ttl ->
         (redis.SetNX t c' "session:abc" value ttl).1.2 = true) /\
    (forall t other, other <> "session:abc"%string ->
       redis.Exists t c' other
       = redis.Exists t {| redis.reachable := true;
                           redis.keys := {[ "session:abc"%string := ("ayu"%string, None) ]};
                           redis.published := [] |} other /\
       redis.GetString t c' other
       = redis.GetString t {| redis.reachable := true;
                              redis.keys := {[ "session:abc"%string := ("ayu"%string, None) ]};
                              redis.published := [] |} other) /\
    (forall t (d : redis.Client) k,
       redis.Exists t d k = true <-> exists v, redis.GetString t d k = Ok v).
Proof.
  apply (Delete_forgets_key
           {| redis.reachable := true;
              redis.keys := {[ "session:abc"%string := ("ayu"%string, None) ]};
              redis.published := [] |} "session:abc").
  reflexivity.
Defined.


(** ** Paid is not terminal under manual reconciliation *)

Lemma IsPaid_status (pay : payment.Payment) :
  payment.IsPaid pay = true -> payment.Status_ pay = payment.StatusPaid.
Proof. unfold payment.IsPaid. by destruct (payment.Status_ pay). Qed.

(** C1. [ProcessWebhook] returns early on [pay.IsPaid()]; [ManualReconcile]
    has no such test. For every world in which the payment [paymentID] is
    paid and its donation exists (payment ids being unique, as the primary
    key makes them): a webhook, whatever it reports and whichever order it
    names, leaves the payment paid, while [ManualReconcile] with [failed],
    one of the two statuses the admin endpoint passes, returns success and
    stores the payment as failed. *)
Theorem manual_reconcile_unpays (now1 now2 : Z) (s : service.World) (paymentID : N)
    (reason : string) (pay : payment.Payment) (don : donation.Donation)
    (params : service.ProcessWebhookParams) :
  NoDup (payment.ID <$> postgres.payments (service.db s)) ->
  postgres.PaymentRepository.GetByID (service.db s) paymentID = Ok pay ->
  payment.IsPaid pay = true ->
  postgres.DonationRepository.GetByID (service.db s) (payment.DonationID pay) = Ok don ->
  status_of s paymentID = Some payment.StatusPaid /\
  status_of (service.ProcessWebhook now1 s params).1 paymentID
    = Some payment.StatusPaid /\
  (service.ManualReconcile now2 s paymentID payment.StatusFailed reason).2 = None /\
  status_of (service.ManualReconcile now2 s paymentID payment.StatusFailed reason).1
    paymentID = Some payment.StatusFailed.
Proof.
  intros Hnd Hpay Hpaid Hdon.
  assert (Hfind : List.find (by_id paymentID) (postgres.payments (service.db s))
                  = Some pay).
  { unfold postgres.PaymentRepository.GetByID in Hpay. fold (by_id paymentID) in Hpay.
    destruct (List.find _ _) as [p|]; [|discriminate Hpay]. by injection Hpay as ->. }
  assert (Hstatus : status_of s paymentID = Some payment.StatusPaid).
  { unfold status_of. fold (by_id paymentID). rewrite Hfind. cbn.
    by rewrite (IsPaid_status pay Hpaid). }
  split; [exact Hstatus|]. split.
  - by destruct (paid_step s paymentID (Webhook now1 params) I Hnd Hstatus).
  - rewrite (ManualReconcile_found now2 s paymentID payment.StatusFailed reason
               pay don Hpay Hdon).
    cbn [fst snd]. split; [reflexivity|].
    unfold status_of. fold (by_id paymentID). proj.
    cbn [postgres.with_donations postgres.with_payments postgres.payments].
    rewrite find_updated, Hfind. cbn [fmap option_fmap option_map].
    assert (Hid : payment.ID pay = paymentID) by (by apply find_by_id_ID in Hfind).
    assert (He : (payment.ID pay
                  =? payment.ID (reconciled_payment now2 payment.StatusFailed reason pay))%N
                 = true) by (cbn; apply N.eqb_refl).
    rewrite He. reflexivity.
Qed.

Lemma manual_reconcile_unpays_witness :
  status_of paid_world 1 = Some payment.StatusPaid /\
  status_of (service.ProcessWebhook 9000 paid_world
               {| service.Provider := payment.ProviderMidtrans;
                  service.OrderID := "DON-abc";
                  service.TransactionID := "tx-2";
                  service.Status := payment.StatusFailed |}).1 1
    = Some payment.StatusPaid /\
  (service.ManualReconcile 9500 paid_world 1 payment.StatusFailed
     "chargeback reported by the bank (by admin)").2 = None /\
  status_of (service.ManualReconcile 9500 paid_world 1 payment.StatusFailed
               "chargeback reported by the bank (by admin)").1 1
    = Some payment.StatusFailed.
Proof.
  eapply (manual_reconcile_unpays 9000 9500 paid_world 1).
  - vm_compute. apply NoDup_singleton.
  - vm_compute. reflexivity.
  - vm_compute. reflexivity.
  - vm_compute. reflexivity.
Defined.

